(** * Thermal load review tools: a shallow embedding of [loadreviewtools.py]

    The Python module reads whitespace-delimited plot files into
    dictionaries of numpy arrays and writes two text outputs: the
    ending configuration of a propagation run and the thermal load
    review report.  This file embeds the class [LoadReviewTools]
    (its registry, [_readfile], [_writeReportData],
    [writeChecklistData], [writePropData]) and proves properties of it.

    Conventions of the embedding:
    - a Python exception is a value of [exn]; code that may raise
      returns a [result];
    - writes to a file object are collected, in order, in the
      [written] component of the writer monad [W];
    - the attributes of [self] that the code mutates are threaded
      through explicitly;
    - numpy's [float64] is [spec_float], the IEEE 754 datatype of the
      standard library;
    - the conversions performed by the Python and numpy run times
      (text to [float64], [%f], [str()]) are parameters. *)

From Stdlib Require Import ZArith String Ascii List Bool Lia.
From Stdlib Require Import Floats.SpecFloat.
From stdpp Require Import base option list gmap strings.

Local Open Scope string_scope.

(** ** Exceptions and results *)

Inductive exn : Type :=
| FileNotFoundError
| IndexError
| KeyError
| ValueError
| TypeError.

Inductive result (A : Type) : Type :=
| Ok (a : A)
| Raise (e : exn).
Arguments Ok {A} a.
Arguments Raise {A} e.

#[global] Instance result_ret : MRet result := fun A a => Ok a.
#[global] Instance result_bind : MBind result := fun A B f m =>
  match m with
  | Ok a => f a
  | Raise e => Raise e
  end.

#[global] Instance result_fmap : FMap result := fun A B f m =>
  match m with
  | Ok a => Ok (f a)
  | Raise e => Raise e
  end.

Definition is_ok {A} (r : result A) : bool :=
  match r with Ok _ => true | Raise _ => false end.

Definition raises {A} (r : result A) : Prop := ∃ e, r = Raise e.

Definition of_option {A} (e : exn) (o : option A) : result A :=
  match o with Some a => Ok a | None => Raise e end.

(** ** float64 *)

Definition double : Type := spec_float.

Definition isnan (x : double) : bool :=
  match x with S754_nan => true | _ => false end.

Definition neg_inf : double := S754_infinity true.
Definition pos_inf : double := S754_infinity false.

(** ** Byte strings: [lower], [strip], [split] *)

Definition nl : string := String "010" "".

Definition is_space (c : ascii) : bool :=
  match c with
  | "009" | "010" | "011" | "012" | "013" | " " => true
  | _ => false
  end%char.

Definition lower_char (c : ascii) : ascii :=
  let n := nat_of_ascii c in
  if (65 <=? n)%nat && (n <=? 90)%nat then ascii_of_nat (n + 32) else c.

Fixpoint lower (s : string) : string :=
  match s with
  | EmptyString => EmptyString
  | String c s' => String (lower_char c) (lower s')
  end.

Fixpoint lstrip (s : string) : string :=
  match s with
  | EmptyString => EmptyString
  | String c s' => if is_space c then lstrip s' else s
  end.

(** [rstrip] keeps a character when it is not a space or when
    something other than spaces follows it. *)
Fixpoint rstrip (s : string) : string :=
  match s with
  | EmptyString => EmptyString
  | String c s' =>
      match rstrip s' with
      | EmptyString => if is_space c then EmptyString else String c EmptyString
      | r => String c r
      end
  end.

Definition strip (s : string) : string := rstrip (lstrip s).

(** [split_go cur s]: [cur] is the token being read, reversed. *)
Fixpoint split_go (cur : option string) (s : string) : list string :=
  match s with
  | EmptyString =>
      match cur with Some w => [String.rev w] | None => [] end
  | String c s' =>
      if is_space c then
        match cur with
        | Some w => String.rev w :: split_go None s'
        | None => split_go None s'
        end
      else
        split_go (Some (String c (default EmptyString cur))) s'
  end.

(** [bytes.split()] without a separator. *)
Definition split (s : string) : list string := split_go None s.

(** [line.strip().split()] *)
Definition tokens (line : string) : list string := split (strip line).

(** ** numpy arrays and tables *)

Inductive value : Type :=
| Bytes (b : string)
| Float (x : double).

(** A one-dimensional array of dtype [S] or [float64]. *)
Inductive ndarray : Type :=
| BytesArr (l : list string)
| FloatArr (l : list double).

Definition elements (a : ndarray) : list value :=
  match a with
  | BytesArr l => Bytes <$> l
  | FloatArr l => Float <$> l
  end.

(** [np.array] of a list of byte strings: the empty list gives an
    empty [float64] array. *)
Definition np_array_bytes (l : list string) : ndarray :=
  match l with
  | [] => FloatArr []
  | _ => BytesArr l
  end.

(** [a[i]], with Python's negative indices. *)
Definition getitem (a : ndarray) (i : Z) : result value :=
  let l := elements a in
  let n := Z.of_nat (length l) in
  let j := (if i <? 0 then i + n else i)%Z in
  if ((0 <=? j) && (j <? n))%Z
  then of_option IndexError (l !! Z.to_nat j)
  else Raise IndexError.

Abbreviation table := (gmap string ndarray).

Definition dict_get {V} (d : gmap string V) (k : string) : result V :=
  of_option KeyError (d !! k).

(** ** The registry kept in [self] *)

Record subheader : Type := {
  columns : nat;
  names : list string;
  title : string
}.

Definition fileparts : gmap string string :=
  list_to_map [
    ("psmc", "_1pdeaat_plot.txt");
    ("dpa", "_dpa_plot.txt");
    ("dea", "_dea_plot.txt");
    ("tank", "_pftank2t_plot.txt");
    ("aca", "_aca_plot.txt");
    ("mups", "_mups_valves_plot.txt");
    ("oba", "_4rt700t_plot.txt");
    ("pline03t", "_pline03t_plot.txt");
    ("pline04t", "_pline04t_plot.txt");
    ("hrc", "_2ceahvpt_plot.txt");
    ("acisfp", "_acis_fp_plot.txt")
  ].

Definition headerinfo_list : list (string * subheader) := [
  ("psmc", {| columns := 6;
      names := ["Time"; "1PDEAAT"; "PIN1AT"; "Pitch"; "Roll"; "Sun_Body_Y"];
      title := "ACIS: PSMC" |});
  ("dpa", {| columns := 11;
      names := ["Time"; "1DPAMZT"; "DPA0"; "Pitch"; "Roll"; "Sun_Body_Y";
                "SimPos"; "FEP_Count"; "CCD_Count"; "Vid_Board"; "Clocking"];
      title := "ACIS: DPA" |});
  ("dea", {| columns := 11;
      names := ["Time"; "1DEAMZT"; "DEA0"; "Pitch"; "Roll"; "Sun_Body_Y";
                "SimPos"; "FEP_Count"; "CCD_Count"; "Vid_Board"; "Clocking"];
      title := "ACIS: DEA" |});
  ("tank", {| columns := 7;
      names := ["Time"; "PFTANK2T"; "PFTANKIP"; "PF0TANK2T"; "Pitch"; "Roll";
                "Sun_Body_Y"];
      title := "Spacecraft: Fuel Tank" |});
  ("aca", {| columns := 5;
      names := ["Time"; "AACCCDPT"; "ACA0"; "Pitch"; "Roll"];
      title := "Spacecraft: Aspect Camera" |});
  ("mups", {| columns := 6;
      names := ["Time"; "PM1THV2T"; "PM1THV2T_0"; "PM2THV1T"; "PM2THV1T_0";
                "PM2THV1T_1"];
      title := "Spacecraft: MUPS Valves" |});
  ("cc", {| columns := 5;
      names := ["Time"; "TCYLAFT6"; "TCYLAFT6_0"; "Pitch"; "Roll"];
      title := "Spacecraft: Central Cylinder" |});
  ("oba", {| columns := 5;
      names := ["Time"; "4RT700T"; "4RT700T_0"; "Pitch"; "Roll"];
      title := "OBA: Forward Bulkhead" |});
  ("pline03t", {| columns := 5;
      names := ["Time"; "PLINE03T"; "PLINE03T_0"; "Pitch"; "Roll"];
      title := "PLINE03T" |});
  ("pline04t", {| columns := 5;
      names := ["Time"; "PLINE04T"; "PLINE04T_0"; "Pitch"; "Roll"];
      title := "PLINE04T" |});
  ("hrc", {| columns := 19;
      names := ["Time"; "2CEAHVPT"; "CEA0"; "CEA1"; "15V"; "24V"; "HRCI";
                "HRCS"; "Shield"; "5V_A"; "5V_B"; "Pitch"; "Roll"; "SimPos";
                "FEP_Count"; "CCD_Count"; "Vid_Board"; "Clocking";
                "DH_Heater"];
      title := "ISIM: HRC CEA" |});
  ("acisfp", {| columns := 23;
      names := ["Time"; "FPTEMP"; "FPTEMP_Rel"; "Solid_Angle"; "in_out";
                "1CBAT"; "SIM_PX"; "Pitch"; "Roll"; "Sun_Body_Y"; "SimPos";
                "FEP_Count"; "CCD_Count"; "Vid_Board"; "Clocking"; "CTI";
                "Radmon_Enabled"; "DH_Heater"; "ACIS_NIL_Undercover"; "SI";
                "Cold_FP"; "FPTEMP_Limit"; "Within_Limit"];
      title := "ISIM: ACIS FP" |})
].

Definition headerinfo : gmap string subheader := list_to_map headerinfo_list.

Definition propnames : list string := [
  "PM1THV2T"; "PM1THV2T_0"; "PM2THV1T"; "PM2THV1T_0"; "PM2THV1T_1";
  "1PDEAAT"; "PIN1AT"; "TCYLAFT6"; "TCYLAFT6_0"; "1DPAMZT"; "DPA0";
  "PFTANK2T"; "PF0TANK2T"; "SimPos"; "chips"; "FEP_Count"; "CCD_Count";
  "Vid_Board"; "Clocking"; "AACCCDPT"; "ACA0"; "4RT700T"; "4RT700T_0";
  "1DEAMZT"; "DEA0"; "Roll"; "Sun_Body_Y"; "PLINE03T"; "PLINE03T_0";
  "PLINE04T"; "PLINE04T_0"; "2CEAHVPT"; "CEA0"; "CEA1"; "15V"; "24V";
  "HRCI"; "HRCS"; "Shield"; "5V_A"; "5V_B"; "FPTEMP"; "FPTEMP_Rel";
  "Solid_Angle"; "in_out"; "1CBAT"; "CTI"; "Radmon_Enabled"; "DH_Heater";
  "ACIS_NIL_Undercover"; "SI"; "Cold_FP"; "FPTEMP_Limit"; "Within_Limit"
].

Definition plotorder : list string :=
  ["oba"; "tank"; "mups"; "psmc"; "dpa"; "dea"; "aca"; "pline03t";
   "pline04t"; "acisfp"].

(** The list literal tested by [name.lower() in [...]]. *)
Definition opaque_names : list string :=
  ["time"; "si"; "within_limit"; "15v"; "24v"; "hrci"; "hrcs"; "shield";
   "5v_a"; "5v_b"].

Definition is_opaque (name : string) : bool :=
  bool_decide (lower name ∈ opaque_names).

(** ** The writer monad of a file object

    A computation writes strings to one file object and then returns
    or raises; what was written before an exception stays written. *)

Record W (A : Type) : Type := mkW {
  written : list string;
  outcome : result A
}.
Arguments mkW {A} written outcome.
Arguments written {A} w.
Arguments outcome {A} w.

#[global] Instance W_ret : MRet W := fun A a => mkW [] (Ok a).
#[global] Instance W_bind : MBind W := fun A B f m =>
  match m with
  | mkW ws (Ok a) => let '(mkW ws' r) := f a in mkW (ws ++ ws') r
  | mkW ws (Raise e) => mkW ws (Raise e)
  end.

(** [outfile.write(s)] *)
Definition write (s : string) : W unit := mkW [s] (Ok tt).

(** Evaluation of an expression that may raise. *)
Definition lift {A} (r : result A) : W A := mkW [] r.

(** [for x in l: body(x)] *)
Fixpoint for_ {A} (l : list A) (body : A → W unit) : W unit :=
  match l with
  | [] => mret tt
  | x :: l' => body x ≫= λ _, for_ l' body
  end.

(** ** numpy: [argmax], [argmin], [nanargmax], [nanargmin] *)

(** The scan of numpy's [argmax] for floating-point arrays: the index
    moves when [not (x <= mp)], and the scan stops at a NaN. *)
Fixpoint argmax_from (mp : double) (max_ind i : nat) (l : list double) : nat :=
  match l with
  | [] => max_ind
  | x :: l' =>
      if negb (SFleb x mp)
      then (if isnan x then i else argmax_from x i (S i) l')
      else argmax_from mp max_ind (S i) l'
  end.

Definition argmax (a : list double) : result nat :=
  match a with
  | [] => Raise ValueError
  | x :: l => if isnan x then Ok 0%nat else Ok (argmax_from x 0 1 l)
  end.

Fixpoint argmin_from (mp : double) (min_ind i : nat) (l : list double) : nat :=
  match l with
  | [] => min_ind
  | x :: l' =>
      if negb (SFleb mp x)
      then (if isnan x then i else argmin_from x i (S i) l')
      else argmin_from mp min_ind (S i) l'
  end.

Definition argmin (a : list double) : result nat :=
  match a with
  | [] => Raise ValueError
  | x :: l => if isnan x then Ok 0%nat else Ok (argmin_from x 0 1 l)
  end.

(** [numpy.lib.nanfunctions._replace_nan]: the array with its NaNs
    replaced by [val], and the mask of the replaced positions. *)
Definition _replace_nan (a : list double) (val : double) : list double * list bool :=
  ((λ x, if isnan x then val else x) <$> a, isnan <$> a).

Definition nanargmax (a : list double) : result nat :=
  let '(a', mask) := _replace_nan a neg_inf in
  if negb (length mask =? 0)%nat && forallb id mask
  then Raise ValueError
  else argmax a'.

Definition nanargmin (a : list double) : result nat :=
  let '(a', mask) := _replace_nan a pos_inf in
  if negb (length mask =? 0)%nat && forallb id mask
  then Raise ValueError
  else argmin a'.

(** ** The class [LoadReviewTools] *)

(** The part of the process state that the methods change: the
    registry [self.headerinfo], the contents written to the output
    file of the run, and the contents written to [sys.stdout].  An
    exception ends the process; what was written stays in both. *)
Record state : Type := mkState {
  self_headerinfo : gmap string subheader;
  outfile : list string;
  sys_stdout : list string
}.

Definition initial_state : state :=
  {| self_headerinfo := headerinfo; outfile := []; sys_stdout := [] |}.

(** [for x in l: body], where the body changes the state and may raise. *)
Fixpoint for_state {A} (body : state → A → state * result unit)
    (l : list A) (st : state) : state * result unit :=
  match l with
  | [] => (st, Ok tt)
  | x :: l' =>
      match body st x with
      | (st', Ok _) => for_state body l' st'
      | (st', Raise e) => (st', Raise e)
      end
  end.

Definition dashes : string :=
  fold_right append "" (replicate 79 "-").

Section LoadReviewTools.

(** The file system: [fs filename] is what [readlines()] returns for
    the file, [None] when it cannot be opened. *)
Variable fs : string → option (list string).

(** [np.double(token)]; [None] when the text is not a number. *)
Variable np_double : string → option double.

(** ["%f" % x] for a [float64], and ["%s" % v] for an array element. *)
Variable pct_f : double → string.
Variable pct_s : value → string.

(** ["%f" % v] raises [TypeError] on a byte string. *)
Definition fmt_f (v : value) : result string :=
  match v with
  | Float x => Ok (pct_f x)
  | Bytes _ => Raise TypeError
  end.

(** [line.strip().split()[num]] *)
Definition token_at (num : nat) (line : string) : result string :=
  of_option IndexError (tokens line !! num).

Definition double_at (num : nat) (line : string) : result double :=
  token_at num line ≫= λ tok, of_option ValueError (np_double tok).

(** The array built for column [num], named [name]. *)
Definition read_column (num : nat) (name : string) (datalines : list string)
    : result ndarray :=
  if is_opaque name
  then np_array_bytes <$> mapM (token_at num) datalines
  else FloatArr <$> mapM (double_at num) datalines.

(** The loop over [enumerate(subheaderinfo["names"])], from index [num]. *)
Fixpoint read_columns (num : nat) (names : list string)
    (datalines : list string) (data : table) : result table :=
  match names with
  | [] => Ok data
  | name :: names' =>
      read_column num name datalines ≫= λ col,
      read_columns (S num) names' datalines (<[name := col]> data)
  end.

Definition _readfile (filename : string) (subheaderinfo : subheader)
    : result table :=
  match fs filename with
  | None => Raise FileNotFoundError
  | Some [] => Raise IndexError
  | Some (header :: datalines) =>
      read_columns 0 (names subheaderinfo) datalines ∅
  end.

(** ["    %s: %s\n"] or ["    %s: %f\n"] applied to [(name, data[name][i])]. *)
Definition value_line (data : table) (i : Z) (name : string) : result string :=
  dict_get data name ≫= λ col,
  getitem col i ≫= λ v,
  if is_opaque name
  then Ok ("    " ++ name ++ ": " ++ pct_s v ++ nl)
  else fmt_f v ≫= λ s, Ok ("    " ++ name ++ ": " ++ s ++ nl).

(** [data["Time"][i]] rendered with [%s]. *)
Definition time_at (data : table) (i : Z) : result string :=
  dict_get data "Time" ≫= λ col, getitem col i ≫= λ v, Ok (pct_s v).

(** The block of value lines of row [i]. *)
Definition value_lines (data : table) (i : Z) (names : list string) : W unit :=
  for_ names (λ name, lift (value_line data i name) ≫= write).

(** The index chosen by [np.nanargmax] or [np.nanargmin] ([arg]) in
    the column, then the two values formatted in the line:
    [(reviewdata[name][ind], reviewdata["Time"][ind])].  A column of
    byte strings cannot reach this point under a name that is not
    opaque: the value lines before raise [TypeError] on it. *)
Definition extreme_args (arg : list double → result nat)
    (reviewdata : table) (name : string) : result (value * value) :=
  dict_get reviewdata name ≫= λ col,
  match col with
  | FloatArr a => arg a
  | BytesArr _ => Raise TypeError
  end ≫= λ ind,
  getitem col (Z.of_nat ind) ≫= λ v,
  dict_get reviewdata "Time" ≫= λ tcol,
  getitem tcol (Z.of_nat ind) ≫= λ t,
  Ok (v, t).

(** ["    %s: %f  (%s)\n" % (name, v, t)] *)
Definition extreme_line (name : string) (vt : value * value) : result string :=
  fmt_f vt.1 ≫= λ s,
  Ok ("    " ++ name ++ ": " ++ s ++ "  (" ++ pct_s vt.2 ++ ")" ++ nl).

Definition extreme_lines (arg : list double → result nat)
    (reviewdata : table) (names : list string) : W unit :=
  for_ names (λ name,
    if negb (is_opaque name)
    then lift (extreme_args arg reviewdata name ≫= extreme_line name) ≫= write
    else mret tt).

(** The writes of [_writeReportData] to its file object. *)
Definition _writeReportData (propdata reviewdata : table)
    (names : list string) (modelname : string) : W unit :=
  write (dashes ++ nl) ≫= λ _,
  write (modelname ++ " Report" ++ nl) ≫= λ _,
  write (dashes ++ nl ++ nl) ≫= λ _,
  write ("Propagation:" ++ nl) ≫= λ _,
  write ("------------" ++ nl) ≫= λ _,
  lift (time_at propdata 0) ≫= λ t,
  write ("Start:    " ++ t ++ nl) ≫= λ _,
  value_lines propdata 0 names ≫= λ _,
  write (nl ++ "Reviewed Schedule:" ++ nl) ≫= λ _,
  write ("-------------------" ++ nl) ≫= λ _,
  lift (time_at reviewdata 0) ≫= λ t,
  write ("Start:    " ++ t ++ nl) ≫= λ _,
  value_lines reviewdata 0 names ≫= λ _,
  write (nl ++ "Max Values:" ++ nl) ≫= λ _,
  extreme_lines nanargmax reviewdata names ≫= λ _,
  write (nl ++ "Min Values:" ++ nl) ≫= λ _,
  extreme_lines nanargmin reviewdata names ≫= λ _,
  lift (time_at reviewdata (-1)) ≫= λ t,
  write (nl ++ "End: " ++ t ++ nl) ≫= λ _,
  value_lines reviewdata (-1) names ≫= λ _,
  write (nl ++ nl ++ nl).

(** The two tables of a model, read under the schema [sub]. *)
Definition read_pair (propschedule reviewschedule : string)
    (hinfo : gmap string subheader) (name : string)
    : result (subheader * table * table) :=
  dict_get fileparts name ≫= λ part,
  dict_get hinfo name ≫= λ sub,
  _readfile (propschedule ++ part) sub ≫= λ propdata,
  _readfile (reviewschedule ++ part) sub ≫= λ reviewdata,
  Ok (sub, propdata, reviewdata).

(** The body of the loop of [writeChecklistData].  [datanames] is the
    list object stored in the registry, so [datanames.pop(0)] changes
    [self.headerinfo[name]["names"]]. *)
Definition checklist_body (propschedule reviewschedule : string)
    (st : state) (name : string) : state * result unit :=
  match read_pair propschedule reviewschedule (self_headerinfo st) name with
  | Raise e => (st, Raise e)
  | Ok (sub, propdata, reviewdata) =>
      match names sub with
      | [] => (st, Raise IndexError)
      | _ :: datanames =>
          let sub' := {| columns := columns sub; names := datanames;
                         title := title sub |} in
          let hinfo' := <[name := sub']> (self_headerinfo st) in
          let w1 := _writeReportData propdata reviewdata datanames (title sub') in
          let st1 := mkState hinfo' (outfile st ++ written w1) (sys_stdout st) in
          match outcome w1 with
          | Raise e => (st1, Raise e)
          | Ok _ =>
              let w2 := _writeReportData propdata reviewdata datanames (title sub') in
              (mkState hinfo' (outfile st1) (sys_stdout st1 ++ written w2),
               outcome w2)
          end
      end
  end.

Definition writeChecklistData (propschedule reviewschedule : string)
    (st : state) : state * result unit :=
  let reviewfilename := reviewschedule ++ "_Thermal_Load_Review_Report.txt" in
  match for_state (checklist_body propschedule reviewschedule) plotorder st with
  | (st', Raise e) => (st', Raise e)
  | (st', Ok _) =>
      (mkState (self_headerinfo st') (outfile st')
         (sys_stdout st' ++
            ["Wrote thermal report data to " ++ reviewfilename ++
             "_Thermal_Load_Review_Report.txt" ++ nl ++ nl]),
       Ok tt)
  end.

(** The body of the loop of [writePropData]: the writes to the
    output file for the model [name] at position [num]. *)
Definition prop_body (propschedule : string) (hinfo : gmap string subheader)
    (numname : nat * string) : W unit :=
  let '(num, name) := numname in
  lift (dict_get fileparts name ≫= λ part,
        dict_get hinfo name ≫= λ sub,
        _readfile (propschedule ++ part) sub ≫= λ propdata,
        Ok (sub, propdata)) ≫= λ sp,
  let '(sub, propdata) := sp in
  let datanames := drop 1 (names sub) in
  (if (num =? 0)%nat
   then lift (time_at propdata (-1)) ≫= λ t,
        write ("Time of Validity:  " ++ t ++ nl)
   else mret tt) ≫= λ _,
  for_ datanames (λ loc,
    if bool_decide (loc ∈ propnames)
    then lift (dict_get propdata loc ≫= λ col,
               getitem col (-1) ≫= λ v,
               fmt_f v ≫= λ s,
               Ok (" " ++ loc ++ " : " ++ s ++ nl)) ≫= write
    else mret tt).

Definition enumerate {A} (l : list A) : list (nat * A) := zip (seq 0 (length l)) l.

Definition writePropData (propschedule : string) (st : state)
    : state * result unit :=
  let propfilename := propschedule ++ "_Ending_Configuration.txt" in
  let w := for_ (enumerate plotorder) (prop_body propschedule (self_headerinfo st)) in
  let st' := mkState (self_headerinfo st) (outfile st ++ written w) (sys_stdout st) in
  match outcome w with
  | Raise e => (st', Raise e)
  | Ok _ =>
      (mkState (self_headerinfo st') (outfile st')
         (sys_stdout st' ++
            ["Wrote propagation ending data to " ++ propfilename ++ nl]),
       Ok tt)
  end.

(** [LoadReviewTools(propschedule, reviewschedule)] *)
Definition __init__ (propschedule : string) (reviewschedule : option string)
    : state * result unit :=
  match reviewschedule with
  | None => writePropData propschedule initial_state
  | Some r => writeChecklistData propschedule r initial_state
  end.

End LoadReviewTools.


(** ** Specification vocabulary

    The predicates in which the properties of the program are stated. *)

(** [i] is the lowest index at which the column reaches the maximum
    of its entries that are not NaN. *)
Definition first_max (a : list double) (i : nat) : Prop :=
  ∃ v, a !! i = Some v ∧ isnan v = false ∧
    (∀ j w, a !! j = Some w → isnan w = false → SFleb w v = true) ∧
    (∀ j w, (j < i)%nat → a !! j = Some w → isnan w = false → SFltb w v = true).

Definition first_min (a : list double) (i : nat) : Prop :=
  ∃ v, a !! i = Some v ∧ isnan v = false ∧
    (∀ j w, a !! j = Some w → isnan w = false → SFleb v w = true) ∧
    (∀ j w, (j < i)%nat → a !! j = Some w → isnan w = false → SFltb v w = true).

(** [x] is the infinity of sign [s] ([true] for minus infinity). *)
Definition is_inf (s : bool) (x : double) : bool :=
  match x with S754_infinity s' => Bool.eqb s s' | _ => false end.

(** The column starts with a NaN and holds, NaN apart, nothing but
    the infinity of sign [s]. *)
Definition nan_first_only_inf (s : bool) (a : list double) : bool :=
  match a with x :: _ => isnan x | [] => false end &&
  forallb (λ x, isnan x || is_inf s x) a.

(** The index of the Max Values line, in a column that holds an entry
    that is not NaN: the lowest index that reaches the maximum of the
    entries that are not NaN, except in a column that starts with a
    NaN and holds, NaN apart, nothing but minus infinity, where it is
    the index 0 of the NaN.  The same for the Min Values line, with
    the minimum and plus infinity. *)
Definition max_index (a : list double) (i : nat) : Prop :=
  Exists (λ x, isnan x = false) a ∧
  if nan_first_only_inf true a then i = 0%nat else first_max a i.

Definition min_index (a : list double) (i : nat) : Prop :=
  Exists (λ x, isnan x = false) a ∧
  if nan_first_only_inf false a then i = 0%nat else first_min a i.

Section ExtremeLines.

Variable pct_f : double → string.
Variable pct_s : value → string.

(** [line] is the line of the column [name] with the value and the
    Time of the row that [index] selects in the column. *)
Definition extreme_line_of (index : list double → nat → Prop)
    (reviewdata : table) (name line : string) : Prop :=
  ∃ a tcol i v t,
    reviewdata !! name = Some (FloatArr a) ∧
    reviewdata !! "Time" = Some tcol ∧
    index a i ∧ a !! i = Some v ∧ elements tcol !! i = Some t ∧
    line = "    " ++ name ++ ": " ++ pct_f v ++ "  (" ++ pct_s t ++ ")" ++ nl.

End ExtremeLines.

(** The column names of the type policy, as the specification lists them. *)
Definition opaque_columns : list string :=
  ["Time"; "SI"; "Within_Limit"; "15V"; "24V"; "HRCI"; "HRCS"; "Shield";
   "5V_A"; "5V_B"].

(** [name] is one of them, up to the case of its letters. *)
Definition matches_opaque (name : string) : Prop :=
  ∃ n, n ∈ opaque_columns ∧ lower name = lower n.

(** [num] is the position of the column [name] in the schema: the
    last one, should the name occur twice. *)
Definition column_position (names : list string) (num : nat) (name : string) : Prop :=
  names !! num = Some name ∧ ∀ num', (num < num')%nat → names !! num' ≠ Some name.

Section Specification.

Variable fs : string → option (list string).
Variable np_double : string → option double.
Variable pct_f : double → string.
Variable pct_s : value → string.

(** The array element made from a token of the column [name]. *)
Definition cell (name : string) (tok : string) : option value :=
  if is_opaque name then Some (Bytes tok) else Float <$> np_double tok.

(** The element that [read_column] makes of a line. *)
Definition cell_at (num : nat) (name : string) (line : string) : result value :=
  token_at num line ≫= λ tok,
  if is_opaque name then Ok (Bytes tok)
  else Float <$> of_option ValueError (np_double tok).

(** Every data line has a token for each column of the schema, and
    the tokens of the numeric columns are numbers. *)
Definition well_formed (names : list string) (datalines : list string) : Prop :=
  ∀ line, line ∈ datalines →
    (length names ≤ length (tokens line))%nat ∧
    ∀ num name tok, names !! num = Some name → tokens line !! num = Some tok →
      is_Some (cell name tok).

(** The same, as a test. *)
Definition well_formedb (names : list string) (datalines : list string) : bool :=
  forallb (λ line,
    (length names <=? length (tokens line))%nat &&
    forallb (λ nt, bool_decide (is_Some (cell nt.1 nt.2)))
      (zip names (tokens line))) datalines.

(** [_readfile] returns a table with every column of the schema, each
    as long as the file has lines after the first. *)
Definition parse_returns_table (filename : string) (sub : subheader) : Prop :=
  ∃ header datalines t,
    fs filename = Some (header :: datalines) ∧
    _readfile fs np_double filename sub = Ok t ∧
    ∀ name, name ∈ names sub →
      ∃ col, t !! name = Some col ∧ length (elements col) = length datalines.

(** Some data line of the file satisfies [P] on its token count. *)
Definition some_data_line (filename : string) (P : nat → Prop) : Prop :=
  ∃ header datalines line,
    fs filename = Some (header :: datalines) ∧ line ∈ datalines ∧
    P (length (tokens line)).

(** The lines of a report section as a function of the two tables:
    what [_writeReportData] writes when it raises nothing. *)
Definition max_line (reviewdata : table) (name : string) : result string :=
  extreme_args nanargmax reviewdata name ≫= extreme_line pct_f pct_s name.

Definition min_line (reviewdata : table) (name : string) : result string :=
  extreme_args nanargmin reviewdata name ≫= extreme_line pct_f pct_s name.

Definition numeric_names (names : list string) : list string :=
  filter (λ name, is_opaque name = false) names.

Definition report_lines (propdata reviewdata : table) (names : list string)
    (modelname : string) : result (list string) :=
  time_at pct_s propdata 0 ≫= λ pstart,
  mapM (value_line pct_f pct_s propdata 0) names ≫= λ plines,
  time_at pct_s reviewdata 0 ≫= λ rstart,
  mapM (value_line pct_f pct_s reviewdata 0) names ≫= λ rlines,
  mapM (max_line reviewdata) (numeric_names names) ≫= λ maxlines,
  mapM (min_line reviewdata) (numeric_names names) ≫= λ minlines,
  time_at pct_s reviewdata (-1) ≫= λ rend,
  mapM (value_line pct_f pct_s reviewdata (-1)) names ≫= λ elines,
  Ok (concat [
    [dashes ++ nl; modelname ++ " Report" ++ nl; dashes ++ nl ++ nl;
     "Propagation:" ++ nl; "------------" ++ nl;
     "Start:    " ++ pstart ++ nl];
    plines;
    [nl ++ "Reviewed Schedule:" ++ nl; "-------------------" ++ nl;
     "Start:    " ++ rstart ++ nl];
    rlines;
    [nl ++ "Max Values:" ++ nl];
    maxlines;
    [nl ++ "Min Values:" ++ nl];
    minlines;
    [nl ++ "End: " ++ rend ++ nl];
    elines;
    [nl ++ nl ++ nl]]).


(** The section of one model in the report, computed from the
    registry as it is at construction time. *)
Definition section_of (propschedule reviewschedule : string) (name : string) : W unit :=
  lift (read_pair fs np_double propschedule reviewschedule headerinfo name) ≫= λ x,
  let '(sub, propdata, reviewdata) := x in
  match names sub with
  | [] => lift (Raise IndexError)
  | _ :: datanames =>
      _writeReportData pct_f pct_s propdata reviewdata datanames (title sub)
  end.

(** The conditions under which the report cannot be completed. *)
Definition file_missing (propschedule reviewschedule name : string) : Prop :=
  ∃ part, fileparts !! name = Some part ∧
    (fs (propschedule ++ part) = None ∨ fs (reviewschedule ++ part) = None).

Definition bad_numeric_token (schedule name : string) : Prop :=
  ∃ part sub header datalines line num cname tok,
    fileparts !! name = Some part ∧ headerinfo !! name = Some sub ∧
    fs (schedule ++ part) = Some (header :: datalines) ∧ line ∈ datalines ∧
    names sub !! num = Some cname ∧ is_opaque cname = false ∧
    tokens line !! num = Some tok ∧ np_double tok = None.

Definition all_nan_review_column (reviewschedule name : string) : Prop :=
  ∃ part sub reviewdata cname a,
    fileparts !! name = Some part ∧ headerinfo !! name = Some sub ∧
    _readfile fs np_double (reviewschedule ++ part) sub = Ok reviewdata ∧
    cname ∈ names sub ∧ is_opaque cname = false ∧
    reviewdata !! cname = Some (FloatArr a) ∧ Forall (λ x, isnan x = true) a.

(** The run failed and left nothing in the report. *)
Definition aborts_without_output (run : state * result unit) : Prop :=
  raises run.2 ∧ outfile run.1 = [] .

End Specification.

(** ** Auxiliary definitions of the proofs *)

(** The results of [f] on the elements before the first on which it raises. *)
Fixpoint oks {A B} (f : A → result B) (l : list A) : list B :=
  match l with
  | [] => []
  | x :: l' =>
      match f x with
      | Ok y => y :: oks f l'
      | Raise _ => []
      end
  end.

(** The computation raises. *)
Definition fails {A} (w : W A) : Prop := raises (outcome w).

(** What a loop's bodies write before the first one that raises. *)
Fixpoint written_completed {A} (body : A → W unit) (l : list A) : list string :=
  match l with
  | [] => []
  | x :: l' =>
      match outcome (body x) with
      | Ok _ => written (body x) ++ written_completed body l'
      | Raise _ => []
      end
  end.


(** The scan shared by [argmax_from] and [argmin_from]. *)
Fixpoint scan_from (leb : double → double → bool) (mp : double) (ind i : nat)
    (l : list double) : nat :=
  match l with
  | [] => ind
  | x :: l' =>
      if negb (leb x mp)
      then (if isnan x then i else scan_from leb x i (S i) l')
      else scan_from leb mp ind (S i) l'
  end.

(** A key whose lexicographic order is the order of the values that
    are not NaN. *)
Definition key (x : double) : Z * Z * Z :=
  match x with
  | S754_nan => (0, 0, 0)
  | S754_zero _ => (0, 0, 0)
  | S754_infinity s => (if s then -2 else 2, 0, 0)
  | S754_finite s m e => if s then (-1, - e, - Zpos m) else (1, e, Zpos m)
  end%Z.

Definition key_lt (a b : Z * Z * Z) : Prop :=
  (a.1.1 < b.1.1 ∨ a.1.1 = b.1.1 ∧ (a.1.2 < b.1.2 ∨ a.1.2 = b.1.2 ∧ a.2 < b.2))%Z.

Definition key_le (a b : Z * Z * Z) : Prop :=
  (a.1.1 < b.1.1 ∨ a.1.1 = b.1.1 ∧ (a.1.2 < b.1.2 ∨ a.1.2 = b.1.2 ∧ a.2 ≤ b.2))%Z.

(** ** Reference conversions

    Executable instances of the conversions of the run time, used to
    evaluate the program on concrete files.  They agree with CPython 3
    and numpy on their domain: decimal numerals of at most fifteen
    digits without exponent, [nan], [inf] and their negations for
    [np_double] (anything else is taken not to be a number); every
    [float64] for [pct_f]; byte strings of printable characters other
    than quotes and backslashes for [pct_s]. *)

(** ** Further vocabulary *)

(** The columns of a model for which [writePropData] writes a line:
    the names after the first that are in [propnames], in the order
    of the schema. *)
Definition propagated (names : list string) : list string :=
  filter (λ loc, loc ∈ propnames) (drop 1 names).

(** A table that can be reported under [names]: the Time column and
    every named column have the same number of rows, at least one,
    and the named columns that are not opaque hold floats. *)
Definition reportable (names : list string) (data : table) : Prop :=
  ∃ rows, (0 < rows)%nat ∧
    ∀ name, name = "Time" ∨ name ∈ names →
      ∃ col, data !! name = Some col ∧ length (elements col) = rows ∧
        (is_opaque name = false → ∃ a, col = FloatArr a).

(** Every named column that is not opaque holds a value that is not
    NaN. *)
Definition has_numbers (names : list string) (data : table) : Prop :=
  ∀ name, name ∈ names → is_opaque name = false →
    ∃ a, data !! name = Some (FloatArr a) ∧ Exists (λ x, isnan x = false) a.

Section PlotFiles.

Variable fs : string → option (list string).
Variable np_double : string → option double.

(** A plot file with a header and at least one data line, all data
    lines well formed for the column names. *)
Definition plot_file_complete (filename : string) (names : list string) : Prop :=
  ∃ header line datalines,
    fs filename = Some (header :: line :: datalines) ∧
    well_formed np_double names (line :: datalines).

(** In every numeric column of the file some line holds a number that
    is not NaN. *)
Definition plot_file_numbers (filename : string) (names : list string) : Prop :=
  ∃ header datalines,
    fs filename = Some (header :: datalines) ∧
    ∀ num name, names !! num = Some name → is_opaque name = false →
      ∃ line tok x, line ∈ datalines ∧ tokens line !! num = Some tok ∧
        np_double tok = Some x ∧ isnan x = false.

(** The same, as a test. *)
Definition plot_file_numbersb (filename : string) (names : list string) : bool :=
  match fs filename with
  | Some (header :: datalines) =>
      forallb (λ nn : nat * string,
        is_opaque nn.2 ||
        existsb (λ line,
          match tokens line !! nn.1 ≫= np_double with
          | Some x => negb (isnan x)
          | None => false
          end) datalines) (enumerate names)
  | _ => false
  end.

End PlotFiles.

(** A table that holds the Time column and every named column, the
    named columns that are not opaque as arrays of floats. *)
Definition typed (names : list string) (data : table) : Prop :=
  ∀ name, name = "Time" ∨ name ∈ names →
    ∃ col, data !! name = Some col ∧
      (is_opaque name = false → ∃ a, col = FloatArr a).

(** A line of white space only, or of no character. *)
Fixpoint blank (s : string) : bool :=
  match s with
  | EmptyString => true
  | String c s' => is_space c && blank s'
  end.

(** ** The script *)

(** The parsed command line: [vars(parser.parse_args())]. *)
Record args := mkArgs {
  Propschedule : option string;
  Reviewschedule : option string;
  OutputPropEndingConfiguration : bool;
  OutputThermalReport : bool
}.

(** What the script leaves behind: the output files it has opened for
    writing, with their lines, and the standard output. *)
Record world := mkWorld {
  output_files : gmap string (list string);
  stdout : list string
}.

Section Script.

Variable fs : string → option (list string).
Variable np_double : string → option double.
Variable pct_f : double → string.
Variable pct_s : value → string.

(** The copy to the parent directory of the files found by
    [glob.glob(args["Reviewschedule"] + "*")], with [force_link]:
    the operating system's part of the script. *)
Variable publish : string → world → world * result unit.

(** [LoadReviewTools(propschedule=..., reviewschedule=...)] with the
    arguments as the command line gives them: an option that is not
    given is [None], and [None + "..."] raises [TypeError].  Every
    construction builds its own registry; the output file is opened,
    and so emptied, before the first plot file is read. *)
Definition LoadReviewTools (propschedule reviewschedule : option string)
    (w : world) : world * result unit :=
  match propschedule, reviewschedule with
  | None, None => (w, Raise TypeError)
  | None, Some r =>
      (mkWorld (<[r ++ "_Thermal_Load_Review_Report.txt" := []]> (output_files w))
         (stdout w),
       Raise TypeError)
  | Some p, _ =>
      let '(st, res) := __init__ fs np_double pct_f pct_s p reviewschedule in
      let filename :=
        match reviewschedule with
        | None => p ++ "_Ending_Configuration.txt"
        | Some r => r ++ "_Thermal_Load_Review_Report.txt"
        end in
      (mkWorld (<[filename := outfile st]> (output_files w))
         (stdout w ++ sys_stdout st),
       res)
  end.

(** The block under [if __name__ == "__main__"]. *)
Definition main (a : args) (w : world) : world * result unit :=
  let '(w1, r1) :=
    if OutputPropEndingConfiguration a
    then LoadReviewTools (Propschedule a) None w
    else (w, Ok tt) in
  match r1 with
  | Raise e => (w1, Raise e)
  | Ok _ =>
      let '(w2, r2) :=
        if OutputThermalReport a
        then LoadReviewTools (Propschedule a) (Reviewschedule a) w1
        else (w1, Ok tt) in
      match r2 with
      | Raise e => (w2, Raise e)
      | Ok _ =>
          match Reviewschedule a with
          | None => (w2, Raise TypeError)
          | Some r => publish r w2
          end
      end
  end.

End Script.

Module Reference.

Definition digit_char (d : N) : ascii := ascii_of_N (48 + d).

(** Decimal digits of [n], most significant first; [fuel] bounds
    their number. *)
Fixpoint decimal_go (fuel : nat) (n : N) (acc : string) : string :=
  match fuel with
  | O => acc
  | S fuel' =>
      let acc' := String (digit_char (n mod 10)) acc in
      if (n / 10 =? 0)%N then acc' else decimal_go fuel' (n / 10)%N acc'
  end.

Definition decimal (n : N) : string :=
  decimal_go (S (N.to_nat (N.log2 n))) n "".

(** The quotient of [n] by [d] rounded to the nearest integer, ties
    to even. *)
Definition div_half_even (n d : N) : N :=
  let q := (n / d)%N in
  let r := (n mod d)%N in
  match (2 * r ?= d)%N with
  | Lt => q
  | Gt => (q + 1)%N
  | Eq => if N.even q then q else (q + 1)%N
  end.

(** ["%f" % x]: six digits after the point, correctly rounded. *)
Definition pct_f (x : double) : string :=
  match x with
  | S754_nan => "nan"
  | S754_infinity s => if s then "-inf" else "inf"
  | S754_zero s => if s then "-0.000000" else "0.000000"
  | S754_finite s m e =>
      let micro :=
        match e with
        | Zneg p => div_half_even (Npos m * 1000000) (2 ^ Npos p)
        | _ => (Npos m * 2 ^ Z.to_N e * 1000000)%N
        end in
      (if s then "-" else "") ++ decimal (micro / 1000000) ++ "." ++
      String.substring 1 6 (decimal (1000000 + micro mod 1000000))
  end.

(** The [float64] of an integer. *)
Definition binary64 (m : Z) : double := binary_normalize 53 1024 m 0 false.

Definition digit_of (c : ascii) : option N :=
  let n := N_of_ascii c in
  if ((48 <=? n) && (n <=? 57))%N then Some (n - 48)%N else None.

(** Reads digits: the number read so far, the count of digits and
    the rest of the text. *)
Fixpoint read_digits (s : string) (acc : N) (count : nat) : N * nat * string :=
  match s with
  | String c s' =>
      match digit_of c with
      | Some d => read_digits s' (10 * acc + d)%N (S count)
      | None => (acc, count, s)
      end
  | EmptyString => (acc, count, s)
  end.

(** A numeral [n / 10^k] with [n] and [10^k] exact in [float64] is
    the correctly rounded quotient of the two. *)
Definition unsigned_double (s : string) : option double :=
  if String.eqb s "nan" then Some S754_nan
  else if String.eqb s "inf" then Some pos_inf
  else
    let '(ip, ni, rest) := read_digits s 0 0 in
    match rest with
    | EmptyString =>
        if ((0 <? ni) && (ni <=? 15))%nat
        then Some (binary64 (Z.of_N ip)) else None
    | String "." rest' =>
        let '(n, nf, rest'') := read_digits rest' ip 0 in
        match rest'' with
        | EmptyString =>
            if ((0 <? ni + nf) && (ni + nf <=? 15))%nat
            then Some (SFdiv 53 1024 (binary64 (Z.of_N n))
                         (binary64 (10 ^ Z.of_nat nf)))
            else None
        | _ => None
        end
    | _ => None
    end.

Definition np_double (s : string) : option double :=
  match s with
  | String "-" s' => SFopp <$> unsigned_double s'
  | _ => unsigned_double s
  end.

(** ["%s" % v]: [str()] of an [np.bytes_] is its [repr]; a float is
    outside the domain. *)
Definition pct_s (v : value) : string :=
  match v with
  | Bytes b => "b'" ++ b ++ "'"
  | Float x => pct_f x
  end.

(** A file system given as a list of files. *)
Definition files (l : list (string * list string)) (filename : string)
    : option (list string) :=
  (list_to_map l : gmap string (list string)) !! filename.

End Reference.

(** ** Example files *)

Module Examples.

Definition two_columns : subheader :=
  {| columns := 2; names := ["Time"; "X"]; title := "Example" |}.

(** The column of the specification's example; a column with a NaN
    before minus infinity; a line with a token too few; a line with
    a token too many; a file of one data row. *)
Definition fs_columns : string → option (list string) :=
  Reference.files [
    ("spec_plot.txt", ["Time X"; "t0 1.0"; "t1 nan"; "t2 5.0"; "t3 3.0"]);
    ("neginf_plot.txt", ["Time X"; "t0 nan"; "t1 -inf"]);
    ("short_plot.txt", ["Time X"; "t0 1.0"; "t1"]);
    ("long_plot.txt", ["Time X"; "t0 1.0 7.0"; "t1 2.0"]);
    ("one_plot.txt", ["Time X"; "t0 21.5"])
  ].

(** The tables read from the first and the last of these files. *)
Definition spec_column : list double :=
  [Reference.binary64 1; S754_nan; Reference.binary64 5; Reference.binary64 3].

Definition spec_table : table :=
  <["X" := FloatArr spec_column]>
    (<["Time" := BytesArr ["t0"; "t1"; "t2"; "t3"]]> ∅).

Definition neginf_table : table :=
  <["X" := FloatArr [S754_nan; neg_inf]]>
    (<["Time" := BytesArr ["t0"; "t1"]]> ∅).

(** 21.5 *)
Definition one_value : double :=
  SFdiv 53 1024 (Reference.binary64 215) (Reference.binary64 10).


(** A data line: a time and [ncols - 1] times the same value. *)
Definition plot_line (time value : string) (ncols : nat) : string :=
  time ++ fold_right append "" (replicate (ncols - 1) (" " ++ value)).

Definition plot_file (ncols : nat) : list string :=
  ["header";
   plot_line "2012:128:00:00:00.000" "21.5" ncols;
   plot_line "2012:128:00:05:28.000" "20.25" ncols].

(** Plot files of [schedule] for the listed models. *)
Definition plot_files (schedule : string) (models : list string)
    : list (string * list string) :=
  omap (λ name,
    match fileparts !! name, headerinfo !! name with
    | Some part, Some sub =>
        Some (schedule ++ part, plot_file (length (names sub)))
    | _, _ => None
    end) models.

(** Both schedules complete. *)
Definition fs_complete : string → option (list string) :=
  Reference.files (plot_files "MAY0712A" plotorder ++
                   plot_files "MAY1412A" plotorder).

(** The review schedule has the file of the first model only. *)
Definition fs_partial : string → option (list string) :=
  Reference.files (plot_files "MAY0712A" plotorder ++
                   plot_files "MAY1412A" ["oba"]).


(** 20.25 *)
Definition other_value : double :=
  SFdiv 53 1024 (Reference.binary64 2025) (Reference.binary64 100).

(** The table read from a [plot_file] under the column names [names]. *)
Definition plot_table (names : list string) : table :=
  list_to_map ((λ name, (name,
    if String.eqb name "Time"
    then BytesArr ["2012:128:00:00:00.000"; "2012:128:00:05:28.000"]
    else if is_opaque name then BytesArr ["21.5"; "20.25"]
    else FloatArr [one_value; other_value])) <$> names).

(** The copy to the parent directory, when nothing goes wrong in it. *)
Definition publish_nothing (prefix : string) (w : world) : world * result unit :=
  (w, Ok tt).

End Examples.

(** * Properties *)

(** ** The order of float64 *)

Ltac by_compare :=
  repeat match goal with
    | |- context [Z.compare ?a ?b] => destruct (Z.compare_spec a b)
    | |- context [Pos.compare_cont Eq ?a ?b] =>
        change (Pos.compare_cont Eq a b) with (Pos.compare a b);
        destruct (Pos.compare_spec a b)
    end;
  simpl; split; (try done); (try lia).

Lemma SFleb_key x y :
  isnan x = false → isnan y = false →
  SFleb x y = true ↔ key_le (key x) (key y).
Proof.
  unfold SFleb, SFcompare, key_le.
  destruct x as [[]|[]| |[] mx ex], y as [[]|[]| |[] my ey]; simpl;
    intros; (try done); by_compare.
Qed.

Lemma SFltb_key x y :
  isnan x = false → isnan y = false →
  SFltb x y = true ↔ key_lt (key x) (key y).
Proof.
  unfold SFltb, SFcompare, key_lt.
  destruct x as [[]|[]| |[] mx ex], y as [[]|[]| |[] my ey]; simpl;
    intros; (try done); by_compare.
Qed.

Lemma SFleb_refl x : isnan x = false → SFleb x x = true.
Proof. intros. apply SFleb_key; [done..|]. unfold key_le. lia. Qed.

Lemma SFleb_trans x y z :
  isnan x = false → isnan y = false → isnan z = false →
  SFleb x y = true → SFleb y z = true → SFleb x z = true.
Proof.
  intros Hx Hy Hz. rewrite !SFleb_key by done. unfold key_le. lia.
Qed.

Lemma SFleb_total x y :
  isnan x = false → isnan y = false → SFleb x y = false → SFleb y x = true.
Proof.
  intros Hx Hy Hxy. apply SFleb_key; [done..|].
  destruct (decide (key_le (key x) (key y))) as [H|H].
  - apply SFleb_key in H; [congruence|done..].
  - unfold key_le in *. lia.
Qed.

Lemma SFleb_false_ltb x y :
  isnan x = false → isnan y = false → SFleb x y = false → SFltb y x = true.
Proof.
  intros Hx Hy Hxy. apply SFltb_key; [done..|].
  destruct (decide (key_le (key x) (key y))) as [H|H].
  - apply SFleb_key in H; [congruence|done..].
  - unfold key_le, key_lt in *. lia.
Qed.

Lemma neg_inf_least x :
  isnan x = false → x ≠ neg_inf → SFleb x neg_inf = false.
Proof. destruct x as [[]|[]| |[] m e]; intros; simpl; done. Qed.

Lemma pos_inf_greatest x :
  isnan x = false → x ≠ pos_inf → SFleb pos_inf x = false.
Proof. destruct x as [[]|[]| |[] m e]; intros; simpl; done. Qed.

(** ** [argmax] and [argmin] *)

Lemma argmax_from_scan l : ∀ mp ind i,
  argmax_from mp ind i l = scan_from SFleb mp ind i l.
Proof. induction l as [|x l IH]; intros; simpl; [done|]. by rewrite !IH. Qed.

Lemma argmin_from_scan l : ∀ mp ind i,
  argmin_from mp ind i l = scan_from (flip SFleb) mp ind i l.
Proof. induction l as [|x l IH]; intros; simpl; [done|]. by rewrite !IH. Qed.

Section Scan.

Variable leb : double → double → bool.
Hypothesis leb_refl : ∀ x, isnan x = false → leb x x = true.
Hypothesis leb_trans : ∀ x y z,
  isnan x = false → isnan y = false → isnan z = false →
  leb x y = true → leb y z = true → leb x z = true.
Hypothesis leb_total : ∀ x y,
  isnan x = false → isnan y = false → leb x y = false → leb y x = true.

Let ok (x : double) : Prop := isnan x = false.

Lemma scan_from_spec l : ∀ mp ind i,
  ok mp → Forall ok l →
  (scan_from leb mp ind i l = ind ∧ Forall (λ w, leb w mp = true) l) ∨
  (∃ n v, scan_from leb mp ind i l = (i + n)%nat ∧ l !! n = Some v ∧
          leb v mp = false ∧
          Forall (λ w, leb w v = true) l ∧
          ∀ j w, (j < n)%nat → l !! j = Some w → leb v w = false).
Proof.
  induction l as [|x l IH]; intros mp ind i Hmp Hl; simpl.
  { left. by split. }
  apply Forall_cons in Hl as [Hx Hl].
  rewrite Hx.
  destruct (leb x mp) eqn:Hle; simpl.
  - destruct (IH mp ind (S i) Hmp Hl)
      as [[-> Hall] | (n & v & -> & Hn & Hv & Hall & Hbefore)].
    + left. split; [done|]. by constructor.
    + right. exists (S n), v. split; [lia|]. split; [done|]. split; [done|].
      assert (Hvok : ok v) by (eapply Forall_lookup_1 in Hl; eauto).
      split.
      * constructor; [|done].
        apply (leb_trans x mp v); auto.
      * intros [|j] w Hj Hw; simpl in Hw.
        -- injection Hw as <-.
           destruct (leb v x) eqn:Hvx; [|done].
           rewrite (leb_trans v x mp) in Hv; auto.
        -- apply (Hbefore j); [lia|done].
  - destruct (IH x i (S i) Hx Hl)
      as [[-> Hall] | (n & v & -> & Hn & Hv & Hall & Hbefore)].
    + right. exists 0%nat, x. split; [lia|]. split; [done|]. split; [done|].
      split; [constructor; auto|]. intros; lia.
    + right. exists (S n), v. split; [lia|]. split; [done|].
      assert (Hvok : ok v) by (eapply Forall_lookup_1 in Hl; eauto).
      assert (Hxv : leb x v = true) by auto.
      split.
      { destruct (leb v mp) eqn:Hvm; [|done].
        rewrite (leb_trans x v mp) in Hle; auto. }
      split; [by constructor|].
      intros [|j] w Hj Hw; simpl in Hw.
      * by injection Hw as <-.
      * apply (Hbefore j); [lia|done].
Qed.

(** The scan started on the first element of a list. *)
Lemma scan_spec x l :
  ok x → Forall ok l →
  ∃ k v, scan_from leb x 0 1 l = k ∧ (x :: l) !! k = Some v ∧
         Forall (λ w, leb w v = true) (x :: l) ∧
         ∀ j w, (j < k)%nat → (x :: l) !! j = Some w → leb v w = false.
Proof.
  intros Hx Hl.
  destruct (scan_from_spec l x 0%nat 1%nat Hx Hl)
    as [[-> Hall] | (n & v & -> & Hn & Hv & Hall & Hbefore)].
  - exists 0%nat, x. repeat split; [constructor; auto|]. intros; lia.
  - exists (S n), v. repeat split; [done| |].
    + constructor; [|done].
      apply leb_total; auto. eapply Forall_lookup_1 in Hl; eauto.
    + intros [|j] w Hj Hw; simpl in Hw.
      * by injection Hw as <-.
      * apply (Hbefore j); [lia|done].
Qed.

End Scan.

(** ** [nanargmax] and [nanargmin] *)

Section ReplaceNan.

Variable leb : double → double → bool.
Variable bound : double.
Hypothesis leb_refl : ∀ x, isnan x = false → leb x x = true.
Hypothesis leb_trans : ∀ x y z,
  isnan x = false → isnan y = false → isnan z = false →
  leb x y = true → leb y z = true → leb x z = true.
Hypothesis leb_total : ∀ x y,
  isnan x = false → isnan y = false → leb x y = false → leb y x = true.
Hypothesis bound_ok : isnan bound = false.
Hypothesis bound_least : ∀ x, isnan x = false → x ≠ bound → leb x bound = false.

Let r (x : double) : double := if isnan x then bound else x.

Lemma replaced_not_nan x : isnan (r x) = false.
Proof. unfold r. by destruct (isnan x) eqn:?. Qed.

Lemma scan_replace_nan y l :
  (∃ x, x ∈ y :: l ∧ isnan x = false ∧ x ≠ bound) →
  ∃ i v, scan_from leb (r y) 0 1 (r <$> l) = i ∧
    (y :: l) !! i = Some v ∧ isnan v = false ∧
    (∀ j w, (y :: l) !! j = Some w → isnan w = false → leb w v = true) ∧
    (∀ j w, (j < i)%nat → (y :: l) !! j = Some w → isnan w = false →
            leb v w = false).
Proof.
  intros (x & Hx & Hxn & Hxb).
  destruct (scan_spec leb leb_refl leb_trans leb_total (r y) (r <$> l))
    as (k & v & Hk & Hv & Hall & Hbefore).
  { apply replaced_not_nan. }
  { apply Forall_fmap, Forall_true. intros; apply replaced_not_nan. }
  change (r y :: (r <$> l)) with (r <$> y :: l) in *.
  rewrite list_lookup_fmap in Hv.
  destruct ((y :: l) !! k) as [u|] eqn:Hu; [|done].
  injection Hv as Hv.
  assert (Hall' : ∀ w, w ∈ y :: l → isnan w = false → leb w v = true).
  { intros w Hw Hwn. rewrite Forall_forall in Hall.
    replace w with (r w) at 1 by (unfold r; by rewrite Hwn).
    apply Hall, list_elem_of_fmap. eauto. }
  assert (Hxv : leb x v = true) by auto.
  assert (Hun : isnan u = false).
  { destruct (isnan u) eqn:Hun; [|done].
    unfold r in Hv. rewrite Hun in Hv. subst v.
    rewrite bound_least in Hxv; done. }
  assert (u = v) as -> by (unfold r in Hv; by rewrite Hun in Hv).
  exists k, v. split; [done|]. split; [done|]. split; [done|]. split.
  - intros j w Hj Hw. apply Hall'; [|done].
    by eapply list_elem_of_lookup_2.
  - intros j w Hj Hjw Hw. apply (Hbefore j); [done|].
    rewrite list_lookup_fmap, Hjw. simpl. unfold r. by rewrite Hw.
Qed.

End ReplaceNan.

Lemma some_not_nan_mask (a : list double) x :
  x ∈ a → isnan x = false → forallb id (isnan <$> a) = false.
Proof.
  intros Hx Hn. apply not_true_is_false. intros H.
  rewrite forallb_forall in H. specialize (H (isnan x)).
  rewrite Hn in H. discriminate H.
  apply list_elem_of_In, list_elem_of_fmap. eauto.
Qed.

Lemma nanargmax_first_max a :
  (∃ x, x ∈ a ∧ isnan x = false ∧ x ≠ neg_inf) →
  ∃ i, nanargmax a = Ok i ∧ first_max a i.
Proof.
  intros Hex. pose proof Hex as (x & Hx & Hxn & _).
  unfold nanargmax, _replace_nan.
  rewrite (some_not_nan_mask a x Hx Hxn), andb_false_r.
  destruct a as [|y l]; [by apply elem_of_nil in Hx|].
  destruct (scan_replace_nan SFleb neg_inf SFleb_refl SFleb_trans SFleb_total
              eq_refl neg_inf_least y l Hex)
    as (i & v & Hi & Hv & Hvn & Hall & Hbefore).
  exists i. split.
  - rewrite fmap_cons. unfold argmax. rewrite argmax_from_scan, Hi.
    destruct (isnan y) eqn:Hy; simpl; [done|by rewrite Hy].
  - exists v. repeat split; [done..| |]; [done|].
    intros j w Hj Hjw Hw. apply SFleb_false_ltb; [done..|]. eauto.
Qed.

Lemma nanargmin_first_min a :
  (∃ x, x ∈ a ∧ isnan x = false ∧ x ≠ pos_inf) →
  ∃ i, nanargmin a = Ok i ∧ first_min a i.
Proof.
  intros Hex. pose proof Hex as (x & Hx & Hxn & _).
  unfold nanargmin, _replace_nan.
  rewrite (some_not_nan_mask a x Hx Hxn), andb_false_r.
  destruct a as [|y l]; [by apply elem_of_nil in Hx|].
  destruct (scan_replace_nan (flip SFleb) pos_inf) with (y := y) (l := l)
    as (i & v & Hi & Hv & Hvn & Hall & Hbefore); unfold flip; auto.
  - intros; by apply SFleb_refl.
  - intros a b c ? ? ? ? ?. by apply (SFleb_trans c b a).
  - intros; by apply SFleb_total.
  - intros; by apply pos_inf_greatest.
  - exists i. split.
    + rewrite fmap_cons. unfold argmin. rewrite argmin_from_scan, Hi.
      destruct (isnan y) eqn:Hy; simpl; [done|by rewrite Hy].
    + exists v. repeat split; [done..| |]; [eauto|].
      intros j w Hj Hjw Hw. apply SFleb_false_ltb; [done..|]. eauto.
Qed.

(** ** Arrays *)

Lemma getitem_lookup col (i : nat) v :
  elements col !! i = Some v → getitem col (Z.of_nat i) = Ok v.
Proof.
  intros Hi. unfold getitem.
  pose proof (lookup_lt_Some _ _ _ Hi) as Hlt.
  destruct (Z.ltb_spec (Z.of_nat i) 0) as [?|_]; [lia|].
  destruct (Z.leb_spec 0 (Z.of_nat i)) as [_|?]; [|lia].
  destruct (Z.ltb_spec (Z.of_nat i) (Z.of_nat (length (elements col)))) as [_|?];
    [|lia].
  simpl. by rewrite Nat2Z.id, Hi.
Qed.

Lemma getitem_last col v l :
  elements col = (l ++ [v])%list → getitem col (-1) = Ok v.
Proof.
  intros Hl. unfold getitem. rewrite Hl, length_app. simpl.
  destruct (Z.leb_spec 0 (-1 + Z.of_nat (length l + 1))) as [_|?]; [|lia].
  destruct (Z.ltb_spec (-1 + Z.of_nat (length l + 1)) (Z.of_nat (length l + 1)))
    as [_|?]; [|lia].
  simpl. replace (Z.to_nat (-1 + Z.of_nat (length l + 1))) with (length l) by lia.
  by rewrite list_lookup_middle.
Qed.

Lemma getitem_empty col i : elements col = [] → getitem col i = Raise IndexError.
Proof.
  intros Hl. unfold getitem. rewrite Hl. simpl.
  match goal with |- (if ?c then _ else _) = _ => destruct c eqn:Hc end; [|done].
  apply andb_true_iff in Hc as [H1 H2].
  apply Z.leb_le in H1. apply Z.ltb_lt in H2. destruct (i <? 0)%Z; lia.
Qed.

(** ** The result monad *)

Ltac unfold_result :=
  unfold mbind, mret, fmap, result_bind, result_ret, result_fmap,
    of_option, dict_get in *.

Lemma raises_Raise {A} (e : exn) : raises (@Raise A e).
Proof. by exists e. Qed.

Lemma raises_not_Ok {A} (r : result A) a : raises r → r ≠ Ok a.
Proof. intros [e ->]. done. Qed.

Lemma result_Ok_bind {A B} (a : A) (f : A → result B) : Ok a ≫= f = f a.
Proof. done. Qed.

Lemma raises_bind {A B} (m : result A) (f : A → result B) :
  raises m → raises (m ≫= f).
Proof. intros [e ->]. by exists e. Qed.

Lemma raises_bind_later {A B} (m : result A) (f : A → result B) :
  (∀ a, m = Ok a → raises (f a)) → raises (m ≫= f).
Proof. destruct m; intros H; [by apply H|by eexists]. Qed.

Lemma raises_fmap {A B} (m : result A) (f : A → B) :
  raises m → raises (f <$> m).
Proof. intros [e ->]. by exists e. Qed.

Lemma mapM_Ok {A B} (f : A → result B) l ys :
  mapM f l = Ok ys ↔ Forall2 (λ x y, f x = Ok y) l ys.
Proof.
  revert ys. induction l as [|x l IH]; intros ys; simpl.
  - split; [intros [= <-]; constructor | by inversion 1].
  - unfold_result. split.
    + destruct (f x) as [y|] eqn:Hx; [|done].
      destruct (mapM f l) as [k|] eqn:Hl; [|done].
      intros [= <-]. constructor; [done|]. by apply IH.
    + inversion 1 as [|? y ? k Hx Hk]; subst. rewrite Hx.
      apply IH in Hk. unfold_result. by rewrite Hk.
Qed.

Lemma mapM_raises {A B} (f : A → result B) l x :
  x ∈ l → raises (f x) → raises (mapM f l).
Proof.
  intros Hx Hr. induction l as [|y l IH]; [by apply elem_of_nil in Hx|].
  simpl. apply raises_bind_later. intros b Hy.
  apply elem_of_cons in Hx as [->|Hx].
  - by apply raises_not_Ok with (a := b) in Hr.
  - by apply raises_bind, IH.
Qed.

Lemma mapM_total {A B} (f : A → result B) l :
  (∀ x, x ∈ l → ∃ y, f x = Ok y) → ∃ ys, mapM f l = Ok ys.
Proof.
  induction l as [|x l IH]; intros H; simpl; [by eexists|].
  destruct (H x) as [y Hy]; [left|].
  destruct IH as [ys Hys]; [intros; apply H; by right|].
  unfold_result. rewrite Hy. unfold_result. rewrite Hys. by eexists.
Qed.

Lemma mapM_agree {A A' B} (f : A → result B) (g : A' → result B) l l' :
  Forall2 (λ x x', f x = g x') l l' → mapM f l = mapM g l'.
Proof. induction 1 as [|x x' l l' Hx _ IH]; simpl; [done|]. by rewrite Hx, IH. Qed.

(** ** The type policy *)

Lemma is_opaque_spec name : is_opaque name = true ↔ matches_opaque name.
Proof.
  unfold is_opaque, matches_opaque. rewrite bool_decide_eq_true.
  change opaque_names with (lower <$> opaque_columns).
  rewrite list_elem_of_fmap. split.
  - intros (n & Hn & Hin). by exists n.
  - intros (n & Hin & Hn). by exists n.
Qed.

Lemma not_opaque_spec name : is_opaque name = false ↔ ¬ matches_opaque name.
Proof. rewrite <- is_opaque_spec. by destruct (is_opaque name). Qed.

Lemma elements_np_array_bytes toks : elements (np_array_bytes toks) = Bytes <$> toks.
Proof. by destruct toks. Qed.

(** ** [_readfile]: one column *)

Section ReadColumn.

Variable np_double : string → option double.

Lemma cell_at_Ok num name line v :
  cell_at np_double num name line = Ok v ↔
  ∃ tok, tokens line !! num = Some tok ∧ cell np_double name tok = Some v.
Proof.
  unfold cell_at, token_at, cell. unfold_result.
  destruct (tokens line !! num) as [tok|].
  - split.
    + intros H. exists tok. split; [done|].
      destruct (is_opaque name); [congruence|].
      destruct (np_double tok); simpl; congruence.
    + intros (tok' & [= <-] & H).
      destruct (is_opaque name); [congruence|].
      destruct (np_double tok); simpl in *; congruence.
  - split; [done|]. by intros (tok & ? & _).
Qed.

Lemma read_column_cells num name datalines :
  elements <$> read_column np_double num name datalines =
  mapM (cell_at np_double num name) datalines.
Proof.
  unfold read_column, cell_at, double_at.
  destruct (is_opaque name).
  - induction datalines as [|line dl IH]; simpl; [done|].
    unfold_result. destruct (token_at num line) as [tok|]; [|done].
    destruct (mapM (token_at num) dl) as [toks|];
      destruct (mapM _ dl) as [vs|]; try done.
    rewrite elements_np_array_bytes in *. injection IH as <-. done.
  - induction datalines as [|line dl IH]; simpl; [done|].
    unfold_result. destruct (token_at num line) as [tok|]; [|done].
    destruct (np_double tok) as [x|]; [|done].
    destruct (mapM _ dl) as [xs|]; destruct (mapM _ dl) as [vs|]; try done.
    simpl in *. injection IH as <-. done.
Qed.

Lemma read_column_Ok num name datalines col :
  read_column np_double num name datalines = Ok col →
  Forall2 (λ line v, ∃ tok, tokens line !! num = Some tok ∧
                       cell np_double name tok = Some v)
    datalines (elements col).
Proof.
  intros Hcol. pose proof (read_column_cells num name datalines) as H.
  rewrite Hcol in H. symmetry in H. apply mapM_Ok in H.
  eapply Forall2_impl; [exact H|]. intros line v. by rewrite cell_at_Ok.
Qed.

Lemma read_column_total num name datalines :
  (∀ line, line ∈ datalines →
     ∃ tok, tokens line !! num = Some tok ∧ is_Some (cell np_double name tok)) →
  ∃ col, read_column np_double num name datalines = Ok col.
Proof.
  intros H. pose proof (read_column_cells num name datalines) as Hc.
  destruct (mapM_total (cell_at np_double num name) datalines) as [vs Hvs].
  { intros line Hline. destruct (H line Hline) as (tok & Htok & [v Hv]).
    exists v. apply cell_at_Ok. eauto. }
  rewrite Hvs in Hc. destruct (read_column _ _ _ _); [by eexists|done].
Qed.

Lemma read_column_raises num name datalines line :
  line ∈ datalines →
  (∀ tok, tokens line !! num = Some tok → cell np_double name tok = None) →
  raises (read_column np_double num name datalines).
Proof.
  intros Hline Hbad. pose proof (read_column_cells num name datalines) as Hc.
  destruct (mapM_raises (cell_at np_double num name) datalines line Hline) as [e He].
  { destruct (cell_at np_double num name line) as [v|e] eqn:Hv; [|by eexists].
    apply cell_at_Ok in Hv as (tok & Htok & Hv). rewrite (Hbad tok Htok) in Hv.
    done. }
  rewrite He in Hc. destruct (read_column _ _ _ _); [done|by eexists].
Qed.

Lemma read_column_agree num name datalines datalines' :
  Forall2 (λ l l', tokens l !! num = tokens l' !! num) datalines datalines' →
  read_column np_double num name datalines =
  read_column np_double num name datalines'.
Proof.
  intros H. unfold read_column.
  assert (Ht : mapM (token_at num) datalines = mapM (token_at num) datalines').
  { apply mapM_agree. eapply Forall2_impl; [exact H|].
    intros l l' Hl. unfold token_at. by rewrite Hl. }
  assert (Hd : mapM (double_at np_double num) datalines =
               mapM (double_at np_double num) datalines').
  { apply mapM_agree. eapply Forall2_impl; [exact H|].
    intros l l' Hl. unfold double_at, token_at. by rewrite Hl. }
  by rewrite Ht, Hd.
Qed.

End ReadColumn.

(** ** [_readfile]: the table *)

Lemma column_position_here name rest :
  column_position (name :: rest) 0 name → name ∉ rest.
Proof.
  intros [_ Hlast] Hin. apply list_elem_of_lookup in Hin as [k Hk].
  by apply (Hlast (S k)); [lia|].
Qed.

Lemma column_position_later x rest k name :
  column_position (x :: rest) (S k) name → column_position rest k name.
Proof.
  intros [Hk Hlast]. split; [done|].
  intros k' Hlt. apply (Hlast (S k')). lia.
Qed.

Lemma last_position names name :
  name ∈ names → ∃ num, column_position names num name.
Proof.
  induction names as [|x rest IH]; intros Hin; [by apply elem_of_nil in Hin|].
  destruct (decide (name ∈ rest)) as [Hrest|Hrest].
  - destruct (IH Hrest) as (k & Hk & Hlast). exists (S k). split; [done|].
    intros [|k'] Hlt; [lia|]. apply Hlast. lia.
  - apply elem_of_cons in Hin as [->|Hin]; [|done].
    exists 0%nat. split; [done|].
    intros [|k'] Hlt Hk'; [lia|]. apply Hrest. by eapply list_elem_of_lookup_2.
Qed.

Section ReadFile.

Variable fs : string → option (list string).
Variable np_double : string → option double.

Lemma read_columns_old names : ∀ num datalines (data t : table) name,
  read_columns np_double num names datalines data = Ok t →
  name ∉ names → t !! name = data !! name.
Proof.
  induction names as [|x rest IH]; intros num dl data t name Ht Hnot; simpl in Ht.
  - by injection Ht as <-.
  - unfold_result. destruct (read_column _ _ _ _) as [col|]; [|done].
    apply not_elem_of_cons in Hnot as [Hne Hnot].
    rewrite (IH _ _ _ _ _ Ht Hnot). by apply lookup_insert_ne.
Qed.

Lemma read_columns_new names : ∀ num datalines (data t : table) k name,
  read_columns np_double num names datalines data = Ok t →
  column_position names k name →
  ∃ col, read_column np_double (num + k) name datalines = Ok col ∧
         t !! name = Some col.
Proof.
  induction names as [|x rest IH]; intros num dl data t k name Ht Hpos;
    [by destruct Hpos|].
  simpl in Ht. unfold_result.
  destruct (read_column _ _ _ _) as [col|] eqn:Hcol; [|done].
  destruct k as [|k].
  - pose proof Hpos as [[= ->] _]. exists col.
    rewrite Nat.add_0_r. split; [done|].
    rewrite (read_columns_old _ _ _ _ _ _ Ht (column_position_here _ _ Hpos)).
    apply lookup_insert_eq.
  - apply column_position_later in Hpos.
    replace (num + S k)%nat with (S num + k)%nat by lia. eauto.
Qed.

Lemma read_columns_raises names : ∀ num datalines (data : table) k name,
  names !! k = Some name →
  raises (read_column np_double (num + k) name datalines) →
  raises (read_columns np_double num names datalines data).
Proof.
  induction names as [|x rest IH]; intros num dl data k name Hk Hr; [done|].
  simpl. apply raises_bind_later. intros col Hcol. destruct k as [|k].
  - injection Hk as ->. rewrite Nat.add_0_r in Hr.
    by apply raises_not_Ok with (a := col) in Hr.
  - apply (IH _ _ _ k name); [done|].
    by replace (S num + k)%nat with (num + S k)%nat by lia.
Qed.

Lemma read_columns_total names : ∀ num datalines (data : table),
  (∀ k name, names !! k = Some name →
     ∃ col, read_column np_double (num + k) name datalines = Ok col) →
  ∃ t, read_columns np_double num names datalines data = Ok t.
Proof.
  induction names as [|x rest IH]; intros num dl data H; simpl; [by eexists|].
  destruct (H 0%nat x eq_refl) as [col Hcol]. rewrite Nat.add_0_r in Hcol.
  rewrite Hcol. unfold_result. apply IH. intros k name Hk.
  replace (S num + k)%nat with (num + S k)%nat by lia. by apply H.
Qed.

Lemma read_columns_agree names : ∀ num datalines datalines' (data : table),
  (∀ k, (k < length names)%nat →
     Forall2 (λ l l', tokens l !! (num + k)%nat = tokens l' !! (num + k)%nat)
       datalines datalines') →
  read_columns np_double num names datalines data =
  read_columns np_double num names datalines' data.
Proof.
  induction names as [|x rest IH]; intros num dl dl' data H; simpl; [done|].
  rewrite (read_column_agree np_double num x dl dl').
  - destruct (read_column _ _ _ _); [|done]. unfold_result. apply IH.
    intros k Hk. replace (S num + k)%nat with (num + S k)%nat by lia.
    apply H. simpl. lia.
  - specialize (H 0%nat). rewrite Nat.add_0_r in H. apply H. simpl. lia.
Qed.

Lemma readfile_lines filename sub header datalines :
  fs filename = Some (header :: datalines) →
  _readfile fs np_double filename sub =
  read_columns np_double 0 (names sub) datalines ∅.
Proof. intros Hfs. unfold _readfile. by rewrite Hfs. Qed.

(** What [_readfile] stores under a column name, when it returns. *)
Lemma readfile_column filename sub header datalines t num name :
  fs filename = Some (header :: datalines) →
  _readfile fs np_double filename sub = Ok t →
  column_position (names sub) num name →
  ∃ col, t !! name = Some col ∧
    Forall2 (λ line v, ∃ tok, tokens line !! num = Some tok ∧
                         cell np_double name tok = Some v)
      datalines (elements col).
Proof.
  intros Hfs Ht Hpos. rewrite (readfile_lines _ _ _ _ Hfs) in Ht.
  destruct (read_columns_new _ _ _ _ _ _ _ Ht Hpos) as (col & Hcol & Hlook).
  exists col. split; [done|]. by apply read_column_Ok in Hcol.
Qed.

(** [_readfile] returns on a file whose data lines are well formed. *)
Lemma readfile_total filename sub header datalines :
  fs filename = Some (header :: datalines) →
  well_formed np_double (names sub) datalines →
  ∃ t, _readfile fs np_double filename sub = Ok t.
Proof.
  intros Hfs Hwf. rewrite (readfile_lines _ _ _ _ Hfs).
  apply read_columns_total. intros k name Hk. apply read_column_total.
  intros line Hline. destruct (Hwf line Hline) as [Hlen Hcell].
  destruct (lookup_lt_is_Some_2 (tokens line) k) as [tok Htok].
  { apply lookup_lt_Some in Hk. lia. }
  exists tok. split; [done|]. by eapply Hcell.
Qed.

End ReadFile.

(** ** Properties of the table parser *)

Lemma well_formedb_sound np_double names datalines :
  well_formedb np_double names datalines = true →
  well_formed np_double names datalines.
Proof.
  unfold well_formedb, well_formed. rewrite forallb_forall.
  intros H line Hline. apply list_elem_of_In, H, andb_true_iff in Hline as [Hlen Hall].
  split; [by apply Nat.leb_le|].
  intros num name tok Hname Htok. rewrite forallb_forall in Hall.
  specialize (Hall (name, tok)). simpl in Hall.
  eapply bool_decide_eq_true_1, Hall, list_elem_of_In, list_elem_of_lookup_2.
  apply lookup_zip_with_Some. eauto.
Qed.

Lemma readfile_Ok_lines fs np_double filename sub t :
  _readfile fs np_double filename sub = Ok t →
  ∃ header datalines, fs filename = Some (header :: datalines).
Proof.
  unfold _readfile. destruct (fs filename) as [[|header datalines]|]; try done.
  eauto.
Qed.

(** C5 (amended): [_readfile] raises on a file in which some data line
    has fewer tokens than the schema has column names; tokens beyond
    the schema's column count do not make it raise, they are ignored:
    the result depends only on the first tokens of every data line, as
    many as the schema has names. *)
Theorem readfile_short_line_raises fs np_double filename sub :
  (some_data_line fs filename (λ n, (n < length (names sub))%nat) →
   raises (_readfile fs np_double filename sub)) ∧
  (∀ fs' header header' datalines datalines',
     fs filename = Some (header :: datalines) →
     fs' filename = Some (header' :: datalines') →
     Forall2 (λ l l', take (length (names sub)) (tokens l) =
                      take (length (names sub)) (tokens l'))
       datalines datalines' →
     _readfile fs' np_double filename sub = _readfile fs np_double filename sub).
Proof.
  split.
  - intros (header & datalines & line & Hfs & Hline & Hshort).
    rewrite (readfile_lines _ _ _ _ _ _ Hfs).
    destruct (lookup_lt_is_Some_2 (names sub) (length (tokens line)))
      as [name Hname]; [done|].
    apply (read_columns_raises _ _ _ _ _ (length (tokens line)) name); [done|].
    apply (read_column_raises _ _ _ _ line); [done|].
    intros tok Htok. apply lookup_lt_Some in Htok. simpl in Htok. lia.
  - intros fs' header header' dl dl' Hfs Hfs' Hagree.
    rewrite (readfile_lines _ _ _ _ _ _ Hfs), (readfile_lines _ _ _ _ _ _ Hfs').
    symmetry. apply read_columns_agree. intros k Hk. simpl.
    eapply Forall2_impl; [exact Hagree|]. intros l l' Hl. simpl in Hl.
    rewrite <- (lookup_take_lt (tokens l) (length (names sub)) k) by done.
    rewrite <- (lookup_take_lt (tokens l') (length (names sub)) k) by done.
    by rewrite Hl.
Qed.

(** C6 (amended): on a file with at least one line whose data lines
    are well formed for the schema, [_readfile] returns a table that
    has every column of the schema, each as long as the file has lines
    after the first; the first line is not looked at: a file with
    another first line and the same data lines gives the same table. *)
Theorem readfile_well_formed_returns_table fs np_double filename sub
    header datalines :
  fs filename = Some (header :: datalines) →
  well_formed np_double (names sub) datalines →
  parse_returns_table fs np_double filename sub ∧
  ∀ fs' header', fs' filename = Some (header' :: datalines) →
    _readfile fs' np_double filename sub = _readfile fs np_double filename sub.
Proof.
  intros Hfs Hwf. split.
  - destruct (readfile_total _ _ _ _ _ _ Hfs Hwf) as [t Ht].
    exists header, datalines, t. split; [done|]. split; [done|].
    intros name Hname. destruct (last_position _ _ Hname) as [num Hpos].
    destruct (readfile_column _ _ _ _ _ _ _ _ _ Hfs Ht Hpos) as (col & Hcol & Hall).
    exists col. split; [done|]. symmetry. by eapply Forall2_length.
  - intros fs' header' Hfs'.
    by rewrite (readfile_lines _ _ _ _ _ _ Hfs), (readfile_lines _ _ _ _ _ _ Hfs').
Qed.

(** C7: in the table that [_readfile] returns, a column whose name
    matches one of Time, SI, Within_Limit, 15V, 24V, HRCI, HRCS,
    Shield, 5V_A, 5V_B up to case holds the tokens of its position as
    byte strings, unchanged; every other column is a [float64] array
    of the values that [np.double] gives for its tokens. *)
Theorem readfile_type_policy fs np_double filename sub t name :
  _readfile fs np_double filename sub = Ok t →
  name ∈ names sub →
  ∃ col num header datalines,
    t !! name = Some col ∧
    fs filename = Some (header :: datalines) ∧
    column_position (names sub) num name ∧
    ((matches_opaque name ∧
      Forall2 (λ line v, ∃ tok, tokens line !! num = Some tok ∧ v = Bytes tok)
        datalines (elements col)) ∨
     (¬ matches_opaque name ∧
      ∃ xs, col = FloatArr xs ∧
        Forall2 (λ line x, ∃ tok, tokens line !! num = Some tok ∧
                             np_double tok = Some x)
          datalines xs)).
Proof.
  intros Ht Hname.
  destruct (readfile_Ok_lines _ _ _ _ _ Ht) as (header & datalines & Hfs).
  destruct (last_position _ _ Hname) as [num Hpos].
  pose proof Ht as Ht'. rewrite (readfile_lines _ _ _ _ _ _ Hfs) in Ht'.
  destruct (read_columns_new _ _ _ _ _ _ _ _ Ht' Hpos) as (col & Hcol & Hlook).
  simpl in Hcol. exists col, num, header, datalines.
  split; [done|]. split; [done|]. split; [done|].
  pose proof (read_column_Ok _ _ _ _ _ Hcol) as Hall.
  destruct (is_opaque name) eqn:Hop.
  - left. split; [by apply is_opaque_spec|].
    eapply Forall2_impl; [exact Hall|]. intros line v (tok & Htok & Hv).
    exists tok. split; [done|]. unfold cell in Hv. rewrite Hop in Hv. congruence.
  - right. split; [by apply not_opaque_spec|].
    unfold read_column in Hcol. rewrite Hop in Hcol.
    destruct (mapM _ datalines) as [xs|] eqn:Hxs; [|done].
    injection Hcol as <-. exists xs. split; [done|].
    simpl in Hall. apply Forall2_fmap_r in Hall.
    eapply Forall2_impl; [exact Hall|]. intros line x (tok & Htok & Hv).
    exists tok. split; [done|]. unfold cell in Hv. rewrite Hop in Hv.
    destruct (np_double tok); simpl in Hv; congruence.
Qed.

(** C10: on a well-formed file [_readfile] returns a table in which
    the element at index [i] of a column is made from the token at
    the column's schema position in the data line at index [i] (the
    line after the first, counting from 0); so element [0] comes from
    the first data line and element [-1] from the last. *)
Theorem readfile_preserves_row_order fs np_double filename sub header datalines :
  fs filename = Some (header :: datalines) →
  well_formed np_double (names sub) datalines →
  ∃ t, _readfile fs np_double filename sub = Ok t ∧
    ∀ num name, column_position (names sub) num name →
      ∃ col, t !! name = Some col ∧
        (∀ i line, datalines !! i = Some line →
           ∃ tok v, tokens line !! num = Some tok ∧
                    cell np_double name tok = Some v ∧
                    elements col !! i = Some v) ∧
        (∀ line, head datalines = Some line →
           ∃ tok v, tokens line !! num = Some tok ∧
                    cell np_double name tok = Some v ∧
                    getitem col 0 = Ok v) ∧
        (∀ line, last datalines = Some line →
           ∃ tok v, tokens line !! num = Some tok ∧
                    cell np_double name tok = Some v ∧
                    getitem col (-1) = Ok v).
Proof.
  intros Hfs Hwf.
  destruct (readfile_total _ _ _ _ _ _ Hfs Hwf) as [t Ht].
  exists t. split; [done|]. intros num name Hpos.
  destruct (readfile_column _ _ _ _ _ _ _ _ _ Hfs Ht Hpos) as (col & Hcol & Hall).
  exists col. split; [done|].
  assert (Hrow : ∀ i line, datalines !! i = Some line →
            ∃ tok v, tokens line !! num = Some tok ∧
                     cell np_double name tok = Some v ∧
                     elements col !! i = Some v).
  { intros i line Hi.
    destruct (Forall2_lookup_l _ _ _ _ _ Hall Hi) as (v & Hv & tok & Htok & Hcell).
    eauto. }
  split; [done|]. split.
  - intros line Hhead. rewrite head_lookup in Hhead.
    destruct (Hrow _ _ Hhead) as (tok & v & Htok & Hcell & Hv).
    exists tok, v. split; [done|]. split; [done|].
    by apply (getitem_lookup col 0).
  - intros line Hlast. apply last_Some in Hlast as [dl' ->].
    apply Forall2_app_inv_l in Hall as (vs & vs' & Hvs & Hline & Hels).
    apply Forall2_cons_inv_l in Hline as (v & vs'' & (tok & Htok & Hcell) & Hnil & ->).
    apply Forall2_nil_inv_l in Hnil as ->.
    exists tok, v. split; [done|]. split; [done|].
    by apply (getitem_last col v vs).
Qed.

(** ** The writer monad *)

Lemma W_bind_Ok {A B} (m : W A) (f : A → W B) a :
  outcome m = Ok a →
  m ≫= f = mkW (written m ++ written (f a)) (outcome (f a)).
Proof.
  destruct m as [ws r]. simpl. intros ->. unfold mbind, W_bind.
  by destruct (f a).
Qed.

Lemma W_bind_Raise {A B} (m : W A) (f : A → W B) e :
  outcome m = Raise e → m ≫= f = mkW (written m) (Raise e).
Proof. destruct m as [ws r]. simpl. by intros ->. Qed.

Lemma W_ret_bind {A B} (a : A) (f : A → W B) : mret a ≫= f = f a.
Proof. unfold mbind, W_bind, mret, W_ret. simpl. by destruct (f a). Qed.

Lemma fails_bind {A B} (m : W A) (f : A → W B) : fails m → fails (m ≫= f).
Proof. intros [e He]. rewrite (W_bind_Raise _ _ _ He). by exists e. Qed.

Lemma fails_bind_later {A B} (m : W A) (f : A → W B) :
  (∀ a, outcome m = Ok a → fails (f a)) → fails (m ≫= f).
Proof.
  intros H. destruct (outcome m) as [a|e] eqn:Hm.
  - rewrite (W_bind_Ok _ _ _ Hm). by apply H.
  - rewrite (W_bind_Raise _ _ _ Hm). by exists e.
Qed.

Lemma fails_lift {A} (r : result A) : raises r → fails (lift r).
Proof. done. Qed.

Lemma for_cons {A} (x : A) l body :
  for_ (x :: l) body = body x ≫= λ _, for_ l body.
Proof. done. Qed.

Lemma for_cons_Ok {A} (x : A) l body :
  outcome (body x) = Ok tt →
  for_ (x :: l) body =
  mkW (written (body x) ++ written (for_ l body)) (outcome (for_ l body)).
Proof. intros H. simpl. by rewrite (W_bind_Ok _ _ _ H). Qed.

Lemma for_cons_Raise {A} (x : A) l body e :
  outcome (body x) = Raise e →
  for_ (x :: l) body = mkW (written (body x)) (Raise e).
Proof. intros H. simpl. by rewrite (W_bind_Raise _ _ _ H). Qed.

Lemma outcome_unit (w : W unit) : outcome w = Ok tt ∨ fails w.
Proof. destruct (outcome w) as [[]|e] eqn:H; [by left|right; by exists e]. Qed.

Lemma for_fails {A} (l : list A) body x :
  x ∈ l → fails (body x) → fails (for_ l body).
Proof.
  intros Hx Hf. induction l as [|y l IH]; [by apply elem_of_nil in Hx|].
  simpl. apply fails_bind_later. intros [] Hy.
  apply elem_of_cons in Hx as [->|Hx]; [|by apply IH].
  destruct Hf as [e He]. congruence.
Qed.

(** A loop that completes has run every body to completion, and has
    written what the bodies write, in order. *)
Lemma for_Ok {A} (l : list A) body :
  outcome (for_ l body) = Ok tt →
  Forall (λ x, outcome (body x) = Ok tt) l ∧
  written (for_ l body) = concat ((λ x, written (body x)) <$> l).
Proof.
  induction l as [|x l IH]; intros H; [by split|].
  destruct (outcome_unit (body x)) as [Hx|[e He]].
  - rewrite (for_cons_Ok _ _ _ Hx) in *. simpl in *.
    destruct (IH H) as [Hall Hw]. split; [by constructor|]. by rewrite Hw.
  - rewrite (for_cons_Raise _ _ _ _ He) in H. done.
Qed.

Lemma for_all_Ok {A} (l : list A) body :
  Forall (λ x, outcome (body x) = Ok tt) l → outcome (for_ l body) = Ok tt.
Proof.
  induction 1 as [|x l Hx _ IH]; [done|]. by rewrite (for_cons_Ok _ _ _ Hx).
Qed.

(** A loop that raises has completed the bodies before the first one
    that raises, and has written what they and that one wrote. *)
Lemma for_Raise {A} (l : list A) body e :
  outcome (for_ l body) = Raise e →
  ∃ l1 x l2, l = (l1 ++ x :: l2)%list ∧
    Forall (λ y, outcome (body y) = Ok tt) l1 ∧
    outcome (body x) = Raise e ∧
    written (for_ l body) =
      (concat ((λ y, written (body y)) <$> l1) ++ written (body x))%list.
Proof.
  induction l as [|x l IH]; intros H; [done|].
  destruct (outcome_unit (body x)) as [Hx|[e' He]].
  - rewrite (for_cons_Ok _ _ _ Hx) in *. simpl in *.
    destruct (IH H) as (l1 & y & l2 & -> & Hall & Hy & Hw).
    exists (x :: l1), y, l2. split; [done|]. split; [by constructor|].
    split; [done|]. simpl. by rewrite Hw, app_assoc.
  - rewrite (for_cons_Raise _ _ _ _ He) in *. simpl in *. injection H as ->.
    exists [], x, l. by repeat split.
Qed.

Lemma for_ext {A} (l : list A) body body' :
  (∀ x, x ∈ l → body x = body' x) → for_ l body = for_ l body'.
Proof.
  induction l as [|x l IH]; intros H; simpl; [done|].
  rewrite (H x), IH; [done| |left]. intros; apply H. by right.
Qed.

Lemma for_lift_write {A} (f : A → result string) l :
  for_ l (λ x, lift (f x) ≫= write) =
  match mapM f l with
  | Ok ls => mkW ls (Ok tt)
  | Raise e => mkW (oks f l) (Raise e)
  end.
Proof.
  induction l as [|x l IH]; [done|]. rewrite for_cons, IH.
  cbn [mapM oks]. unfold lift, write.
  destruct (f x) as [s|e]; [|done].
  unfold mbind, W_bind, result_bind, mret, result_ret. simpl.
  destruct (mapM f l); done.
Qed.

Lemma for_numeric_names (f : string → result string) l :
  for_ l (λ name, if negb (is_opaque name) then lift (f name) ≫= write
                  else mret tt) =
  for_ (numeric_names l) (λ name, lift (f name) ≫= write).
Proof.
  induction l as [|x l IH]; [done|]. rewrite for_cons, IH.
  unfold numeric_names. rewrite filter_cons.
  destruct (decide (is_opaque x = false)) as [Hx|Hx].
  - by rewrite Hx.
  - apply not_false_is_true in Hx. rewrite Hx. cbn [negb]. by rewrite W_ret_bind.
Qed.

(** ** The report section *)

Section Report.

Variable pct_f : double → string.
Variable pct_s : value → string.

(** [_writeReportData] writes the lines of [report_lines], and raises
    when [report_lines] does. *)
Lemma writeReportData_report_lines propdata reviewdata names modelname :
  match report_lines pct_f pct_s propdata reviewdata names modelname with
  | Ok ls =>
      _writeReportData pct_f pct_s propdata reviewdata names modelname =
      mkW ls (Ok tt)
  | Raise e =>
      outcome (_writeReportData pct_f pct_s propdata reviewdata names modelname) =
      Raise e
  end.
Proof.
  unfold _writeReportData, report_lines, value_lines, extreme_lines.
  rewrite !for_numeric_names, !for_lift_write.
  fold (max_line pct_f pct_s reviewdata) (min_line pct_f pct_s reviewdata).
  change (λ name, extreme_args nanargmax reviewdata name ≫=
                  extreme_line pct_f pct_s name)
    with (max_line pct_f pct_s reviewdata).
  change (λ name, extreme_args nanargmin reviewdata name ≫=
                  extreme_line pct_f pct_s name)
    with (min_line pct_f pct_s reviewdata).
  unfold lift, write.
  destruct (time_at pct_s propdata 0) as [pstart|]; [|done].
  destruct (mapM (value_line pct_f pct_s propdata 0) names) as [plines|];
    [|done].
  destruct (time_at pct_s reviewdata 0) as [rstart|];
    [|unfold mbind, W_bind, result_bind; simpl; done].
  destruct (mapM (value_line pct_f pct_s reviewdata 0) names) as [rlines|];
    [|unfold mbind, W_bind, result_bind; simpl; done].
  destruct (mapM (max_line pct_f pct_s reviewdata) (numeric_names names))
    as [maxlines|]; [|unfold mbind, W_bind, result_bind; simpl; done].
  destruct (mapM (min_line pct_f pct_s reviewdata) (numeric_names names))
    as [minlines|]; [|unfold mbind, W_bind, result_bind; simpl; done].
  destruct (time_at pct_s reviewdata (-1)) as [rend|];
    [|unfold mbind, W_bind, result_bind; simpl; done].
  destruct (mapM (value_line pct_f pct_s reviewdata (-1)) names) as [elines|];
    [|unfold mbind, W_bind, result_bind; simpl; done].
  unfold mbind, W_bind, result_bind. simpl.
  by rewrite <- ?app_assoc, ?app_nil_r.
Qed.

Lemma writeReportData_Ok propdata reviewdata names modelname :
  outcome (_writeReportData pct_f pct_s propdata reviewdata names modelname) =
    Ok tt →
  report_lines pct_f pct_s propdata reviewdata names modelname =
    Ok (written (_writeReportData pct_f pct_s propdata reviewdata names modelname)).
Proof.
  intros H.
  pose proof (writeReportData_report_lines propdata reviewdata names modelname)
    as Hr.
  destruct (report_lines _ _ _ _ _ _) as [ls|e]; [by rewrite Hr|congruence].
Qed.

Lemma writeReportData_fails propdata reviewdata names modelname :
  raises (report_lines pct_f pct_s propdata reviewdata names modelname) →
  fails (_writeReportData pct_f pct_s propdata reviewdata names modelname).
Proof.
  intros [e He].
  pose proof (writeReportData_report_lines propdata reviewdata names modelname)
    as Hr.
  rewrite He in Hr. by exists e.
Qed.

End Report.

Lemma bind_Ok {A B} (m : result A) (f : A → result B) b :
  m ≫= f = Ok b → ∃ a, m = Ok a ∧ f a = Ok b.
Proof. destruct m as [a|]; [|done]. intros H. by exists a. Qed.







Section OneRow.

Variable pct_f : double → string.
Variable pct_s : value → string.





End OneRow.

Lemma W_lift_Ok_bind {A B} (a : A) (f : A → W B) : lift (Ok a) ≫= f = f a.
Proof. apply (W_ret_bind a f). Qed.

Lemma W_lift_Raise_bind {A B} e (f : A → W B) :
  lift (Raise e) ≫= f = lift (Raise e).
Proof. done. Qed.

Lemma written_completed_Ok {A} (body : A → W unit) l :
  outcome (for_ l body) = Ok tt →
  written_completed body l = written (for_ l body).
Proof.
  induction l as [|x l IH]; intros H; [done|].
  destruct (outcome_unit (body x)) as [Hx|[e He]].
  - rewrite (for_cons_Ok _ _ _ Hx) in *. simpl in *. rewrite Hx. by rewrite IH.
  - rewrite (for_cons_Raise _ _ _ _ He) in H. done.
Qed.

Lemma written_completed_Raise {A} (body : A → W unit) l1 x l2 e :
  Forall (λ y, outcome (body y) = Ok tt) l1 →
  outcome (body x) = Raise e →
  written_completed body (l1 ++ x :: l2) =
  concat ((λ y, written (body y)) <$> l1).
Proof.
  intros Hall Hx. induction Hall as [|y l1 Hy _ IH]; simpl.
  - by rewrite Hx.
  - by rewrite Hy, IH.
Qed.

(** ** The registry *)

Lemma headerinfo_Time name sub :
  headerinfo !! name = Some sub → ∃ rest, names sub = "Time" :: rest.
Proof.
  intros H. apply elem_of_list_to_map_2 in H. unfold headerinfo_list in H.
  repeat (apply elem_of_cons in H as [[= -> ->]|H]; [by eexists|]).
  by apply elem_of_nil in H.
Qed.

Lemma plotorder_NoDup : NoDup plotorder.
Proof. apply (bool_decide_unpack _). by vm_compute. Qed.

(** ** The loop of [writeChecklistData] *)


Section Checklist.

Variable fs : string → option (list string).
Variable np_double : string → option double.
Variable pct_f : double → string.
Variable pct_s : value → string.
Variables propschedule reviewschedule : string.

Let section := section_of fs np_double pct_f pct_s propschedule reviewschedule.
Let body := checklist_body fs np_double pct_f pct_s propschedule reviewschedule.

Lemma read_pair_registry (hinfo hinfo' : gmap string subheader) name :
  hinfo !! name = hinfo' !! name →
  read_pair fs np_double propschedule reviewschedule hinfo name =
  read_pair fs np_double propschedule reviewschedule hinfo' name.
Proof. intros H. unfold read_pair, dict_get. by rewrite H. Qed.

Lemma read_pair_Ok hinfo name sub propdata reviewdata :
  read_pair fs np_double propschedule reviewschedule hinfo name =
    Ok (sub, propdata, reviewdata) →
  ∃ part, fileparts !! name = Some part ∧ hinfo !! name = Some sub ∧
    _readfile fs np_double (propschedule ++ part) sub = Ok propdata ∧
    _readfile fs np_double (reviewschedule ++ part) sub = Ok reviewdata.
Proof.
  unfold read_pair, dict_get. unfold_result.
  destruct (fileparts !! name) as [part|]; [|done].
  destruct (hinfo !! name) as [sub'|]; [|done].
  destruct (_readfile _ _ (propschedule ++ part) sub') as [p|] eqn:Hp; [|done].
  destruct (_readfile _ _ (reviewschedule ++ part) sub') as [r|] eqn:Hr; [|done].
  intros [= -> -> ->]. by exists part.
Qed.

(** One turn of the loop, in terms of the section computed from the
    registry of construction time. *)
Lemma checklist_body_section st name st' r :
  body st name = (st', r) →
  self_headerinfo st !! name = headerinfo !! name →
  r = outcome (section name) ∧
  outfile st' = (outfile st ++ written (section name))%list ∧
  sys_stdout st' =
    (sys_stdout st ++ written_completed section [name])%list ∧
  (∀ other, other ≠ name →
     self_headerinfo st' !! other = self_headerinfo st !! other) ∧
  (r = Ok tt →
   ∃ sub first rest, headerinfo !! name = Some sub ∧
     names sub = first :: rest ∧
     self_headerinfo st' !! name =
       Some {| columns := columns sub; names := rest; title := title sub |}).
Proof.
  intros Hbody Hreg. subst body section. unfold checklist_body, section_of in *.
  cbn [written_completed]. rewrite (read_pair_registry _ headerinfo name Hreg) in Hbody.
  destruct (read_pair _ _ _ _ headerinfo name) as [[[sub p] rv]|e] eqn:Hpair.
  - apply read_pair_Ok in Hpair as (part & _ & Hsub & _ & _).
    rewrite W_lift_Ok_bind.
    destruct (names sub) as [|first rest] eqn:Hnames.
    + injection Hbody as <- <-. simpl. rewrite !app_nil_r. repeat split; done.
    + simpl in Hbody.
      destruct (outcome (_writeReportData pct_f pct_s p rv rest (title sub)))
        as [[]|e] eqn:Hw; injection Hbody as <- <-; simpl.
      * rewrite app_nil_r. repeat split; try done.
        -- intros other Hne. by apply lookup_insert_ne.
        -- intros _. exists sub, first, rest. repeat split; [done..|].
           apply lookup_insert_eq.
      * rewrite app_nil_r. repeat split; try done.
        intros other Hne. by apply lookup_insert_ne.
  - injection Hbody as <- <-. simpl. rewrite !app_nil_r. repeat split; done.
Qed.

(** The loop over a list of distinct models whose registry entries
    are those of construction time. *)
Lemma checklist_loop l : ∀ st st' r,
  NoDup l →
  (∀ name, name ∈ l → self_headerinfo st !! name = headerinfo !! name) →
  for_state body l st = (st', r) →
  r = outcome (for_ l section) ∧
  outfile st' = (outfile st ++ written (for_ l section))%list ∧
  sys_stdout st' = (sys_stdout st ++ written_completed section l)%list ∧
  (∀ other, other ∉ l →
     self_headerinfo st' !! other = self_headerinfo st !! other) ∧
  (r = Ok tt →
   ∀ name, name ∈ l →
     ∃ sub first rest, headerinfo !! name = Some sub ∧
       names sub = first :: rest ∧
       self_headerinfo st' !! name =
         Some {| columns := columns sub; names := rest; title := title sub |}).
Proof.
  induction l as [|x l IH]; intros st st' r Hnd Hreg Hloop.
  - injection Hloop as <- <-. simpl. rewrite !app_nil_r. repeat split; try done.
    intros _ name Hname. by apply elem_of_nil in Hname.
  - apply NoDup_cons in Hnd as [Hx Hnd]. cbn [for_state] in Hloop.
    destruct (body st x) as [st1 r1] eqn:Hbody.
    destruct (checklist_body_section st x st1 r1 Hbody)
      as (Hr1 & Hout1 & Hstd1 & Hother1 & Hpop1); [apply Hreg; by left|].
    cbn [written_completed] in Hstd1. destruct r1 as [[]|e].
    + symmetry in Hr1. rewrite Hr1 in Hstd1. rewrite app_nil_r in Hstd1.
      destruct (IH st1 st' r Hnd) as (Hr & Hout & Hstd & Hother & Hpop);
        [|done|].
      { intros name Hname. rewrite Hother1; [apply Hreg; by right|].
        intros ->. done. }
      rewrite (for_cons_Ok _ _ _ Hr1). cbn [written outcome written_completed]. rewrite Hr1.
      split; [done|]. split; [by rewrite Hout, Hout1, app_assoc|].
      split; [by rewrite Hstd, Hstd1, app_assoc|]. split.
      * intros other Hnot. apply not_elem_of_cons in Hnot as [Hne Hnot].
        by rewrite Hother, Hother1.
      * intros Hok name Hname. apply elem_of_cons in Hname as [->|Hname].
        -- destruct (Hpop1 eq_refl) as (sub & first & rest & Hsub & Hn & Hlook).
           exists sub, first, rest. repeat split; [done..|].
           by rewrite Hother.
        -- by apply Hpop.
    + injection Hloop as <- <-. symmetry in Hr1.
      rewrite Hr1 in Hstd1. rewrite app_nil_r in Hstd1.
      rewrite (for_cons_Raise _ _ _ _ Hr1). cbn [written outcome written_completed]. rewrite Hr1.
      split; [done|]. split; [done|]. split; [by rewrite app_nil_r|]. split.
      * intros other Hnot. apply not_elem_of_cons in Hnot as [Hne Hnot].
        by apply Hother1.
      * done.
Qed.

(** [writeChecklistData] from the state of construction time. *)
Lemma writeChecklistData_sections :
  let run := writeChecklistData fs np_double pct_f pct_s propschedule
               reviewschedule initial_state in
  run.2 = outcome (for_ plotorder section) ∧
  outfile run.1 = written (for_ plotorder section) ∧
  (∀ other, other ∉ plotorder →
     self_headerinfo run.1 !! other = headerinfo !! other) ∧
  (run.2 = Ok tt →
   sys_stdout run.1 =
     (written (for_ plotorder section) ++
      [("Wrote thermal report data to " ++
        (reviewschedule ++ "_Thermal_Load_Review_Report.txt") ++
        "_Thermal_Load_Review_Report.txt" ++ nl ++ nl)%string])%list ∧
   ∀ name, name ∈ plotorder →
     ∃ sub first rest, headerinfo !! name = Some sub ∧
       names sub = first :: rest ∧
       self_headerinfo run.1 !! name =
         Some {| columns := columns sub; names := rest; title := title sub |}) ∧
  (∀ e, run.2 = Raise e →
     sys_stdout run.1 = written_completed section plotorder).
Proof.
  unfold writeChecklistData. fold body.
  destruct (for_state body plotorder initial_state) as [st' r] eqn:Hloop.
  destruct (checklist_loop plotorder initial_state st' r plotorder_NoDup)
    as (Hr & Hout & Hstd & Hother & Hpop); [done|done|].
  cbn [initial_state outfile sys_stdout app] in Hout, Hstd.
  destruct r as [[]|e]; cbn [fst snd outfile sys_stdout self_headerinfo].
  - repeat split; try done.
    + rewrite Hstd, written_completed_Ok by done. done.
    + by apply Hpop.
  - repeat split; done.
Qed.

End Checklist.

(** ** Failures of a report section *)

Lemma nanargmax_all_nan a :
  Forall (λ x, isnan x = true) a → nanargmax a = Raise ValueError.
Proof.
  intros H. unfold nanargmax, _replace_nan. destruct a as [|x l]; [done|].
  replace (forallb id (isnan <$> x :: l)) with true; [done|].
  symmetry. apply forallb_forall. intros b Hb.
  apply list_elem_of_In, list_elem_of_fmap in Hb as (y & -> & Hy).
  rewrite Forall_forall in H. by apply H.
Qed.

(** ** The Max Values and Min Values lines of a section *)

Lemma argmax_from_stays l : ∀ mp ind i,
  Forall (λ y, SFleb y mp = true) l → argmax_from mp ind i l = ind.
Proof.
  induction l as [|x l IH]; intros mp ind i Hall; [done|].
  apply Forall_cons in Hall as [Hx Hl]. simpl. rewrite Hx. simpl. by apply IH.
Qed.

Lemma argmin_from_stays l : ∀ mp ind i,
  Forall (λ y, SFleb mp y = true) l → argmin_from mp ind i l = ind.
Proof.
  induction l as [|x l IH]; intros mp ind i Hall; [done|].
  apply Forall_cons in Hall as [Hx Hl]. simpl. rewrite Hx. simpl. by apply IH.
Qed.

Lemma is_inf_spec s x : is_inf s x = true ↔ x = S754_infinity s.
Proof.
  destruct x as [| s' | |]; simpl; try (split; [done|by intros [=]]).
  rewrite Bool.eqb_true_iff. split; [by intros ->|by intros [= ->]].
Qed.

(** A column of NaNs and infinities of one sign, after [_replace_nan]
    with that infinity. *)
Lemma replace_nan_only_inf s a :
  forallb (λ x, isnan x || is_inf s x) a = true →
  Forall (λ y, y = S754_infinity s)
    ((λ x, if isnan x then S754_infinity s else x) <$> a).
Proof.
  rewrite forallb_forall. intros H. apply Forall_fmap, Forall_forall.
  intros x Hx. apply list_elem_of_In, H in Hx. simpl.
  destruct (isnan x); [done|]. by apply is_inf_spec.
Qed.

Lemma not_only_inf s a :
  forallb (λ x, isnan x || is_inf s x) a = false →
  ∃ x, x ∈ a ∧ isnan x = false ∧ x ≠ S754_infinity s.
Proof.
  intros H.
  destruct (existsb (λ x, negb (isnan x || is_inf s x)) a) eqn:He.
  - apply existsb_exists in He as (x & Hx & Hb).
    apply negb_true_iff, orb_false_iff in Hb as [Hn Hi].
    exists x. split; [by apply list_elem_of_In|]. split; [done|].
    intros Heq. apply is_inf_spec in Heq. congruence.
  - exfalso. assert (forallb (λ x, isnan x || is_inf s x) a = true); [|congruence].
    apply forallb_forall. intros x Hx.
    destruct (isnan x || is_inf s x) eqn:Hb; [done|].
    assert (existsb (λ x, negb (isnan x || is_inf s x)) a = true); [|congruence].
    apply existsb_exists. exists x. by rewrite Hb.
Qed.

Lemma only_inf_lookup s a j w :
  forallb (λ x, isnan x || is_inf s x) a = true →
  a !! j = Some w → isnan w = false → w = S754_infinity s.
Proof.
  rewrite forallb_forall. intros H Hj Hn.
  apply list_elem_of_lookup_2, list_elem_of_In, H in Hj.
  rewrite Hn in Hj. by apply is_inf_spec.
Qed.

Lemma all_nan_or_some a :
  Forall (λ x, isnan x = true) a ∨ Exists (λ x, isnan x = false) a.
Proof.
  induction a as [|x a [IH|IH]]; [by left| |right; by right].
  destruct (isnan x) eqn:Hx; [left; by constructor|right; by left].
Qed.

Lemma nanargmin_all_nan a :
  Forall (λ x, isnan x = true) a → nanargmin a = Raise ValueError.
Proof.
  intros H. unfold nanargmin, _replace_nan. destruct a as [|x l]; [done|].
  replace (forallb id (isnan <$> x :: l)) with true; [done|].
  symmetry. apply forallb_forall. intros b Hb.
  apply list_elem_of_In, list_elem_of_fmap in Hb as (y & -> & Hy).
  rewrite Forall_forall in H. by apply H.
Qed.

(** The index that [nanargmax] returns. *)
Lemma nanargmax_index a i : nanargmax a = Ok i → max_index a i.
Proof.
  intros Hi. split.
  { destruct (all_nan_or_some a) as [H|H]; [|done].
    by rewrite (nanargmax_all_nan a H) in Hi. }
  unfold nan_first_only_inf.
  destruct (forallb (λ x, isnan x || is_inf true x) a) eqn:Hall.
  - assert (H0 : i = 0%nat).
    { revert Hi. unfold nanargmax, _replace_nan, neg_inf.
      destruct (_ && _); [done|].
      generalize (replace_nan_only_inf true a Hall).
      destruct (_ <$> a) as [|y l]; [done|].
      intros [-> Hr]%Forall_cons. simpl.
      rewrite (argmax_from_stays l); [congruence|].
      eapply Forall_impl; [exact Hr|]. by intros ? ->. }
    subst i. rewrite andb_true_r. destruct a as [|x l].
    { by rewrite nanargmax_all_nan in Hi. }
    destruct (isnan x) eqn:Hx; [done|].
    exists x. split; [done|]. split; [done|].
    pose proof (only_inf_lookup true (x :: l) 0 x Hall eq_refl Hx) as ->.
    split; [|intros; lia].
    intros j w Hj Hw. by rewrite (only_inf_lookup true _ j w Hall Hj Hw).
  - rewrite andb_false_r.
    destruct (nanargmax_first_max a (not_only_inf true a Hall)) as (i' & Hi' & Hf).
    congruence.
Qed.

Lemma nanargmin_index a i : nanargmin a = Ok i → min_index a i.
Proof.
  intros Hi. split.
  { destruct (all_nan_or_some a) as [H|H]; [|done].
    by rewrite (nanargmin_all_nan a H) in Hi. }
  unfold nan_first_only_inf.
  destruct (forallb (λ x, isnan x || is_inf false x) a) eqn:Hall.
  - assert (H0 : i = 0%nat).
    { revert Hi. unfold nanargmin, _replace_nan, pos_inf.
      destruct (_ && _); [done|].
      generalize (replace_nan_only_inf false a Hall).
      destruct (_ <$> a) as [|y l]; [done|].
      intros [-> Hr]%Forall_cons. simpl.
      rewrite (argmin_from_stays l); [congruence|].
      eapply Forall_impl; [exact Hr|]. by intros ? ->. }
    subst i. rewrite andb_true_r. destruct a as [|x l].
    { revert Hi. by vm_compute. }
    destruct (isnan x) eqn:Hx; [done|].
    exists x. split; [done|]. split; [done|].
    pose proof (only_inf_lookup false (x :: l) 0 x Hall eq_refl Hx) as ->.
    split; [|intros; lia].
    intros j w Hj Hw. by rewrite (only_inf_lookup false _ j w Hall Hj Hw).
  - rewrite andb_false_r.
    destruct (nanargmin_first_min a (not_only_inf false a Hall)) as (i' & Hi' & Hf).
    congruence.
Qed.

Lemma getitem_nat col (i : nat) v :
  getitem col (Z.of_nat i) = Ok v → elements col !! i = Some v.
Proof.
  unfold getitem. destruct (Z.ltb_spec (Z.of_nat i) 0) as [?|_]; [lia|].
  destruct (_ && _); [|done]. rewrite Nat2Z.id.
  destruct (elements col !! i) as [v'|]; [|done]. by intros [= ->].
Qed.

Section ExtremeLine.

Variable pct_f : double → string.
Variable pct_s : value → string.

(** A line of the Max Values or Min Values block that was written. *)
Lemma extreme_line_written (arg : list double → result nat)
    (index : list double → nat → Prop) (reviewdata : table) name line :
  (∀ a i, arg a = Ok i → index a i) →
  extreme_args arg reviewdata name ≫= extreme_line pct_f pct_s name = Ok line →
  extreme_line_of pct_f pct_s index reviewdata name line.
Proof.
  intros Harg H. apply bind_Ok in H as ([v t] & Hargs & Hline).
  unfold extreme_args in Hargs.
  apply bind_Ok in Hargs as (col & Hcol & Hargs).
  apply bind_Ok in Hargs as (i & Hi & Hargs).
  apply bind_Ok in Hargs as (v' & Hv & Hargs).
  apply bind_Ok in Hargs as (tcol & Htcol & Hargs).
  apply bind_Ok in Hargs as (t' & Ht & [= -> ->]).
  destruct col as [b|a]; [done|].
  apply getitem_nat in Hv, Ht. cbn [elements] in Hv.
  rewrite list_lookup_fmap in Hv.
  destruct (a !! i) as [x|] eqn:Hx; [|done]. injection Hv as <-.
  unfold extreme_line in Hline. cbn [fst snd fmt_f] in Hline.
  rewrite result_Ok_bind in Hline. injection Hline as <-.
  exists a, tcol, i, x, t.
  unfold dict_get in Hcol, Htcol.
  destruct (reviewdata !! name) as [c|] eqn:Hc; [|done].
  destruct (reviewdata !! "Time") as [c'|] eqn:Hc'; [|done].
  injection Hcol as ->. injection Htcol as ->.
  repeat split; try done. by apply Harg.
Qed.

(** C1 (amended): in a section of the report that is written
    completely, the block under "Max Values:" holds one line for
    every named column that is not opaque, in the order of the names,
    and nothing else; the line of a column shows the value and the
    Time of the lowest index that reaches the maximum of the entries
    that are not NaN, except when the column starts with a NaN and
    holds, NaN apart, nothing but minus infinity: then it shows the
    NaN and the Time of index 0.  The block under "Min Values:" is
    the same with the minimum and plus infinity. *)
Theorem max_min_lines_report_first_extremes (propdata reviewdata : table)
    names modelname :
  let w := _writeReportData pct_f pct_s propdata reviewdata names modelname in
  outcome w = Ok tt →
  ∃ pre maxlines minlines post,
    written w =
      concat [pre; [nl ++ "Max Values:" ++ nl]; maxlines;
              [nl ++ "Min Values:" ++ nl]; minlines; post] ∧
    length pre = (9 + 2 * length names)%nat ∧
    Forall2 (extreme_line_of pct_f pct_s max_index reviewdata)
      (numeric_names names) maxlines ∧
    Forall2 (extreme_line_of pct_f pct_s min_index reviewdata)
      (numeric_names names) minlines.
Proof.
  intros w Hw. apply writeReportData_Ok in Hw. fold w in Hw.
  unfold report_lines in Hw.
  apply bind_Ok in Hw as (pstart & _ & Hw).
  apply bind_Ok in Hw as (plines & Hp & Hw).
  apply bind_Ok in Hw as (rstart & _ & Hw).
  apply bind_Ok in Hw as (rlines & Hr & Hw).
  apply bind_Ok in Hw as (maxlines & Hmax & Hw).
  apply bind_Ok in Hw as (minlines & Hmin & Hw).
  apply bind_Ok in Hw as (rend & _ & Hw).
  apply bind_Ok in Hw as (elines & He & Hw).
  injection Hw as <-.
  exists (concat [[dashes ++ nl; modelname ++ " Report" ++ nl;
                   dashes ++ nl ++ nl; "Propagation:" ++ nl;
                   "------------" ++ nl; "Start:    " ++ pstart ++ nl];
                  plines;
                  [nl ++ "Reviewed Schedule:" ++ nl;
                   "-------------------" ++ nl;
                   "Start:    " ++ rstart ++ nl];
                  rlines]),
         maxlines, minlines,
         (concat [[nl ++ "End: " ++ rend ++ nl]; elines; [nl ++ nl ++ nl]]).
  split; [|split; [|split]].
  - cbn [concat]. rewrite !app_nil_r. by rewrite <- !app_assoc.
  - apply mapM_Ok, Forall2_length in Hp, Hr. cbn [concat].
    rewrite !length_app. cbn [length]. lia.
  - apply mapM_Ok in Hmax. eapply Forall2_impl; [exact Hmax|].
    intros name line. apply extreme_line_written, nanargmax_index.
  - apply mapM_Ok in Hmin. eapply Forall2_impl; [exact Hmin|].
    intros name line. apply extreme_line_written, nanargmin_index.
Qed.

End ExtremeLine.

(** ** The section that fails *)

Section SectionFails.

Variable fs : string → option (list string).
Variable np_double : string → option double.
Variable pct_f : double → string.
Variable pct_s : value → string.
Variables propschedule reviewschedule : string.

Let section := section_of fs np_double pct_f pct_s propschedule reviewschedule.

Lemma readfile_missing filename sub :
  fs filename = None → _readfile fs np_double filename sub = Raise FileNotFoundError.
Proof. intros H. unfold _readfile. by rewrite H. Qed.

Lemma readfile_bad_token filename sub header datalines line num cname tok :
  fs filename = Some (header :: datalines) →
  line ∈ datalines →
  names sub !! num = Some cname → is_opaque cname = false →
  tokens line !! num = Some tok → np_double tok = None →
  raises (_readfile fs np_double filename sub).
Proof.
  intros Hfs Hline Hname Hop Htok Hbad. rewrite (readfile_lines _ _ _ _ _ _ Hfs).
  apply (read_columns_raises _ _ _ _ _ num cname); [done|]. simpl.
  apply (read_column_raises _ _ _ _ line); [done|].
  intros tok' Htok'. assert (tok' = tok) as -> by congruence.
  unfold cell. by rewrite Hop, Hbad.
Qed.

Lemma report_lines_all_nan (propdata reviewdata : table) names modelname cname a :
  cname ∈ names → is_opaque cname = false →
  reviewdata !! cname = Some (FloatArr a) →
  Forall (λ x, isnan x = true) a →
  raises (report_lines pct_f pct_s propdata reviewdata names modelname).
Proof.
  intros Hin Hop Hcol Hnan. unfold report_lines.
  do 4 (apply raises_bind_later; intros ? _).
  apply raises_bind. apply (mapM_raises _ _ cname).
  { apply list_elem_of_filter. by split. }
  unfold max_line. apply raises_bind.
  unfold extreme_args, dict_get. rewrite Hcol. simpl.
  rewrite (nanargmax_all_nan a Hnan). apply raises_Raise.
Qed.

Lemma section_file_missing name :
  file_missing fs propschedule reviewschedule name → fails (section name).
Proof.
  intros (part & Hpart & Hmiss). subst section. unfold section_of.
  apply fails_bind, fails_lift. unfold read_pair, dict_get. rewrite Hpart. cbn [of_option]. rewrite result_Ok_bind.
  apply raises_bind_later. intros sub _.
  destruct Hmiss as [Hp|Hr].
  - rewrite (readfile_missing _ _ Hp). apply raises_Raise.
  - apply raises_bind_later. intros p _.
    rewrite (readfile_missing _ _ Hr). apply raises_Raise.
Qed.

Lemma section_bad_token name :
  bad_numeric_token fs np_double propschedule name ∨
  bad_numeric_token fs np_double reviewschedule name →
  fails (section name).
Proof.
  intros Hbad. subst section. unfold section_of.
  apply fails_bind, fails_lift. unfold read_pair, dict_get.
  destruct Hbad as
    [(part & sub & header & dl & line & num & cname & tok & Hpart & Hsub & Hfs &
      Hline & Hname & Hop & Htok & Hnp) |
     (part & sub & header & dl & line & num & cname & tok & Hpart & Hsub & Hfs &
      Hline & Hname & Hop & Htok & Hnp)];
    rewrite Hpart, Hsub; simpl.
  - apply raises_bind. by eapply readfile_bad_token.
  - apply raises_bind_later. intros p _.
    apply raises_bind. by eapply readfile_bad_token.
Qed.

Lemma section_all_nan name :
  all_nan_review_column fs np_double reviewschedule name → fails (section name).
Proof.
  intros (part & sub & reviewdata & cname & a & Hpart & Hsub & Hread & Hin &
          Hop & Hcol & Hnan).
  subst section. unfold section_of.
  destruct (read_pair fs np_double propschedule reviewschedule headerinfo name)
    as [[[sub' p] r]|e] eqn:Hpair; [|by exists e].
  apply read_pair_Ok in Hpair as (part' & Hpart' & Hsub' & _ & Hr).
  assert (part' = part) as -> by congruence.
  assert (sub' = sub) as -> by congruence.
  assert (r = reviewdata) as -> by congruence.
  rewrite W_lift_Ok_bind.
  destruct (headerinfo_Time _ _ Hsub) as [rest Hnames]. rewrite Hnames.
  apply writeReportData_fails.
  apply (report_lines_all_nan _ _ _ _ cname a); try done.
  rewrite Hnames in Hin. apply elem_of_cons in Hin as [->|Hin]; [done|done].
Qed.

End SectionFails.

(** ** The ending configuration *)

Lemma getitem_Ok_elem col i v : getitem col i = Ok v → v ∈ elements col.
Proof.
  unfold getitem. destruct (_ && _); [|done]. unfold of_option.
  destruct (elements col !! _) as [v'|] eqn:Hv; [|done].
  intros [= <-]. by eapply list_elem_of_lookup_2.
Qed.


Lemma enumerate_elem {A} (l : list A) num (x : A) :
  (num, x) ∈ enumerate l → x ∈ l.
Proof. unfold enumerate. apply elem_of_zip_r. Qed.

Section EndingConfiguration.

Variable fs : string → option (list string).
Variable np_double : string → option double.
Variable pct_f : double → string.
Variable pct_s : value → string.
Variable propschedule : string.

Let group := prop_body fs np_double pct_f pct_s propschedule headerinfo.

(** The line of a column of byte strings cannot be formatted. *)
Lemma prop_line_bytes_raises (propdata : table) loc col :
  propdata !! loc = Some col →
  Forall (λ v, ∃ b, v = Bytes b) (elements col) →
  raises (dict_get propdata loc ≫= λ col,
          getitem col (-1) ≫= λ v,
          fmt_f pct_f v ≫= λ s,
          Ok (" " ++ loc ++ " : " ++ s ++ nl)).
Proof.
  intros Hcol Hbytes. unfold dict_get. rewrite Hcol. simpl.
  apply raises_bind_later. intros v Hv. apply raises_bind.
  apply getitem_Ok_elem in Hv. rewrite Forall_forall in Hbytes.
  destruct (Hbytes v Hv) as [b ->]. apply raises_Raise.
Qed.

(** The group of lines of [acisfp] is never completed: its column
    [SI] is in [propnames] and is read as byte strings. *)
Lemma acisfp_group_fails num : fails (group (num, "acisfp")).
Proof.
  subst group. unfold prop_body.
  assert (Hpart : dict_get fileparts "acisfp" = Ok "_acis_fp_plot.txt")
    by (by vm_compute).
  assert (Hsub : dict_get headerinfo "acisfp" =
    Ok {| columns := 23;
          names := ["Time"; "FPTEMP"; "FPTEMP_Rel"; "Solid_Angle"; "in_out";
                    "1CBAT"; "SIM_PX"; "Pitch"; "Roll"; "Sun_Body_Y";
                    "SimPos"; "FEP_Count"; "CCD_Count"; "Vid_Board";
                    "Clocking"; "CTI"; "Radmon_Enabled"; "DH_Heater";
                    "ACIS_NIL_Undercover"; "SI"; "Cold_FP"; "FPTEMP_Limit";
                    "Within_Limit"];
          title := "ISIM: ACIS FP" |}) by (by vm_compute).
  rewrite Hpart, Hsub.
  cbn [mbind result_bind].
  match goal with
  | |- context [_readfile fs np_double ?f ?s] =>
      set (sub := s); destruct (_readfile fs np_double f sub) as [t|e] eqn:Hread
  end; [|by exists e].
  change (Ok t ≫= λ propdata : table, Ok (sub, propdata)) with (Ok (sub, t)).
  rewrite W_lift_Ok_bind. apply fails_bind_later. intros _ _.
  apply (for_fails _ _ "SI").
  { apply (bool_decide_unpack _). by vm_compute. }
  rewrite bool_decide_eq_true_2
    by (apply (bool_decide_unpack _); by vm_compute).
  apply fails_bind, fails_lift.
  destruct (readfile_Ok_lines _ _ _ _ _ Hread) as (header & datalines & Hfs).
  destruct (readfile_column _ _ _ _ _ _ _ 19%nat "SI" Hfs Hread)
    as (col & Hcol & Hall).
  { split; [done|]. intros num' Hlt.
    do 23 (destruct num' as [|num']; [first [lia|done]|]). done. }
  apply (prop_line_bytes_raises t "SI" col Hcol).
  apply Forall_forall. intros v Hv.
  apply list_elem_of_lookup in Hv as [i Hi].
  destruct (Forall2_lookup_r _ _ _ _ _ Hall Hi) as (line & _ & tok & _ & Hcell).
  exists tok. unfold cell in Hcell.
  replace (is_opaque "SI") with true in Hcell by (by vm_compute). congruence.
Qed.

Lemma prop_loop_fails : fails (for_ (enumerate plotorder) group).
Proof.
  apply (for_fails _ _ (9%nat, "acisfp")); [|apply acisfp_group_fails].
  apply (bool_decide_unpack _). by vm_compute.
Qed.

(** C2 (code defect): [writePropData] never completes.  Whatever the
    files, the run ends in an exception, at the latest in the group of
    lines of [acisfp]: the allow-listed column [SI] is read as byte
    strings and [%f] is applied to it; no line is written for [SI] or
    [Within_Limit]. *)
Theorem writePropData_never_completes :
  raises (writePropData fs np_double pct_f pct_s propschedule initial_state).2.
Proof.
  unfold writePropData. fold group.
  destruct prop_loop_fails as [e He].
  change (self_headerinfo initial_state) with headerinfo. fold group.
  rewrite He. by exists e.
Qed.


Lemma writePropData_registry st :
  self_headerinfo (writePropData fs np_double pct_f pct_s propschedule st).1 =
  self_headerinfo st.
Proof. unfold writePropData. by destruct (outcome _). Qed.

End EndingConfiguration.

(** ** The runs *)

Section Runs.

Variable fs : string → option (list string).
Variable np_double : string → option double.
Variable pct_f : double → string.
Variable pct_s : value → string.

(** C3 (code defect): [writeChecklistData] changes the registry.  In
    a run that completes, the column-name list of every model of the
    display order has lost its first element "Time", so the registry
    differs from the one of construction time; [writePropData], which
    slices the list, leaves the registry as it was. *)
Theorem writeChecklistData_pops_Time propschedule reviewschedule :
  let run := writeChecklistData fs np_double pct_f pct_s propschedule
               reviewschedule initial_state in
  (run.2 = Ok tt →
   ∀ name, name ∈ plotorder →
     ∃ sub rest, headerinfo !! name = Some sub ∧
       names sub = "Time" :: rest ∧
       self_headerinfo run.1 !! name =
         Some {| columns := columns sub; names := rest; title := title sub |} ∧
       self_headerinfo run.1 !! name ≠ headerinfo !! name) ∧
  (∀ st, self_headerinfo
           (writePropData fs np_double pct_f pct_s propschedule st).1 =
         self_headerinfo st).
Proof.
  intros run. split; [|apply writePropData_registry].
  intros Hok name Hname.
  destruct (writeChecklistData_sections fs np_double pct_f pct_s propschedule
              reviewschedule) as (_ & _ & _ & Hpop & _).
  destruct (Hpop Hok) as [_ Hreg].
  destruct (Hreg name Hname) as (sub & first & rest & Hsub & Hnames & Hlook).
  destruct (headerinfo_Time _ _ Hsub) as [rest' Hrest'].
  rewrite Hrest' in Hnames. injection Hnames as <- <-.
  exists sub, rest'. repeat split; [done..|].
  fold run in Hlook. rewrite Hlook, Hsub. intros [= Heq].
  apply (f_equal names) in Heq. simpl in Heq. rewrite Hrest' in Heq.
  apply (f_equal length) in Heq. simpl in Heq. lia.
Qed.

(** C4 (amended): when a file of some model of the display order is
    missing, or a numeric column of one of its files holds a token
    that is not a number, or a numeric column of its review table is
    all NaN, the run of [writeChecklistData] ends in an exception; the
    sections of the models that come before the first failing one in
    the display order have been written in full, to the report and to
    the standard output, followed in the report by what the failing
    section wrote before its exception. *)
Theorem report_failure_keeps_earlier_sections propschedule reviewschedule name :
  let section := section_of fs np_double pct_f pct_s propschedule
                   reviewschedule in
  let run := writeChecklistData fs np_double pct_f pct_s propschedule
               reviewschedule initial_state in
  name ∈ plotorder →
  file_missing fs propschedule reviewschedule name ∨
  bad_numeric_token fs np_double propschedule name ∨
  bad_numeric_token fs np_double reviewschedule name ∨
  all_nan_review_column fs np_double reviewschedule name →
  ∃ e before failing after,
    run.2 = Raise e ∧
    plotorder = (before ++ failing :: after)%list ∧
    Forall (λ m, outcome (section m) = Ok tt) before ∧
    outcome (section failing) = Raise e ∧
    outfile run.1 =
      (concat ((λ m, written (section m)) <$> before) ++
       written (section failing))%list ∧
    sys_stdout run.1 = concat ((λ m, written (section m)) <$> before).
Proof.
  intros section run Hname Hcond.
  assert (Hfails : fails (section name)).
  { destruct Hcond as [H|[H|[H|H]]].
    - by apply section_file_missing.
    - apply section_bad_token. by left.
    - apply section_bad_token. by right.
    - by apply section_all_nan. }
  destruct (writeChecklistData_sections fs np_double pct_f pct_s propschedule
              reviewschedule) as (Hr & Hout & _ & _ & Hstd).
  fold run section in Hr, Hout, Hstd.
  destruct (for_fails plotorder section name Hname Hfails) as [e He].
  destruct (for_Raise _ _ _ He) as (before & failing & after & Hsplit & Hall &
                                    Hfail & Hw).
  exists e, before, failing, after.
  rewrite Hr, Hout, (Hstd e) by congruence.
  repeat split; try done.
  rewrite Hsplit. by apply written_completed_Raise with (e := e).
Qed.





End Runs.

(** * Examples: the properties on concrete files *)

Import Examples.

(** The column of the specification: [1.0, NaN, 5.0, 3.0] has its
    maximum 5.0 at index 2 and its minimum 1.0 at index 0, and these
    are the lines of the two blocks. *)
Lemma max_min_lines_spec_column :
  let w := _writeReportData Reference.pct_f Reference.pct_s spec_table
             spec_table ["X"] "Example" in
  outcome w = Ok tt ∧
  (∃ pre maxlines minlines post,
     written w =
       concat [pre; [nl ++ "Max Values:" ++ nl]; maxlines;
               [nl ++ "Min Values:" ++ nl]; minlines; post] ∧
     length pre = (9 + 2 * length ["X"])%nat ∧
     Forall2 (extreme_line_of Reference.pct_f Reference.pct_s max_index
                spec_table) (numeric_names ["X"]) maxlines ∧
     Forall2 (extreme_line_of Reference.pct_f Reference.pct_s min_index
                spec_table) (numeric_names ["X"]) minlines) ∧
  nanargmax spec_column = Ok 2%nat ∧ nanargmin spec_column = Ok 0%nat ∧
  written w !! 11%nat = Some (nl ++ "Max Values:" ++ nl) ∧
  written w !! 12%nat = Some ("    X: 5.000000  (b't2')" ++ nl) ∧
  written w !! 13%nat = Some (nl ++ "Min Values:" ++ nl) ∧
  written w !! 14%nat = Some ("    X: 1.000000  (b't0')" ++ nl).
Proof.
  intros w.
  assert (Hok : outcome w = Ok tt) by (vm_compute; reflexivity).
  split; [exact Hok|]. split.
  { exact (max_min_lines_report_first_extremes Reference.pct_f Reference.pct_s
             spec_table spec_table ["X"] "Example" Hok). }
  repeat split; vm_compute; reflexivity.
Defined.

(** C1, as stated, fails on a column that holds a NaN before minus
    infinity and nothing else: the column has a value that is not NaN,
    its maximum is minus infinity at index 1, and the line under
    "Max Values:" shows NaN with the Time of index 0. *)
Lemma nan_before_neg_inf_is_reported :
  let w := _writeReportData Reference.pct_f Reference.pct_s neginf_table
             neginf_table ["X"] "Example" in
  _readfile fs_columns Reference.np_double "neginf_plot.txt" two_columns =
    Ok neginf_table ∧
  is_opaque "X" = false ∧
  neginf_table !! "X" = Some (FloatArr [S754_nan; neg_inf]) ∧
  (∃ x, x ∈ [S754_nan; neg_inf] ∧ isnan x = false) ∧
  first_max [S754_nan; neg_inf] 1 ∧
  outcome w = Ok tt ∧
  written w !! 11%nat = Some (nl ++ "Max Values:" ++ nl) ∧
  written w !! 12%nat = Some ("    X: nan  (b't0')" ++ nl) ∧
  ¬ extreme_line_of Reference.pct_f Reference.pct_s first_max neginf_table "X"
      ("    X: nan  (b't0')" ++ nl).
Proof.
  intros w.
  split; [vm_compute; reflexivity|]. split; [vm_compute; reflexivity|].
  split; [vm_compute; reflexivity|]. split.
  { exists neg_inf. split; [by right; left|done]. }
  split.
  { exists neg_inf. split; [done|]. split; [done|]. split.
    - intros [|[|j]] x Hx Hn; simpl in Hx; [by injection Hx as <-| |done].
      by injection Hx as <-.
    - intros [|j] x Hlt Hx Hn; [|lia]. simpl in Hx. by injection Hx as <-. }
  split; [vm_compute; reflexivity|]. split; [vm_compute; reflexivity|].
  split; [vm_compute; reflexivity|].
  intros (a & tcol & i & v & t & Ha & Ht & Hfirst & Hv & Hti & Hline).
  assert (Ha' : neginf_table !! "X" = Some (FloatArr [S754_nan; neg_inf]))
    by (vm_compute; reflexivity).
  assert (Ht' : neginf_table !! "Time" = Some (BytesArr ["t0"; "t1"]))
    by (vm_compute; reflexivity).
  rewrite Ha' in Ha. injection Ha as <-.
  rewrite Ht' in Ht. injection Ht as <-.
  destruct Hfirst as (v' & Hv' & Hn & _). rewrite Hv in Hv'. injection Hv' as <-.
  destruct i as [|[|i]]; simpl in Hv, Hti.
  - injection Hv as <-. done.
  - injection Hv as <-. injection Hti as <-. vm_compute in Hline.
    discriminate Hline.
  - done.
Qed.

(** A line with a token too few makes [_readfile] raise; tokens
    beyond the schema change nothing. *)
Lemma short_line_raises_long_line_ignored :
  raises (_readfile fs_columns Reference.np_double "short_plot.txt" two_columns) ∧
  _readfile (Reference.files
               [("long_plot.txt", ["another header"; "t0 1.0"; "t1 2.0 8 9"])])
    Reference.np_double "long_plot.txt" two_columns =
  _readfile fs_columns Reference.np_double "long_plot.txt" two_columns.
Proof.
  split.
  - apply (proj1 (readfile_short_line_raises fs_columns Reference.np_double "short_plot.txt"
                    two_columns)).
    exists "Time X", ["t0 1.0"; "t1"], "t1".
    split; [by vm_compute|]. split; [by right; left|]. vm_compute. lia.
  - apply (proj2 (readfile_short_line_raises fs_columns Reference.np_double "long_plot.txt"
                    two_columns) _ "Time X" "another header"
             ["t0 1.0 7.0"; "t1 2.0"] ["t0 1.0"; "t1 2.0 8 9"]);
      [by vm_compute..|].
    repeat constructor.
Defined.

(** C5, as stated, fails on a line with more tokens than the schema
    has names: [_readfile] returns a table. *)
Lemma long_line_is_accepted :
  some_data_line fs_columns "long_plot.txt"
    (λ n, n ≠ length (names two_columns)) ∧
  ¬ raises (_readfile fs_columns Reference.np_double "long_plot.txt" two_columns).
Proof.
  split.
  - exists "Time X", ["t0 1.0 7.0"; "t1 2.0"], "t0 1.0 7.0".
    split; [by vm_compute|]. split; [by left|]. by vm_compute.
  - intros [e He]. vm_compute in He. discriminate He.
Qed.

Lemma spec_file_returns_table :
  fs_columns "spec_plot.txt" =
    Some ["Time X"; "t0 1.0"; "t1 nan"; "t2 5.0"; "t3 3.0"] ∧
  parse_returns_table fs_columns Reference.np_double "spec_plot.txt" two_columns ∧
  ∀ fs' header',
    fs' "spec_plot.txt" =
      Some [header'; "t0 1.0"; "t1 nan"; "t2 5.0"; "t3 3.0"] →
    _readfile fs' Reference.np_double "spec_plot.txt" two_columns =
    _readfile fs_columns Reference.np_double "spec_plot.txt" two_columns.
Proof.
  split; [by vm_compute|].
  apply (readfile_well_formed_returns_table fs_columns Reference.np_double "spec_plot.txt"
           two_columns "Time X" ["t0 1.0"; "t1 nan"; "t2 5.0"; "t3 3.0"]).
  - by vm_compute.
  - apply well_formedb_sound. by vm_compute.
Defined.

(** C6, as stated, fails on a file with a line and a short data line:
    [_readfile] returns no table. *)
Lemma short_line_gives_no_table :
  (∃ header datalines,
     fs_columns "short_plot.txt" = Some (header :: datalines)) ∧
  ¬ parse_returns_table fs_columns Reference.np_double "short_plot.txt" two_columns.
Proof.
  split; [by eexists _, _; vm_compute|].
  intros (header & datalines & t & _ & Hread & _).
  vm_compute in Hread. discriminate Hread.
Qed.

Lemma spec_file_type_policy :
  _readfile fs_columns Reference.np_double "spec_plot.txt" two_columns = Ok spec_table ∧
  "X" ∈ names two_columns ∧
  ∃ col num header datalines,
    spec_table !! "X" = Some col ∧
    fs_columns "spec_plot.txt" = Some (header :: datalines) ∧
    column_position (names two_columns) num "X" ∧
    ((matches_opaque "X" ∧
      Forall2 (λ line v, ∃ tok, tokens line !! num = Some tok ∧ v = Bytes tok)
        datalines (elements col)) ∨
     (¬ matches_opaque "X" ∧
      ∃ xs, col = FloatArr xs ∧
        Forall2 (λ line x, ∃ tok, tokens line !! num = Some tok ∧
                             Reference.np_double tok = Some x)
          datalines xs)).
Proof.
  assert (Hread : _readfile fs_columns Reference.np_double "spec_plot.txt" two_columns =
                  Ok spec_table) by (by vm_compute).
  assert (Hin : "X" ∈ names two_columns) by (by right; left).
  split; [done|]. split; [done|].
  exact (readfile_type_policy fs_columns Reference.np_double "spec_plot.txt" two_columns
           spec_table "X" Hread Hin).
Defined.


Lemma spec_file_row_order :
  ∃ t, _readfile fs_columns Reference.np_double "spec_plot.txt" two_columns = Ok t ∧
    ∀ num name, column_position (names two_columns) num name →
      ∃ col, t !! name = Some col ∧
        (∀ i line, ["t0 1.0"; "t1 nan"; "t2 5.0"; "t3 3.0"] !! i = Some line →
           ∃ tok v, tokens line !! num = Some tok ∧
                    cell Reference.np_double name tok = Some v ∧
                    elements col !! i = Some v) ∧
        (∀ line, head ["t0 1.0"; "t1 nan"; "t2 5.0"; "t3 3.0"] = Some line →
           ∃ tok v, tokens line !! num = Some tok ∧
                    cell Reference.np_double name tok = Some v ∧
                    getitem col 0 = Ok v) ∧
        (∀ line, last ["t0 1.0"; "t1 nan"; "t2 5.0"; "t3 3.0"] = Some line →
           ∃ tok v, tokens line !! num = Some tok ∧
                    cell Reference.np_double name tok = Some v ∧
                    getitem col (-1) = Ok v).
Proof.
  apply (readfile_preserves_row_order fs_columns Reference.np_double "spec_plot.txt"
           two_columns "Time X").
  - by vm_compute.
  - apply well_formedb_sound. by vm_compute.
Defined.



(** The ending configuration of a complete propagation schedule: the
    run ends in [TypeError] after the line of the last numeric column
    of [acisfp] that comes before [SI]. *)
Lemma ending_configuration_of_complete_schedule :
  let run := writePropData fs_complete Reference.np_double Reference.pct_f
               Reference.pct_s "MAY0712A" initial_state in
  run.2 = Raise TypeError ∧
  head (outfile run.1) =
    Some ("Time of Validity:  b'2012:128:00:05:28.000'" ++ nl) ∧
  last (outfile run.1) = Some (" ACIS_NIL_Undercover : 20.250000" ++ nl).
Proof. intros run. repeat split; vm_compute; reflexivity. Qed.

Lemma complete_run_pops_Time :
  let run := writeChecklistData fs_complete Reference.np_double
               Reference.pct_f Reference.pct_s "MAY0712A" "MAY1412A"
               initial_state in
  run.2 = Ok tt ∧
  names <$> self_headerinfo run.1 !! "oba" =
    Some ["4RT700T"; "4RT700T_0"; "Pitch"; "Roll"] ∧
  self_headerinfo run.1 !! "oba" ≠ headerinfo !! "oba".
Proof.
  intros run.
  assert (Hok : run.2 = Ok tt) by (vm_compute; reflexivity).
  split; [exact Hok|]. split; [vm_compute; reflexivity|].
  destruct (proj1 (writeChecklistData_pops_Time fs_complete
                     Reference.np_double Reference.pct_f Reference.pct_s
                     "MAY0712A" "MAY1412A") Hok "oba")
    as (sub & rest & _ & _ & _ & Hne); [by left|exact Hne].
Defined.

Lemma missing_tank_review_file :
  let section := section_of fs_partial Reference.np_double Reference.pct_f
                   Reference.pct_s "MAY0712A" "MAY1412A" in
  let run := writeChecklistData fs_partial Reference.np_double
               Reference.pct_f Reference.pct_s "MAY0712A" "MAY1412A"
               initial_state in
  "tank" ∈ plotorder ∧
  file_missing fs_partial "MAY0712A" "MAY1412A" "tank" ∧
  ∃ e before failing after,
    run.2 = Raise e ∧
    plotorder = (before ++ failing :: after)%list ∧
    Forall (λ m, outcome (section m) = Ok tt) before ∧
    outcome (section failing) = Raise e ∧
    outfile run.1 =
      (concat ((λ m, written (section m)) <$> before) ++
       written (section failing))%list ∧
    sys_stdout run.1 = concat ((λ m, written (section m)) <$> before).
Proof.
  intros section run.
  assert (Hin : "tank" ∈ plotorder) by (by right; left).
  assert (Hmiss : file_missing fs_partial "MAY0712A" "MAY1412A" "tank").
  { exists "_pftank2t_plot.txt". split; [vm_compute; reflexivity|].
    right. vm_compute. reflexivity. }
  split; [exact Hin|]. split; [exact Hmiss|].
  apply (report_failure_keeps_earlier_sections fs_partial Reference.np_double
           Reference.pct_f Reference.pct_s "MAY0712A" "MAY1412A" "tank" Hin).
  left. exact Hmiss.
Defined.

(** C4, as stated, fails when the review file of the second model is
    missing: the run raises, and the section of the first model is in
    the report. *)
Lemma partial_report_is_written :
  let run := writeChecklistData fs_partial Reference.np_double
               Reference.pct_f Reference.pct_s "MAY0712A" "MAY1412A"
               initial_state in
  file_missing fs_partial "MAY0712A" "MAY1412A" "tank" ∧
  run.2 = Raise FileNotFoundError ∧
  outfile run.1 =
    written (section_of fs_partial Reference.np_double Reference.pct_f
               Reference.pct_s "MAY0712A" "MAY1412A" "oba") ∧
  nth_error (outfile run.1) 1 = Some ("OBA: Forward Bulkhead Report" ++ nl) ∧
  ¬ aborts_without_output run.
Proof.
  intros run. split.
  { exists "_pftank2t_plot.txt". split; [vm_compute; reflexivity|].
    right. vm_compute. reflexivity. }
  split; [vm_compute; reflexivity|]. split; [vm_compute; reflexivity|].
  split; [vm_compute; reflexivity|].
  intros [_ Hout]. vm_compute in Hout. discriminate Hout.
Qed.


(** * Further properties of the code *)

(** ** [_readfile]: when it returns and how it fails *)

Lemma mapM_Raise {A B} (f : A → result B) l e :
  mapM f l = Raise e → ∃ x, x ∈ l ∧ f x = Raise e.
Proof.
  induction l as [|x l IH]; [done|]. simpl. unfold_result.
  destruct (f x) as [y|e'] eqn:Hx.
  - destruct (mapM f l) as [ys|e'']; [done|]. intros [= ->].
    destruct IH as (x' & Hin & Hx'); [done|]. exists x'. split; [by right|done].
  - intros [= ->]. exists x. split; [by left|done].
Qed.

Section ReadFileOutcome.

Variable fs : string → option (list string).
Variable np_double : string → option double.

Lemma read_column_Raise num name datalines e :
  read_column np_double num name datalines = Raise e →
  e = IndexError ∨ e = ValueError.
Proof.
  unfold read_column. destruct (is_opaque name).
  - destruct (mapM _ datalines) as [toks|e'] eqn:Hm; [done|]. intros [= ->].
    apply mapM_Raise in Hm as (line & _ & Hline).
    unfold token_at, of_option in Hline.
    destruct (tokens line !! num); [done|]. left. congruence.
  - destruct (mapM _ datalines) as [xs|e'] eqn:Hm; [done|]. intros [= ->].
    apply mapM_Raise in Hm as (line & _ & Hline).
    unfold double_at, token_at in Hline. unfold_result.
    destruct (tokens line !! num) as [tok|]; [|left; congruence].
    destruct (np_double tok); [done|]. right. congruence.
Qed.

Lemma read_columns_Raise names : ∀ num datalines (data : table) e,
  read_columns np_double num names datalines data = Raise e →
  e = IndexError ∨ e = ValueError.
Proof.
  induction names as [|x rest IH]; intros num dl data e; [done|]. simpl.
  destruct (read_column np_double num x dl) as [col|e'] eqn:Hcol.
  - apply IH.
  - intros [= ->]. by eapply read_column_Raise.
Qed.

Lemma read_columns_all names : ∀ num datalines (data t : table) k name,
  read_columns np_double num names datalines data = Ok t →
  names !! k = Some name →
  ∃ col, read_column np_double (num + k) name datalines = Ok col.
Proof.
  induction names as [|x rest IH]; intros num dl data t k name Ht Hk; [done|].
  simpl in Ht. destruct (read_column np_double num x dl) as [col|] eqn:Hcol;
    [|done].
  destruct k as [|k].
  - injection Hk as <-. rewrite Nat.add_0_r. by exists col.
  - replace (num + S k)%nat with (S num + k)%nat by lia. by eapply IH.
Qed.

Lemma read_columns_dom names : ∀ num datalines (data t : table) name,
  read_columns np_double num names datalines data = Ok t →
  is_Some (t !! name) ↔ name ∈ names ∨ is_Some (data !! name).
Proof.
  induction names as [|x rest IH]; intros num dl data t name Ht; simpl in Ht.
  - injection Ht as <-. split; [by right|]. intros [H|H]; [|done].
    by apply elem_of_nil in H.
  - destruct (read_column np_double num x dl) as [col|]; [|done].
    rewrite (IH _ _ _ _ name Ht), elem_of_cons, lookup_insert_is_Some.
    destruct (decide (x = name)) as [->|Hne]; [by intuition|].
    split; [|by intuition]. intros [H|[H|[_ H]]]; try by intuition.
Qed.

(** X1: [_readfile] returns a table exactly on the files that exist, have
    a first line, and have well-formed data lines: on every data line
    a token for each column of the schema, and a number wherever the
    column is numeric. *)
Theorem readfile_returns_iff_well_formed filename sub :
  (∃ t, _readfile fs np_double filename sub = Ok t) ↔
  (∃ header datalines,
     fs filename = Some (header :: datalines) ∧
     well_formed np_double (names sub) datalines).
Proof.
  split.
  - intros [t Ht].
    destruct (readfile_Ok_lines _ _ _ _ _ Ht) as (header & datalines & Hfs).
    exists header, datalines. split; [done|].
    rewrite (readfile_lines _ _ _ _ _ _ Hfs) in Ht.
    assert (Htok : ∀ line k name, line ∈ datalines → names sub !! k = Some name →
              ∃ tok v, tokens line !! k = Some tok ∧
                       cell np_double name tok = Some v).
    { intros line k name Hline Hk.
      destruct (read_columns_all _ _ _ _ _ _ _ Ht Hk) as [col Hcol].
      apply read_column_Ok in Hcol. apply list_elem_of_lookup in Hline as [i Hi].
      destruct (Forall2_lookup_l _ _ _ _ _ Hcol Hi) as (v & _ & tok & Htok & Hv).
      by exists tok, v. }
    intros line Hline. split.
    + destruct (names sub) as [|x rest] eqn:Hnames; [simpl; lia|].
      destruct (lookup_lt_is_Some_2 (x :: rest) (length rest)) as [name Hname];
        [simpl; lia|].
      destruct (Htok line _ name Hline Hname) as (tok & _ & Htok' & _).
      apply lookup_lt_Some in Htok'. simpl. lia.
    + intros num name tok Hname Htok'.
      destruct (Htok line num name Hline Hname) as (tok' & v & Htok'' & Hv).
      assert (tok' = tok) as -> by congruence. by exists v.
  - intros (header & datalines & Hfs & Hwf). by eapply readfile_total.
Qed.

(** X2: The exceptions of [_readfile]: [FileNotFoundError] exactly when the
    file cannot be opened; otherwise [IndexError] (no line at all, or a
    data line that is too short) or [ValueError] (a token that is not
    a number); never another one. *)
Theorem readfile_exceptions filename sub e :
  _readfile fs np_double filename sub = Raise e →
  (e = FileNotFoundError ↔ fs filename = None) ∧
  (fs filename = Some [] → e = IndexError) ∧
  (e = FileNotFoundError ∨ e = IndexError ∨ e = ValueError).
Proof.
  unfold _readfile. destruct (fs filename) as [[|header datalines]|].
  - intros [= <-]. repeat split; try done. by right; left.
  - intros He. apply read_columns_Raise in He.
    repeat split; try done; [|by right].
    intros ->. by destruct He.
  - intros [= <-]. repeat split; try done. by left.
Qed.

Lemma readfile_dom filename sub t name :
  _readfile fs np_double filename sub = Ok t →
  is_Some (t !! name) ↔ name ∈ names sub.
Proof.
  intros Ht.
  destruct (readfile_Ok_lines _ _ _ _ _ Ht) as (header & datalines & Hfs).
  rewrite (readfile_lines _ _ _ _ _ _ Hfs) in Ht.
  rewrite (read_columns_dom _ _ _ _ _ name Ht), lookup_empty.
  split; [|by left]. intros [H|[? H]]; done.
Qed.

Lemma readfile_size filename sub t :
  _readfile fs np_double filename sub = Ok t →
  NoDup (names sub) → size t = length (names sub).
Proof.
  intros Ht Hnd. rewrite <- size_dom.
  assert (Hdom : dom t = list_to_set (names sub)).
  { apply set_eq. intros name.
    rewrite elem_of_dom, elem_of_list_to_set. by apply (readfile_dom filename). }
  rewrite Hdom. by apply size_list_to_set.
Qed.

(** X3: The table returned holds the columns of the schema and no other;
    when the schema names no column twice, as every schema of the
    registry does, it has as many columns as the schema has names. *)
Theorem readfile_table_columns filename sub t :
  _readfile fs np_double filename sub = Ok t →
  (∀ name, is_Some (t !! name) ↔ name ∈ names sub) ∧
  (NoDup (names sub) → size t = length (names sub)).
Proof.
  intros Ht. split; [intros name; by apply (readfile_dom filename)|].
  by apply (readfile_size filename).
Qed.

Lemma read_columns_no_lines names : ∀ num (data : table),
  ∃ t, read_columns np_double num names [] data = Ok t ∧
    ∀ name, t !! name =
      if bool_decide (name ∈ names) then Some (FloatArr []) else data !! name.
Proof.
  induction names as [|x rest IH]; intros num data.
  - exists data. split; [done|]. intros name.
    rewrite bool_decide_eq_false_2; [done|]. apply not_elem_of_nil.
  - destruct (IH (S num) (<[x := FloatArr []]> data)) as (t & Ht & Hlook).
    exists t. split.
    + cbn [read_columns]. unfold read_column.
      by destruct (is_opaque x); cbn [mapM]; rewrite <- Ht.
    + intros name. rewrite Hlook.
      destruct (decide (name ∈ rest)) as [Hin|Hin].
      * rewrite !bool_decide_eq_true_2; [done| by right |done].
      * rewrite (bool_decide_eq_false_2 _ Hin).
        destruct (decide (name = x)) as [->|Hne].
        -- rewrite lookup_insert_eq, bool_decide_eq_true_2; [done|by left].
        -- rewrite lookup_insert_ne by done.
           rewrite bool_decide_eq_false_2; [done|].
           intros [?|?]%elem_of_cons; done.
Qed.

Lemma readfile_no_lines filename sub header :
  fs filename = Some [header] →
  ∃ t, _readfile fs np_double filename sub = Ok t ∧
    ∀ name, name ∈ names sub → t !! name = Some (FloatArr []).
Proof.
  intros Hfs. rewrite (readfile_lines _ _ _ _ header [] Hfs).
  destruct (read_columns_no_lines (names sub) 0%nat ∅) as (t & Ht & Hlook).
  exists t. split; [done|]. intros name Hname.
  by rewrite Hlook, bool_decide_eq_true_2.
Qed.

End ReadFileOutcome.

(** ** Blank lines *)

Lemma lstrip_blank line : blank line = true → lstrip line = "".
Proof.
  induction line as [|c s IH]; [done|]. simpl.
  intros [Hc Hs]%andb_true_iff. rewrite Hc. by apply IH.
Qed.

Lemma tokens_blank line : blank line = true → tokens line = [].
Proof. intros H. unfold tokens, strip. by rewrite (lstrip_blank line H). Qed.

(** X4: A blank data line, such as an empty last line, has no token, and
    a plot file that holds one cannot be read: under a schema with at
    least one column [_readfile] raises, with [IndexError] when the
    first column is opaque, as Time is. *)
Theorem blank_line_raises fs np_double filename sub header datalines line
    first rest :
  fs filename = Some (header :: datalines) →
  line ∈ datalines → blank line = true →
  names sub = first :: rest →
  raises (_readfile fs np_double filename sub) ∧
  (is_opaque first = true →
   _readfile fs np_double filename sub = Raise IndexError).
Proof.
  intros Hfs Hline Hblank Hnames.
  pose proof (tokens_blank line Hblank) as Htok.
  assert (Hmap : ∀ f : string → result string,
            (∀ l, tokens l = [] → f l = Raise IndexError) →
            (∀ l e, f l = Raise e → e = IndexError) →
            mapM f datalines = Raise IndexError).
  { intros f Hf Honly. clear Hfs. induction datalines as [|l dl IH];
      [by apply elem_of_nil in Hline|]. simpl. unfold_result.
    destruct (f l) as [y|e] eqn:Hl.
    - apply elem_of_cons in Hline as [->|Hline].
      + rewrite (Hf l Htok) in Hl. done.
      + by rewrite (IH Hline).
    - by rewrite (Honly l e Hl). }
  split.
  - rewrite (readfile_lines _ _ _ _ _ _ Hfs), Hnames.
    apply (read_columns_raises _ _ _ _ _ 0%nat first); [done|].
    apply (read_column_raises _ _ _ _ line); [done|].
    intros tok Htok'. by rewrite Htok in Htok'.
  - intros Hop. rewrite (readfile_lines _ _ _ _ _ _ Hfs), Hnames.
    cbn [read_columns]. unfold read_column. rewrite Hop.
    rewrite (Hmap (token_at 0)); [done| |].
    + intros l Hl. unfold token_at. by rewrite Hl.
    + intros l e. unfold token_at. destruct (tokens l !! 0%nat); [done|].
      by intros [= <-].
Qed.

Lemma empty_last_line_raises :
  let fs := Reference.files [("blank_plot.txt", ["Time X"; "t0 1.0"; ""])] in
  raises (_readfile fs Reference.np_double "blank_plot.txt" two_columns) ∧
  (is_opaque "Time" = true →
   _readfile fs Reference.np_double "blank_plot.txt" two_columns =
     Raise IndexError).
Proof.
  intros fs.
  apply (blank_line_raises fs Reference.np_double "blank_plot.txt" two_columns
           "Time X" ["t0 1.0"; ""] "" "Time" ["X"]).
  - vm_compute. reflexivity.
  - right. left.
  - reflexivity.
  - reflexivity.
Defined.

(** ** [_writeReportData]: shape and failures of a section *)

Section SectionShape.

Variable pct_f : double → string.
Variable pct_s : value → string.

Lemma time_at_first_row (data data' : table) :
  (dict_get data "Time" ≫= λ col, getitem col 0) =
  (dict_get data' "Time" ≫= λ col, getitem col 0) →
  time_at pct_s data 0 = time_at pct_s data' 0.
Proof.
  unfold time_at, dict_get. unfold_result.
  destruct (data !! "Time") as [c|], (data' !! "Time") as [c'|]; simpl;
    try done.
  - by intros ->.
  - destruct (getitem c 0); [done|]. by intros [= ->].
  - destruct (getitem c' 0); [done|]. by intros [= <-].
Qed.

Lemma value_line_first_row (data data' : table) name :
  (dict_get data name ≫= λ col, getitem col 0) =
  (dict_get data' name ≫= λ col, getitem col 0) →
  value_line pct_f pct_s data 0 name = value_line pct_f pct_s data' 0 name.
Proof.
  unfold value_line, dict_get. unfold_result.
  destruct (data !! name) as [c|], (data' !! name) as [c'|]; simpl; try done.
  - by intros ->.
  - destruct (getitem c 0); [done|]. by intros [= ->].
  - destruct (getitem c' 0); [done|]. by intros [= <-].
Qed.

(** X5: Of the propagation table a section uses the first row only: two
    propagation tables with the same first element, or the same
    failure to give one, in the Time column and in every named column
    give the same writes and the same outcome. *)
Theorem section_uses_first_propagation_row (propdata propdata' reviewdata : table)
    names modelname :
  (∀ name, name = "Time" ∨ name ∈ names →
     (dict_get propdata name ≫= λ col, getitem col 0) =
     (dict_get propdata' name ≫= λ col, getitem col 0)) →
  _writeReportData pct_f pct_s propdata reviewdata names modelname =
  _writeReportData pct_f pct_s propdata' reviewdata names modelname.
Proof.
  intros H. unfold _writeReportData, value_lines.
  rewrite (time_at_first_row propdata propdata') by (apply H; by left).
  rewrite (for_ext names
             (λ name, lift (value_line pct_f pct_s propdata 0 name) ≫= write)
             (λ name, lift (value_line pct_f pct_s propdata' 0 name) ≫= write));
    [done|].
  intros name Hname. rewrite (value_line_first_row propdata propdata'); [done|].
  apply H. by right.
Qed.

Lemma section_KeyError (propdata reviewdata : table) names modelname :
  propdata !! "Time" = None →
  _writeReportData pct_f pct_s propdata reviewdata names modelname =
  mkW [dashes ++ nl; modelname ++ " Report" ++ nl; dashes ++ nl ++ nl;
       "Propagation:" ++ nl; "------------" ++ nl] (Raise KeyError).
Proof.
  intros Hp. unfold _writeReportData, time_at, dict_get. rewrite Hp. done.
Qed.

Lemma section_IndexError (propdata reviewdata : table) names modelname col :
  propdata !! "Time" = Some col → elements col = [] →
  _writeReportData pct_f pct_s propdata reviewdata names modelname =
  mkW [dashes ++ nl; modelname ++ " Report" ++ nl; dashes ++ nl ++ nl;
       "Propagation:" ++ nl; "------------" ++ nl] (Raise IndexError).
Proof.
  intros Hp Hcol. unfold _writeReportData, time_at, dict_get.
  rewrite Hp. cbn [of_option]. rewrite result_Ok_bind.
  rewrite (getitem_empty col 0 Hcol). done.
Qed.

(** X6: A section without a first Time value: when the propagation table
    has no Time column the section raises [KeyError], when the column
    is empty it raises [IndexError]; either way exactly the five
    heading lines have been written. *)
Theorem section_without_start_time (propdata reviewdata : table) names modelname :
  let w := _writeReportData pct_f pct_s propdata reviewdata names modelname in
  let heading := [dashes ++ nl; modelname ++ " Report" ++ nl;
                  dashes ++ nl ++ nl; "Propagation:" ++ nl;
                  "------------" ++ nl] in
  (propdata !! "Time" = None → w = mkW heading (Raise KeyError)) ∧
  (∀ col, propdata !! "Time" = Some col → elements col = [] →
     w = mkW heading (Raise IndexError)).
Proof.
  intros w heading. subst w. split.
  - apply section_KeyError.
  - apply section_IndexError.
Qed.

Lemma mapM_length {A B} (f : A → result B) l ys :
  mapM f l = Ok ys → length ys = length l.
Proof. intros H. apply mapM_Ok in H. symmetry. by eapply Forall2_length. Qed.

(** X7: A section that is written has thirteen fixed lines, three lines
    for every named column (first row of either table, last row of
    the review table) and two more (Max, Min) for every named column
    that is not opaque. *)
Theorem section_line_count (propdata reviewdata : table) names modelname :
  let w := _writeReportData pct_f pct_s propdata reviewdata names modelname in
  outcome w = Ok tt →
  length (written w) =
    (13 + 3 * length names + 2 * length (numeric_names names))%nat.
Proof.
  intros w Hw. apply writeReportData_Ok in Hw. fold w in Hw.
  unfold report_lines in Hw.
  apply bind_Ok in Hw as (pstart & _ & Hw).
  apply bind_Ok in Hw as (plines & Hp & Hw).
  apply bind_Ok in Hw as (rstart & _ & Hw).
  apply bind_Ok in Hw as (rlines & Hr & Hw).
  apply bind_Ok in Hw as (maxlines & Hmax & Hw).
  apply bind_Ok in Hw as (minlines & Hmin & Hw).
  apply bind_Ok in Hw as (rend & _ & Hw).
  apply bind_Ok in Hw as (elines & He & Hw).
  injection Hw as <-.
  apply mapM_length in Hp, Hr, Hmax, Hmin, He.
  cbn [concat]. repeat (progress (rewrite ?length_app; cbn [length])).
  rewrite Hp, Hr, Hmax, Hmin, He. lia.
Qed.

End SectionShape.

(** ** [writeChecklistData]: the standard output *)

(** X8: The report is mirrored on the standard output.  A run that
    completes has written the sections of the display order to the
    report and has printed them all, followed by the closing message
    (in which the suffix of the report's name is doubled).  A run
    that raises has printed exactly the sections of the models before
    the failing one, which were completed, and the report holds these
    followed by what the failing section wrote before its exception. *)
Theorem report_is_mirrored_on_stdout fs np_double pct_f pct_s
    propschedule reviewschedule :
  let section := section_of fs np_double pct_f pct_s propschedule
                   reviewschedule in
  let run := writeChecklistData fs np_double pct_f pct_s propschedule
               reviewschedule initial_state in
  (run.2 = Ok tt →
   outfile run.1 = concat ((λ m, written (section m)) <$> plotorder) ∧
   sys_stdout run.1 =
     (outfile run.1 ++
      ["Wrote thermal report data to " ++
       (reviewschedule ++ "_Thermal_Load_Review_Report.txt") ++
       "_Thermal_Load_Review_Report.txt" ++ nl ++ nl]%string)%list) ∧
  (∀ e, run.2 = Raise e →
     ∃ before failing after,
       plotorder = (before ++ failing :: after)%list ∧
       Forall (λ m, outcome (section m) = Ok tt) before ∧
       outcome (section failing) = Raise e ∧
       sys_stdout run.1 = concat ((λ m, written (section m)) <$> before) ∧
       outfile run.1 = (sys_stdout run.1 ++ written (section failing))%list).
Proof.
  intros section run.
  destruct (writeChecklistData_sections fs np_double pct_f pct_s propschedule
              reviewschedule) as (Hr & Hout & _ & Hok & Hfail).
  fold run section in Hr, Hout, Hok, Hfail. split.
  - intros H. destruct (Hok H) as [Hstd _]. rewrite Hstd, Hout. split; [|done].
    rewrite H in Hr. symmetry in Hr. by destruct (for_Ok _ _ Hr) as [_ ->].
  - intros e He. rewrite He in Hr. symmetry in Hr.
    destruct (for_Raise _ _ _ Hr) as (before & failing & after & Hsplit & Hall &
                                      Hf & Hw).
    assert (Hstd : sys_stdout run.1 =
                   concat ((λ m, written (section m)) <$> before)).
    { rewrite (Hfail e He), Hsplit.
      exact (written_completed_Raise _ before failing after e Hall Hf). }
    exists before, failing, after. split; [done|]. split; [done|].
    split; [done|]. split; [done|]. by rewrite Hout, Hw, Hstd.
Qed.

(** ** A plot file that holds its header only *)

(** X9: A file with a header line and no data line is read without an
    error: every column of the schema, the opaque ones too, is an
    empty array of floats.  As the propagation file of a model it
    makes the section of the report raise [IndexError] after the five
    heading lines, when the review file is read. *)
Theorem header_only_file fs np_double pct_f pct_s filename sub header :
  fs filename = Some [header] →
  (∃ t, _readfile fs np_double filename sub = Ok t ∧
     ∀ name, name ∈ names sub → t !! name = Some (FloatArr [])) ∧
  (∀ name reviewschedule propschedule part,
     fileparts !! name = Some part →
     headerinfo !! name = Some sub →
     filename = propschedule ++ part →
     is_ok (_readfile fs np_double (reviewschedule ++ part) sub) →
     section_of fs np_double pct_f pct_s propschedule reviewschedule name =
     mkW [dashes ++ nl; title sub ++ " Report" ++ nl; dashes ++ nl ++ nl;
          "Propagation:" ++ nl; "------------" ++ nl] (Raise IndexError)).
Proof.
  intros Hfs.
  destruct (readfile_no_lines fs np_double filename sub header Hfs)
    as (t & Ht & Hcols).
  split; [by exists t|].
  intros name reviewschedule propschedule part Hpart Hsub -> Hrev.
  destruct (_readfile fs np_double (reviewschedule ++ part) sub)
    as [r|] eqn:Hr; [|done].
  destruct (headerinfo_Time name sub Hsub) as [rest Hnames].
  unfold section_of, read_pair, dict_get. rewrite Hpart, Hsub.
  cbn [of_option]. rewrite !result_Ok_bind, Ht, result_Ok_bind, Hr.
  rewrite result_Ok_bind, W_lift_Ok_bind, Hnames.
  apply (section_IndexError pct_f pct_s t r rest (title sub) (FloatArr []));
    [|done].
  apply Hcols. rewrite Hnames. by left.
Qed.

(** ** [nanargmax] and [nanargmin]: when they return *)

Lemma argmax_from_bound l : ∀ mp ind i,
  (ind < i)%nat → (argmax_from mp ind i l < i + length l)%nat.
Proof.
  induction l as [|x l IH]; intros mp ind i Hlt; simpl; [lia|].
  destruct (negb (SFleb x mp)).
  - destruct (isnan x); [lia|]. specialize (IH x i (S i)). lia.
  - specialize (IH mp ind (S i)). lia.
Qed.

Lemma argmin_from_bound l : ∀ mp ind i,
  (ind < i)%nat → (argmin_from mp ind i l < i + length l)%nat.
Proof.
  induction l as [|x l IH]; intros mp ind i Hlt; simpl; [lia|].
  destruct (negb (SFleb mp x)).
  - destruct (isnan x); [lia|]. specialize (IH x i (S i)). lia.
  - specialize (IH mp ind (S i)). lia.
Qed.

Lemma argmax_Ok_lt a : a ≠ [] → ∃ i, argmax a = Ok i ∧ (i < length a)%nat.
Proof.
  destruct a as [|x l]; [done|]. intros _. simpl.
  destruct (isnan x); [exists 0%nat; split; [done|lia]|].
  eexists. split; [done|]. pose proof (argmax_from_bound l x 0 1). lia.
Qed.

Lemma argmin_Ok_lt a : a ≠ [] → ∃ i, argmin a = Ok i ∧ (i < length a)%nat.
Proof.
  destruct a as [|x l]; [done|]. intros _. simpl.
  destruct (isnan x); [exists 0%nat; split; [done|lia]|].
  eexists. split; [done|]. pose proof (argmin_from_bound l x 0 1). lia.
Qed.

Lemma nanargmax_Ok_lt a x :
  x ∈ a → isnan x = false →
  ∃ i, nanargmax a = Ok i ∧ (i < length a)%nat.
Proof.
  intros Hx Hn. unfold nanargmax, _replace_nan.
  rewrite (some_not_nan_mask a x Hx Hn), andb_false_r.
  destruct (argmax_Ok_lt ((λ x, if isnan x then neg_inf else x) <$> a))
    as (i & Hi & Hlt).
  { destruct a; [by apply elem_of_nil in Hx|done]. }
  exists i. split; [done|]. by rewrite length_fmap in Hlt.
Qed.

Lemma nanargmin_Ok_lt a x :
  x ∈ a → isnan x = false →
  ∃ i, nanargmin a = Ok i ∧ (i < length a)%nat.
Proof.
  intros Hx Hn. unfold nanargmin, _replace_nan.
  rewrite (some_not_nan_mask a x Hx Hn), andb_false_r.
  destruct (argmin_Ok_lt ((λ x, if isnan x then pos_inf else x) <$> a))
    as (i & Hi & Hlt).
  { destruct a; [by apply elem_of_nil in Hx|done]. }
  exists i. split; [done|]. by rewrite length_fmap in Hlt.
Qed.

(** X10: [nanargmax] and [nanargmin] return exactly on the columns that
    hold a value that is not NaN, and then an index of the column;
    on every other column, the empty one too, they raise
    [ValueError]. *)
Theorem nan_extremes_return a :
  (Exists (λ x, isnan x = false) a →
   ∃ i j, nanargmax a = Ok i ∧ nanargmin a = Ok j ∧
     (i < length a)%nat ∧ (j < length a)%nat) ∧
  (Forall (λ x, isnan x = true) a →
   nanargmax a = Raise ValueError ∧ nanargmin a = Raise ValueError).
Proof.
  split.
  - intros (x & Hx & Hn)%Exists_exists.
    destruct (nanargmax_Ok_lt a x Hx Hn) as (i & Hi & Hilt).
    destruct (nanargmin_Ok_lt a x Hx Hn) as (j & Hj & Hjlt).
    by exists i, j.
  - intros H. split; [by apply nanargmax_all_nan|by apply nanargmin_all_nan].
Qed.

(** ** When the report is completed *)

Lemma getitem_first_last col :
  (0 < length (elements col))%nat →
  ∃ v0 vl, getitem col 0 = Ok v0 ∧ getitem col (-1) = Ok vl.
Proof.
  intros Hlen.
  destruct (elements col) as [|v l] eqn:Hl; [simpl in Hlen; lia|].
  exists v. destruct (exists_last (l := v :: l)) as (l' & vl & Hsnoc); [done|].
  exists vl. split.
  - apply (getitem_lookup col 0). by rewrite Hl.
  - apply (getitem_last col vl l'). by rewrite Hl.
Qed.

Lemma getitem_float a i v :
  getitem (FloatArr a) i = Ok v → ∃ x, v = Float x.
Proof.
  intros H. apply getitem_Ok_elem in H. cbn [elements] in H.
  apply list_elem_of_fmap in H as (x & -> & _). by exists x.
Qed.

Section Completes.

Variable pct_f : double → string.
Variable pct_s : value → string.

Lemma reportable_time names data :
  reportable names data →
  (∃ s, time_at pct_s data 0 = Ok s) ∧ (∃ s, time_at pct_s data (-1) = Ok s).
Proof.
  intros (rows & Hrows & Hcols).
  destruct (Hcols "Time") as (col & Hcol & Hlen & _); [by left|].
  destruct (getitem_first_last col) as (v0 & vl & H0 & Hl); [lia|].
  unfold time_at, dict_get. rewrite Hcol. cbn [of_option].
  rewrite !result_Ok_bind, H0, Hl. split; by eexists.
Qed.

Lemma reportable_value_line names data name :
  reportable names data → name ∈ names →
  (∃ s, value_line pct_f pct_s data 0 name = Ok s) ∧
  (∃ s, value_line pct_f pct_s data (-1) name = Ok s).
Proof.
  intros (rows & Hrows & Hcols) Hname.
  destruct (Hcols name) as (col & Hcol & Hlen & Hfloat); [by right|].
  destruct (getitem_first_last col) as (v0 & vl & H0 & Hl); [lia|].
  unfold value_line, dict_get. rewrite Hcol. cbn [of_option].
  rewrite !result_Ok_bind, H0, Hl, !result_Ok_bind.
  destruct (is_opaque name); [split; by eexists|].
  destruct Hfloat as [a ->]; [done|].
  apply getitem_float in H0 as [x0 ->]. apply getitem_float in Hl as [xl ->].
  split; by eexists.
Qed.

Lemma reportable_extreme_line names data name
    (arg : list double → result nat) :
  (∀ a x, x ∈ a → isnan x = false →
     ∃ i, arg a = Ok i ∧ (i < length a)%nat) →
  reportable names data → has_numbers names data →
  name ∈ names → is_opaque name = false →
  ∃ s, extreme_args arg data name ≫= extreme_line pct_f pct_s name = Ok s.
Proof.
  intros Harg (rows & Hrows & Hcols) Hnum Hname Hop.
  destruct (Hnum name Hname Hop) as (a & Hcol & (x & Hx & Hn)%Exists_exists).
  destruct (Hcols name) as (col & Hcol' & Hlen & _); [by right|].
  rewrite Hcol in Hcol'. injection Hcol' as <-.
  cbn [elements] in Hlen. rewrite length_fmap in Hlen.
  destruct (Hcols "Time") as (tcol & Htcol & Htlen & _); [by left|].
  destruct (Harg a x Hx Hn) as (i & Hi & Hlt).
  destruct (lookup_lt_is_Some_2 a i Hlt) as [y Hy].
  destruct (lookup_lt_is_Some_2 (elements tcol) i) as [t Ht]; [lia|].
  unfold extreme_args, dict_get. rewrite Hcol, Htcol. cbn [of_option].
  rewrite !result_Ok_bind, Hi, result_Ok_bind.
  rewrite (getitem_lookup (FloatArr a) i (Float y))
    by (cbn [elements]; by rewrite list_lookup_fmap, Hy).
  rewrite result_Ok_bind. cbn [of_option].
  rewrite result_Ok_bind, (getitem_lookup tcol i t Ht), !result_Ok_bind.
  unfold extreme_line. cbn [fst snd fmt_f]. rewrite result_Ok_bind.
  by eexists.
Qed.

Lemma section_completes_aux (propdata reviewdata : table) names modelname :
  reportable names propdata → reportable names reviewdata →
  has_numbers names reviewdata →
  outcome (_writeReportData pct_f pct_s propdata reviewdata names modelname) =
    Ok tt.
Proof.
  intros Hp Hr Hnum.
  pose proof (writeReportData_report_lines pct_f pct_s propdata reviewdata names
                modelname) as Hw.
  assert (Hlines : ∃ ls, report_lines pct_f pct_s propdata reviewdata names
                           modelname = Ok ls).
  { unfold report_lines.
    destruct (reportable_time _ _ Hp) as [[ps0 ->] _].
    destruct (reportable_time _ _ Hr) as [[rs0 ->] [rsl ->]].
    destruct (mapM_total (value_line pct_f pct_s propdata 0) names) as [l1 ->].
    { intros name Hname. apply (reportable_value_line _ _ _ Hp Hname). }
    destruct (mapM_total (value_line pct_f pct_s reviewdata 0) names) as [l2 ->].
    { intros name Hname. apply (reportable_value_line _ _ _ Hr Hname). }
    destruct (mapM_total (max_line pct_f pct_s reviewdata) (numeric_names names))
      as [l3 ->].
    { intros name [Hop Hname]%list_elem_of_filter.
      apply (reportable_extreme_line names); try done. apply nanargmax_Ok_lt. }
    destruct (mapM_total (min_line pct_f pct_s reviewdata) (numeric_names names))
      as [l4 ->].
    { intros name [Hop Hname]%list_elem_of_filter.
      apply (reportable_extreme_line names); try done. apply nanargmin_Ok_lt. }
    destruct (mapM_total (value_line pct_f pct_s reviewdata (-1)) names)
      as [l5 ->].
    { intros name Hname. apply (reportable_value_line _ _ _ Hr Hname). }
    rewrite !result_Ok_bind. by eexists. }
  destruct Hlines as [ls Hls]. rewrite Hls in Hw. by rewrite Hw.
Qed.

(** X11: A section is completed whenever both tables can be reported (the
    Time column and the named columns have one length, at least one
    row, and the numeric columns hold floats) and no numeric column of
    the review table is all NaN. *)
Theorem section_completes (propdata reviewdata : table) names modelname :
  reportable names propdata → reportable names reviewdata →
  has_numbers names reviewdata →
  outcome (_writeReportData pct_f pct_s propdata reviewdata names modelname) =
    Ok tt.
Proof. apply section_completes_aux. Qed.

End Completes.

Lemma enumerate_lookup {A} (l : list A) num (x : A) :
  l !! num = Some x → (num, x) ∈ enumerate l.
Proof.
  intros H. unfold enumerate. apply list_elem_of_lookup. exists num.
  apply lookup_zip_with_Some. exists num, x. split; [done|]. split; [|done].
  apply lookup_seq. split; [done|]. by eapply lookup_lt_Some.
Qed.

Lemma plot_file_numbersb_sound fs np_double filename names :
  plot_file_numbersb fs np_double filename names = true →
  plot_file_numbers fs np_double filename names.
Proof.
  unfold plot_file_numbersb, plot_file_numbers.
  destruct (fs filename) as [[|header datalines]|]; try done.
  rewrite forallb_forall. intros H. exists header, datalines.
  split; [done|]. intros num name Hname Hop.
  specialize (H (num, name)). cbn [fst snd] in H. rewrite Hop in H.
  cbn [orb] in H.
  apply existsb_exists in H as (line & Hline & Hx).
  2: { apply list_elem_of_In. by apply enumerate_lookup. }
  destruct (tokens line !! num) as [tok|] eqn:Htok; [|done].
  cbn [mbind option_bind] in Hx.
  destruct (np_double tok) as [x|] eqn:Hnp; [|done].
  exists line, tok, x. split; [by apply list_elem_of_In|].
  split; [done|]. split; [done|]. by apply negb_true_iff.
Qed.

Lemma plotorder_registered name :
  name ∈ plotorder →
  is_Some (fileparts !! name) ∧ is_Some (headerinfo !! name).
Proof.
  unfold plotorder. intros H.
  repeat (apply elem_of_cons in H as [->|H]; [split; by eexists|]).
  by apply elem_of_nil in H.
Qed.

Section ReportCompletes.

Variable fs : string → option (list string).
Variable np_double : string → option double.
Variable pct_f : double → string.
Variable pct_s : value → string.

Lemma read_column_numeric num name datalines col :
  is_opaque name = false →
  read_column np_double num name datalines = Ok col → ∃ a, col = FloatArr a.
Proof.
  intros Hop. unfold read_column. rewrite Hop.
  destruct (mapM _ datalines) as [a|]; [|done]. intros [= <-]. by exists a.
Qed.

Lemma readfile_reportable filename sub rest :
  names sub = "Time" :: rest →
  plot_file_complete fs np_double filename (names sub) →
  ∃ t, _readfile fs np_double filename sub = Ok t ∧ reportable rest t.
Proof.
  intros Hnames (header & line & dl & Hfs & Hwf).
  destruct (readfile_total fs np_double filename sub header (line :: dl) Hfs Hwf)
    as [t Ht].
  exists t. split; [done|]. exists (S (length dl)). split; [lia|].
  intros name Hname.
  assert (Hin : name ∈ names sub).
  { rewrite Hnames. destruct Hname as [->|Hname]; [by left|by right]. }
  destruct (last_position _ _ Hin) as [k Hpos].
  pose proof Ht as Ht'. rewrite (readfile_lines _ _ _ _ _ _ Hfs) in Ht'.
  destruct (read_columns_new _ _ _ _ _ _ _ _ Ht' Hpos) as (col & Hcol & Hlook).
  exists col. split; [done|]. split.
  - apply read_column_Ok in Hcol. apply Forall2_length in Hcol.
    by rewrite <- Hcol.
  - intros Hop. by apply (read_column_numeric _ _ _ _ Hop Hcol).
Qed.

Lemma readfile_has_numbers filename sub rest t :
  names sub = "Time" :: rest →
  _readfile fs np_double filename sub = Ok t →
  plot_file_numbers fs np_double filename (names sub) →
  has_numbers rest t.
Proof.
  intros Hnames Ht (header & datalines & Hfs & Hnum) name Hname Hop.
  assert (Hin : name ∈ names sub) by (rewrite Hnames; by right).
  destruct (last_position _ _ Hin) as [k Hpos].
  rewrite (readfile_lines _ _ _ _ _ _ Hfs) in Ht.
  destruct (read_columns_new _ _ _ _ _ _ _ _ Ht Hpos) as (col & Hcol & Hlook).
  destruct (read_column_numeric _ _ _ _ Hop Hcol) as [a ->].
  exists a. split; [done|].
  destruct (Hnum k name (proj1 Hpos) Hop) as (line & tok & x & Hline & Htok & Hx & Hn).
  apply read_column_Ok in Hcol. cbn [elements] in Hcol.
  apply list_elem_of_lookup in Hline as [i Hi].
  destruct (Forall2_lookup_l _ _ _ _ _ Hcol Hi) as (v & Hv & tok' & Htok' & Hcell).
  cbn [Nat.add] in Htok'. rewrite Htok in Htok'. injection Htok' as <-.
  unfold cell in Hcell. rewrite Hop, Hx in Hcell. injection Hcell as <-.
  apply Exists_exists. exists x. split; [|done].
  rewrite list_lookup_fmap in Hv.
  destruct (a !! i) as [y|] eqn:Hy; [|done]. injection Hv as ->.
  by eapply list_elem_of_lookup_2.
Qed.

Lemma section_of_completes propschedule reviewschedule name part sub :
  fileparts !! name = Some part →
  headerinfo !! name = Some sub →
  plot_file_complete fs np_double (propschedule ++ part) (names sub) →
  plot_file_complete fs np_double (reviewschedule ++ part) (names sub) →
  plot_file_numbers fs np_double (reviewschedule ++ part) (names sub) →
  outcome (section_of fs np_double pct_f pct_s propschedule reviewschedule name) =
    Ok tt.
Proof.
  intros Hpart Hsub Hp Hr Hnum.
  destruct (headerinfo_Time name sub Hsub) as [rest Hnames].
  destruct (readfile_reportable _ _ rest Hnames Hp) as (p & Hpt & Hprep).
  destruct (readfile_reportable _ _ rest Hnames Hr) as (r & Hrt & Hrrep).
  pose proof (readfile_has_numbers _ _ rest r Hnames Hrt Hnum) as Hrnum.
  unfold section_of, read_pair, dict_get. rewrite Hpart, Hsub.
  cbn [of_option]. rewrite !result_Ok_bind, Hpt, result_Ok_bind, Hrt.
  rewrite result_Ok_bind, W_lift_Ok_bind, Hnames.
  by apply section_completes_aux.
Qed.

(** X12: The report is completed for every pair of schedules whose plot
    files, for the models of the display order, have a header and at
    least one data line, are well formed for the model's schema, and,
    in the review schedule, hold a number that is not NaN in every
    numeric column. *)
Theorem report_completes propschedule reviewschedule :
  (∀ name part sub,
     name ∈ plotorder →
     fileparts !! name = Some part → headerinfo !! name = Some sub →
     plot_file_complete fs np_double (propschedule ++ part) (names sub) ∧
     plot_file_complete fs np_double (reviewschedule ++ part) (names sub) ∧
     plot_file_numbers fs np_double (reviewschedule ++ part) (names sub)) →
  (writeChecklistData fs np_double pct_f pct_s propschedule reviewschedule
     initial_state).2 = Ok tt.
Proof.
  intros Hfiles.
  destruct (writeChecklistData_sections fs np_double pct_f pct_s propschedule
              reviewschedule) as (Hr & _).
  rewrite Hr. apply for_all_Ok. apply Forall_forall. intros name Hname.
  destruct (plotorder_registered name Hname) as [[part Hpart] [sub Hsub]].
  destruct (Hfiles name part sub Hname Hpart Hsub) as (Hp & Hrev & Hnum).
  by apply (section_of_completes _ _ name part sub).
Qed.

End ReportCompletes.

Lemma complete_schedules_are_reported :
  (writeChecklistData fs_complete Reference.np_double Reference.pct_f
     Reference.pct_s "MAY0712A" "MAY1412A" initial_state).2 = Ok tt.
Proof.
  apply report_completes. intros name part sub Hname Hpart Hsub.
  assert (Hfile : ∀ schedule,
            fs_complete (schedule ++ part) = Some (plot_file (length (names sub))) →
            plot_file_complete fs_complete Reference.np_double
              (schedule ++ part) (names sub) ∧
            plot_file_numbers fs_complete Reference.np_double
              (schedule ++ part) (names sub)).
  { intros schedule Hfs. split.
    - eexists _, _, _. split; [exact Hfs|].
      apply well_formedb_sound. clear Hfs. revert Hname Hpart Hsub.
      unfold plotorder. intros Hname.
      repeat (apply elem_of_cons in Hname as [->|Hname];
              [intros _ [= <-]%(inj Some); vm_compute; reflexivity|]).
      by apply elem_of_nil in Hname.
    - apply plot_file_numbersb_sound. unfold plot_file_numbersb. rewrite Hfs.
      clear Hfs. revert Hname Hpart Hsub.
      unfold plotorder. intros Hname.
      repeat (apply elem_of_cons in Hname as [->|Hname];
              [intros _ [= <-]%(inj Some); vm_compute; reflexivity|]).
      by apply elem_of_nil in Hname. }
  assert (Hp : fs_complete ("MAY0712A" ++ part) =
               Some (plot_file (length (names sub))) ∧
               fs_complete ("MAY1412A" ++ part) =
               Some (plot_file (length (names sub)))).
  { revert Hname Hpart Hsub. unfold plotorder. intros Hname.
    repeat (apply elem_of_cons in Hname as [->|Hname];
            [intros [= <-]%(inj Some) [= <-]%(inj Some);
             split; vm_compute; reflexivity|]).
    by apply elem_of_nil in Hname. }
  destruct Hp as [Hp Hr].
  destruct (Hfile "MAY0712A" Hp) as [Hpc _].
  destruct (Hfile "MAY1412A" Hr) as [Hrc Hrn].
  split; [exact Hpc|]. split; [exact Hrc|exact Hrn].
Defined.

(** ** The exceptions of the two writers *)

Lemma bind_Raise {A B} (m : result A) (f : A → result B) e :
  m ≫= f = Raise e → m = Raise e ∨ ∃ a, m = Ok a ∧ f a = Raise e.
Proof.
  destruct m as [a|e']; intros H; [right; by exists a|left].
  revert H. unfold_result. simpl. by intros [= ->].
Qed.

Lemma getitem_Raise col i e : getitem col i = Raise e → e = IndexError.
Proof.
  unfold getitem. destruct (_ && _); [|by intros [= <-]].
  destruct (elements col !! _); [done|]. by intros [= <-].
Qed.

Lemma nanargmax_Raise a e : nanargmax a = Raise e → e = ValueError.
Proof.
  unfold nanargmax, _replace_nan. destruct (_ && _); [by intros [= <-]|].
  unfold argmax. destruct (_ <$> a) as [|x l]; [by intros [= <-]|].
  by destruct (isnan x).
Qed.

Lemma nanargmin_Raise a e : nanargmin a = Raise e → e = ValueError.
Proof.
  unfold nanargmin, _replace_nan. destruct (_ && _); [by intros [= <-]|].
  unfold argmin. destruct (_ <$> a) as [|x l]; [by intros [= <-]|].
  by destruct (isnan x).
Qed.

Lemma readfile_Raise fs np_double filename sub e :
  _readfile fs np_double filename sub = Raise e →
  e = FileNotFoundError ∨ e = IndexError ∨ e = ValueError.
Proof.
  unfold _readfile. destruct (fs filename) as [[|header datalines]|].
  - intros [= <-]. by right; left.
  - intros He. apply read_columns_Raise in He. by right.
  - intros [= <-]. by left.
Qed.

Lemma readfile_typed fs np_double filename sub rest t :
  names sub = "Time" :: rest →
  _readfile fs np_double filename sub = Ok t → typed rest t.
Proof.
  intros Hnames Ht name Hname.
  assert (Hin : name ∈ names sub).
  { rewrite Hnames. destruct Hname as [->|Hname]; [by left|by right]. }
  destruct (last_position _ _ Hin) as [k Hpos].
  destruct (readfile_Ok_lines _ _ _ _ _ Ht) as (header & datalines & Hfs).
  rewrite (readfile_lines _ _ _ _ _ _ Hfs) in Ht.
  destruct (read_columns_new _ _ _ _ _ _ _ _ Ht Hpos) as (col & Hcol & Hlook).
  exists col. split; [done|]. intros Hop.
  by apply (read_column_numeric _ _ _ _ _ Hop Hcol).
Qed.

Section Exceptions.

Variable pct_f : double → string.
Variable pct_s : value → string.

Lemma time_at_Raise names data i e :
  typed names data → time_at pct_s data i = Raise e → e = IndexError.
Proof.
  intros Hty. destruct (Hty "Time") as (col & Hcol & _); [by left|].
  unfold time_at, dict_get. rewrite Hcol. cbn [of_option].
  rewrite result_Ok_bind. intros [H|(v & _ & H)]%bind_Raise; [|done].
  by apply getitem_Raise in H.
Qed.

Lemma value_line_Raise names data i name e :
  typed names data → name ∈ names →
  value_line pct_f pct_s data i name = Raise e → e = IndexError.
Proof.
  intros Hty Hname. destruct (Hty name) as (col & Hcol & Hfloat); [by right|].
  unfold value_line, dict_get. rewrite Hcol. cbn [of_option].
  rewrite result_Ok_bind. intros [H|(v & Hv & H)]%bind_Raise.
  { by apply getitem_Raise in H. }
  destruct (is_opaque name); [done|].
  destruct Hfloat as [a ->]; [done|].
  apply getitem_float in Hv as [x ->]. done.
Qed.

Lemma extreme_Raise names data name (arg : list double → result nat) e :
  (∀ a e, arg a = Raise e → e = ValueError) →
  typed names data → name ∈ names → is_opaque name = false →
  extreme_args arg data name ≫= extreme_line pct_f pct_s name = Raise e →
  e = IndexError ∨ e = ValueError.
Proof.
  intros Harg Hty Hname Hop.
  destruct (Hty name) as (col & Hcol & [a ->]); [by right|done|].
  destruct (Hty "Time") as (tcol & Htcol & _); [by left|].
  unfold extreme_args, dict_get. rewrite Hcol, Htcol. cbn [of_option].
  rewrite result_Ok_bind.
  intros [H|([v t] & Hargs & H)]%bind_Raise.
  - apply bind_Raise in H as [H|(i & _ & H)]; [right; by apply Harg in H|].
    apply bind_Raise in H as [H|(v & _ & H)];
      [left; by apply getitem_Raise in H|].
    cbn [of_option] in H. rewrite result_Ok_bind in H.
    apply bind_Raise in H as [H|(t & _ & H)]; [|done].
    left. by apply getitem_Raise in H.
  - apply bind_Ok in Hargs as (i & _ & Hargs).
    apply bind_Ok in Hargs as (v' & Hv & Hargs).
    cbn [of_option] in Hargs. rewrite result_Ok_bind in Hargs.
    apply bind_Ok in Hargs as (t' & _ & [= <- <-]).
    apply getitem_float in Hv as [x ->]. done.
Qed.

Lemma report_lines_Raise propdata reviewdata names modelname e :
  typed names propdata → typed names reviewdata →
  report_lines pct_f pct_s propdata reviewdata names modelname = Raise e →
  e = IndexError ∨ e = ValueError.
Proof.
  intros Hp Hr. unfold report_lines.
  intros [H|(? & _ & H)]%bind_Raise;
    [left; exact (time_at_Raise names propdata _ e Hp H)|].
  apply bind_Raise in H as [H|(? & _ & H)].
  { apply mapM_Raise in H as (name & Hname & H). left.
    exact (value_line_Raise names propdata _ name e Hp Hname H). }
  apply bind_Raise in H as [H|(? & _ & H)];
    [left; exact (time_at_Raise names reviewdata _ e Hr H)|].
  apply bind_Raise in H as [H|(? & _ & H)].
  { apply mapM_Raise in H as (name & Hname & H). left.
    exact (value_line_Raise names reviewdata _ name e Hr Hname H). }
  apply bind_Raise in H as [H|(? & _ & H)].
  { apply mapM_Raise in H as (name & [Hop Hname]%list_elem_of_filter & H).
    exact (extreme_Raise names reviewdata name nanargmax e nanargmax_Raise
             Hr Hname Hop H). }
  apply bind_Raise in H as [H|(? & _ & H)].
  { apply mapM_Raise in H as (name & [Hop Hname]%list_elem_of_filter & H).
    exact (extreme_Raise names reviewdata name nanargmin e nanargmin_Raise
             Hr Hname Hop H). }
  apply bind_Raise in H as [H|(? & _ & H)];
    [left; exact (time_at_Raise names reviewdata _ e Hr H)|].
  apply bind_Raise in H as [H|(? & _ & H)]; [|done].
  apply mapM_Raise in H as (name & Hname & H). left.
  exact (value_line_Raise names reviewdata _ name e Hr Hname H).
Qed.

Lemma section_Raise propdata reviewdata names modelname e :
  typed names propdata → typed names reviewdata →
  outcome (_writeReportData pct_f pct_s propdata reviewdata names modelname) =
    Raise e →
  e = IndexError ∨ e = ValueError.
Proof.
  intros Hp Hr He.
  pose proof (writeReportData_report_lines pct_f pct_s propdata reviewdata names
                modelname) as Hw.
  destruct (report_lines _ _ _ _ _ _) as [ls|e'] eqn:Hls.
  - rewrite Hw in He. done.
  - rewrite Hw in He. injection He as ->.
    by apply (report_lines_Raise _ _ _ _ _ Hp Hr Hls).
Qed.

Variable fs : string → option (list string).
Variable np_double : string → option double.

Lemma section_of_Raise propschedule reviewschedule name e :
  name ∈ plotorder →
  outcome (section_of fs np_double pct_f pct_s propschedule reviewschedule name) =
    Raise e →
  e = FileNotFoundError ∨ e = IndexError ∨ e = ValueError.
Proof.
  intros Hname.
  destruct (plotorder_registered name Hname) as [[part Hpart] [sub Hsub]].
  destruct (headerinfo_Time name sub Hsub) as [rest Hnames].
  unfold section_of, read_pair, dict_get. rewrite Hpart, Hsub.
  cbn [of_option]. rewrite !result_Ok_bind.
  destruct (_readfile fs np_double (propschedule ++ part) sub) as [p|e1] eqn:Hp.
  2: { intros [= <-]. by apply readfile_Raise in Hp. }
  rewrite result_Ok_bind.
  destruct (_readfile fs np_double (reviewschedule ++ part) sub) as [r|e2] eqn:Hr.
  2: { intros [= <-]. by apply readfile_Raise in Hr. }
  rewrite result_Ok_bind, W_lift_Ok_bind, Hnames. intros He. right.
  apply (section_Raise p r rest (title sub) e); [| |done].
  - exact (readfile_typed fs np_double _ sub rest p Hnames Hp).
  - exact (readfile_typed fs np_double _ sub rest r Hnames Hr).
Qed.

Lemma writeChecklistData_Raise propschedule reviewschedule e :
  (writeChecklistData fs np_double pct_f pct_s propschedule reviewschedule
     initial_state).2 = Raise e →
  e = FileNotFoundError ∨ e = IndexError ∨ e = ValueError.
Proof.
  destruct (writeChecklistData_sections fs np_double pct_f pct_s propschedule
              reviewschedule) as (Hr & _).
  rewrite Hr. intros He.
  apply for_Raise in He as (before & failing & after & Hsplit & _ & He & _).
  apply (section_of_Raise propschedule reviewschedule failing); [|done].
  rewrite Hsplit. apply elem_of_app. right. by left.
Qed.

(** X13: The exceptions of the report.  The construction of an object
    with a review schedule runs [writeChecklistData].  Without a
    propagation schedule ([None], an option of the script that was
    not given) it ends in [TypeError], at [None + "..."].  With one
    it ends, if it raises, in [FileNotFoundError] (a plot file is
    missing), [IndexError] (a short line, or a file without data
    lines) or [ValueError] (a token that is not a number, or a column
    that is all NaN), never in [KeyError] or [TypeError]. *)
Theorem report_exceptions reviewschedule w :
  (LoadReviewTools fs np_double pct_f pct_s None (Some reviewschedule) w).2 =
    Raise TypeError ∧
  ∀ propschedule e,
    (LoadReviewTools fs np_double pct_f pct_s (Some propschedule)
       (Some reviewschedule) w).2 = Raise e →
    e = FileNotFoundError ∨ e = IndexError ∨ e = ValueError.
Proof.
  split; [done|]. intros propschedule e. unfold LoadReviewTools, __init__.
  pose proof (writeChecklistData_Raise propschedule reviewschedule e) as H.
  destruct (writeChecklistData _ _ _ _ propschedule reviewschedule initial_state)
    as [st res]. exact H.
Qed.

End Exceptions.

Lemma partial_schedule_raises_FileNotFoundError :
  let w := mkWorld ∅ [] in
  (LoadReviewTools fs_partial Reference.np_double Reference.pct_f
     Reference.pct_s (Some "MAY0712A") (Some "MAY1412A") w).2 =
    Raise FileNotFoundError ∧
  (LoadReviewTools fs_partial Reference.np_double Reference.pct_f
     Reference.pct_s None (Some "MAY1412A") w).2 = Raise TypeError ∧
  (FileNotFoundError = FileNotFoundError ∨ FileNotFoundError = IndexError ∨
   FileNotFoundError = ValueError).
Proof.
  intros w.
  assert (H : (LoadReviewTools fs_partial Reference.np_double Reference.pct_f
                 Reference.pct_s (Some "MAY0712A") (Some "MAY1412A") w).2 =
              Raise FileNotFoundError) by (vm_compute; reflexivity).
  split; [exact H|].
  destruct (report_exceptions Reference.pct_f Reference.pct_s fs_partial
              Reference.np_double "MAY1412A" w) as [Hnone Hsome].
  split; [exact Hnone|].
  exact (Hsome "MAY0712A" FileNotFoundError H).
Defined.

(** ** [writeChecklistData] called again on the same object *)

Lemma headerinfo_names_NoDup name sub :
  headerinfo !! name = Some sub → NoDup (names sub).
Proof.
  intros H. apply elem_of_list_to_map_2 in H. unfold headerinfo_list in H.
  repeat (apply elem_of_cons in H as [[= -> ->]|H];
          [apply (bool_decide_unpack _); by vm_compute|]).
  by apply elem_of_nil in H.
Qed.

Lemma headerinfo_oba :
  headerinfo !! "oba" =
    Some {| columns := 5;
            names := ["Time"; "4RT700T"; "4RT700T_0"; "Pitch"; "Roll"];
            title := "OBA: Forward Bulkhead" |}.
Proof. vm_compute. reflexivity. Qed.

(** X14: After a run of [writeChecklistData] that completed, a second
    call on the same object raises whatever the files hold: the
    registry has lost the Time names, so the first model is read
    without a Time column.  The second call opens its report anew,
    so it starts from an empty output file.  Either the files of the
    first model do not parse under the shortened schema and the new
    report stays empty, or they do and the section raises [KeyError]
    after its five heading lines.  Nothing is printed. *)
Theorem second_report_run_raises fs fs' np_double pct_f pct_s
    propschedule reviewschedule propschedule' reviewschedule' :
  let run := writeChecklistData fs np_double pct_f pct_s propschedule
               reviewschedule initial_state in
  let again := writeChecklistData fs' np_double pct_f pct_s propschedule'
                 reviewschedule'
                 (mkState (self_headerinfo run.1) [] (sys_stdout run.1)) in
  run.2 = Ok tt →
  raises again.2 ∧
  sys_stdout again.1 = sys_stdout run.1 ∧
  (outfile again.1 = [] ∨
   again.2 = Raise KeyError ∧
   outfile again.1 =
     [dashes ++ nl; "OBA: Forward Bulkhead" ++ " Report" ++ nl;
      dashes ++ nl ++ nl; "Propagation:" ++ nl; "------------" ++ nl]).
Proof.
  intros run again Hrun.
  destruct (writeChecklistData_sections fs np_double pct_f pct_s propschedule
              reviewschedule) as (_ & _ & _ & Hok & _).
  fold run in Hok. destruct (Hok Hrun) as [_ Hpop]. clear Hok.
  destruct (Hpop "oba") as (sub & first & rest & Hsub & Hnames & Hreg).
  { unfold plotorder. left. }
  rewrite headerinfo_oba in Hsub. injection Hsub as <-.
  cbn [names columns title] in Hnames, Hreg. injection Hnames as <- <-.
  clear Hpop.
  set (st0 := mkState (self_headerinfo run.1) [] (sys_stdout run.1)) in again.
  assert (Hbody : ∃ st' e,
            checklist_body fs' np_double pct_f pct_s propschedule'
              reviewschedule' st0 "oba" = (st', Raise e) ∧
            sys_stdout st' = sys_stdout run.1 ∧
            (outfile st' = [] ∨
             e = KeyError ∧
             outfile st' =
               [dashes ++ nl; "OBA: Forward Bulkhead" ++ " Report" ++ nl;
                dashes ++ nl ++ nl; "Propagation:" ++ nl;
                "------------" ++ nl])).
  { unfold checklist_body. subst st0. cbn [self_headerinfo outfile sys_stdout].
    destruct (read_pair fs' np_double propschedule' reviewschedule'
                (self_headerinfo run.1) "oba")
      as [[[sub' p] r]|e] eqn:Hpair.
    - apply read_pair_Ok in Hpair as (part & _ & Hsub' & Hp & _).
      rewrite Hreg in Hsub'. injection Hsub' as <-. cbn [names title app].
      assert (Htime : p !! "Time" = None).
      { apply eq_None_not_Some. intros Hsome.
        apply (readfile_dom fs' np_double _ _ p "Time" Hp) in Hsome.
        cbn [names] in Hsome. revert Hsome.
        refine (bool_decide_eq_false_1 _ _). by vm_compute. }
      rewrite (section_KeyError pct_f pct_s p r _ _ Htime).
      cbn [outcome written].
      eexists _, KeyError. split; [reflexivity|]. cbn [outfile sys_stdout].
      split; [done|]. right. done.
    - eexists _, e. split; [reflexivity|]. cbn [outfile sys_stdout].
      split; [done|]. by left. }
  destruct Hbody as (st' & e & Hbody & Hstd & Hout).
  assert (Hagain : again = (st', Raise e)).
  { subst again. unfold writeChecklistData, plotorder. cbn [for_state].
    by rewrite Hbody. }
  rewrite Hagain. cbn [fst snd]. split; [by exists e|]. split; [done|].
  destruct Hout as [Hout|[-> Hout]]; [by left|by right].
Qed.

(** ** [writePropData]: the lines of one model *)

Lemma for_filter {A} (P : A → Prop) `{∀ x, Decision (P x)}
    (g : A → W unit) l :
  for_ l (λ x, if bool_decide (P x) then g x else mret tt) =
  for_ (filter P l) g.
Proof.
  induction l as [|x l IH]; [done|]. rewrite for_cons, IH, filter_cons.
  destruct (decide (P x)) as [Hx|Hx].
  - by rewrite bool_decide_eq_true_2.
  - rewrite bool_decide_eq_false_2 by done. by rewrite W_ret_bind.
Qed.

Section EndingGroup.

Variable fs : string → option (list string).
Variable np_double : string → option double.
Variable pct_f : double → string.
Variable pct_s : value → string.
Variable propschedule : string.
Variable hinfo : gmap string subheader.

Let line (propdata : table) (loc : string) : result string :=
  dict_get propdata loc ≫= λ col,
  getitem col (-1) ≫= λ v,
  fmt_f pct_f v ≫= λ s,
  Ok (" " ++ loc ++ " : " ++ s ++ nl).

Let float_line (loc : string) (x : double) : string :=
  " " ++ loc ++ " : " ++ pct_f x ++ nl.

Let ends_with (propdata : table) (loc : string) (x : double) : Prop :=
  ∃ xs, propdata !! loc = Some (FloatArr (xs ++ [x])).

Lemma line_float propdata loc x :
  ends_with propdata loc x → line propdata loc = Ok (float_line loc x).
Proof.
  intros [xs Hcol]. subst line. cbn beta. unfold dict_get. rewrite Hcol.
  cbn [of_option]. rewrite result_Ok_bind.
  rewrite (getitem_last _ (Float x) (Float <$> xs)); [done|].
  cbn [elements]. by rewrite fmap_app.
Qed.

Lemma line_bytes propdata loc col l b :
  propdata !! loc = Some col → elements col = (l ++ [Bytes b])%list →
  line propdata loc = Raise TypeError.
Proof.
  intros Hcol Hl. subst line. cbn beta. unfold dict_get. rewrite Hcol.
  cbn [of_option]. rewrite result_Ok_bind.
  by rewrite (getitem_last _ (Bytes b) l).
Qed.

Lemma lines_loop propdata before lasts rest :
  Forall2 (ends_with propdata) before lasts →
  for_ (before ++ rest) (λ loc, lift (line propdata loc) ≫= write) =
  let w := for_ rest (λ loc, lift (line propdata loc) ≫= write) in
  mkW (zip_with float_line before lasts ++ written w) (outcome w).
Proof.
  induction 1 as [|loc x before lasts Hx _ IH]; cbn zeta.
  - cbn [app zip_with]. by destruct (for_ rest _).
  - rewrite <- app_comm_cons, for_cons, (line_float _ _ _ Hx), W_lift_Ok_bind.
    rewrite IH. cbn [zip_with]. unfold write, mbind, W_bind. done.
Qed.

Lemma group_unfold num name part sub propdata :
  fileparts !! name = Some part →
  hinfo !! name = Some sub →
  _readfile fs np_double (propschedule ++ part) sub = Ok propdata →
  prop_body fs np_double pct_f pct_s propschedule hinfo (num, name) =
  ((if (num =? 0)%nat
    then lift (time_at pct_s propdata (-1)) ≫= λ t,
         write ("Time of Validity:  " ++ t ++ nl)
    else mret tt) ≫= λ _,
   for_ (propagated (names sub))
     (λ loc, lift (line propdata loc) ≫= write)).
Proof.
  intros Hpart Hsub Hread. unfold prop_body, dict_get.
  rewrite Hpart, Hsub. cbn [of_option]. rewrite !result_Ok_bind, Hread.
  rewrite result_Ok_bind, W_lift_Ok_bind.
  by rewrite (for_filter (λ loc, loc ∈ propnames)).
Qed.

Lemma time_of_validity num propdata tcol tl tlast (w : W unit) :
  (num = 0%nat →
   propdata !! "Time" = Some tcol ∧ elements tcol = (tl ++ [tlast])%list) →
  ((if (num =? 0)%nat
    then lift (time_at pct_s propdata (-1)) ≫= λ t,
         write ("Time of Validity:  " ++ t ++ nl)
    else mret tt) ≫= λ _, w) =
  mkW ((if (num =? 0)%nat
        then ["Time of Validity:  " ++ pct_s tlast ++ nl] else []) ++
       written w) (outcome w).
Proof.
  intros Htime. destruct num as [|num]; cbn [Nat.eqb].
  - destruct Htime as [Hcol Hl]; [done|].
    unfold time_at, dict_get. rewrite Hcol. cbn [of_option].
    rewrite result_Ok_bind, (getitem_last _ tlast tl Hl), result_Ok_bind.
    rewrite W_lift_Ok_bind. unfold write. by destruct w.
  - rewrite W_ret_bind. by destruct w.
Qed.

Lemma group_lines num name part sub propdata tcol tl tlast lasts :
  fileparts !! name = Some part →
  hinfo !! name = Some sub →
  _readfile fs np_double (propschedule ++ part) sub = Ok propdata →
  (num = 0%nat →
   propdata !! "Time" = Some tcol ∧ elements tcol = (tl ++ [tlast])%list) →
  Forall2 (λ loc x, ∃ xs, propdata !! loc = Some (FloatArr (xs ++ [x])))
    (propagated (names sub)) lasts →
  prop_body fs np_double pct_f pct_s propschedule hinfo (num, name) =
  mkW ((if (num =? 0)%nat
        then ["Time of Validity:  " ++ pct_s tlast ++ nl] else []) ++
       zip_with (λ loc x, " " ++ loc ++ " : " ++ pct_f x ++ nl)
         (propagated (names sub)) lasts)
      (Ok tt).
Proof.
  intros Hpart Hsub Hread Htime Hlasts.
  rewrite (group_unfold _ _ _ _ _ Hpart Hsub Hread).
  rewrite (time_of_validity _ _ _ _ _ _ Htime).
  rewrite <- (app_nil_r (propagated (names sub))) at 1 2.
  rewrite (lines_loop _ _ _ _ Hlasts). cbn zeta. cbn [for_ written outcome].
  by rewrite !app_nil_r.
Qed.

(** X15: The lines of a model in the ending configuration.  When every
    column of the model that is in [propnames] is numeric and not
    empty, the model's turn completes and writes, for the first model
    of the display order, the Time of Validity with the last Time of
    its table, and then one line for each such column, in the order
    of the schema, with the name and [%f] of the last value; columns
    that are not in [propnames] give no line. *)
Theorem ending_group_lines num name part sub propdata tcol tl tlast lasts :
  fileparts !! name = Some part →
  hinfo !! name = Some sub →
  _readfile fs np_double (propschedule ++ part) sub = Ok propdata →
  (num = 0%nat →
   propdata !! "Time" = Some tcol ∧ elements tcol = (tl ++ [tlast])%list) →
  Forall2 (λ loc x, ∃ xs, propdata !! loc = Some (FloatArr (xs ++ [x])))
    (propagated (names sub)) lasts →
  prop_body fs np_double pct_f pct_s propschedule hinfo (num, name) =
  mkW ((if (num =? 0)%nat
        then ["Time of Validity:  " ++ pct_s tlast ++ nl] else []) ++
       zip_with (λ loc x, " " ++ loc ++ " : " ++ pct_f x ++ nl)
         (propagated (names sub)) lasts)
      (Ok tt).
Proof. apply group_lines. Qed.

Lemma group_stops_at_bytes num name part sub propdata tcol tl tlast
    before lasts loc after col l b :
  fileparts !! name = Some part →
  hinfo !! name = Some sub →
  _readfile fs np_double (propschedule ++ part) sub = Ok propdata →
  (num = 0%nat →
   propdata !! "Time" = Some tcol ∧ elements tcol = (tl ++ [tlast])%list) →
  propagated (names sub) = (before ++ loc :: after)%list →
  Forall2 (λ loc x, ∃ xs, propdata !! loc = Some (FloatArr (xs ++ [x])))
    before lasts →
  propdata !! loc = Some col → elements col = (l ++ [Bytes b])%list →
  prop_body fs np_double pct_f pct_s propschedule hinfo (num, name) =
  mkW ((if (num =? 0)%nat
        then ["Time of Validity:  " ++ pct_s tlast ++ nl] else []) ++
       zip_with (λ loc x, " " ++ loc ++ " : " ++ pct_f x ++ nl) before lasts)
      (Raise TypeError).
Proof.
  intros Hpart Hsub Hread Htime Hsplit Hlasts Hcol Hl.
  rewrite (group_unfold _ _ _ _ _ Hpart Hsub Hread).
  rewrite (time_of_validity _ _ _ _ _ _ Htime).
  rewrite Hsplit, (lines_loop _ _ _ _ Hlasts). cbn zeta.
  rewrite for_cons, (line_bytes _ _ _ _ _ Hcol Hl).
  cbn [written outcome]. by rewrite !app_nil_r.
Qed.

(** X16: A column of byte strings that is in [propnames] stops the ending
    configuration: the turn of its model raises [TypeError] at this
    column, after the lines of the columns before it; no line is
    written for the column or for those after it. *)
Theorem ending_group_stops_at_bytes num name part sub propdata tcol tl tlast
    before lasts loc after col l b :
  fileparts !! name = Some part →
  hinfo !! name = Some sub →
  _readfile fs np_double (propschedule ++ part) sub = Ok propdata →
  (num = 0%nat →
   propdata !! "Time" = Some tcol ∧ elements tcol = (tl ++ [tlast])%list) →
  propagated (names sub) = (before ++ loc :: after)%list →
  Forall2 (λ loc x, ∃ xs, propdata !! loc = Some (FloatArr (xs ++ [x])))
    before lasts →
  propdata !! loc = Some col → elements col = (l ++ [Bytes b])%list →
  prop_body fs np_double pct_f pct_s propschedule hinfo (num, name) =
  mkW ((if (num =? 0)%nat
        then ["Time of Validity:  " ++ pct_s tlast ++ nl] else []) ++
       zip_with (λ loc x, " " ++ loc ++ " : " ++ pct_f x ++ nl) before lasts)
      (Raise TypeError).
Proof. apply group_stops_at_bytes. Qed.

End EndingGroup.

Lemma W_bind_outcome_Raise {A B} (m : W A) (f : A → W B) e :
  outcome (m ≫= f) = Raise e →
  outcome m = Raise e ∨ ∃ a, outcome m = Ok a ∧ outcome (f a) = Raise e.
Proof.
  destruct (outcome m) as [a|e'] eqn:Hm.
  - rewrite (W_bind_Ok _ _ _ Hm). intros H. right. exists a. split; [done|exact H].
  - rewrite (W_bind_Raise _ _ _ Hm). intros H. left.
    simpl in H. by injection H as ->.
Qed.

Section EndingExceptions.

Variable fs : string → option (list string).
Variable np_double : string → option double.
Variable pct_f : double → string.
Variable pct_s : value → string.
Variable propschedule : string.

Lemma prop_body_Raise num name e :
  name ∈ plotorder →
  outcome (prop_body fs np_double pct_f pct_s propschedule headerinfo
             (num, name)) = Raise e →
  e = FileNotFoundError ∨ e = IndexError ∨ e = ValueError ∨ e = TypeError.
Proof.
  intros Hname.
  destruct (plotorder_registered name Hname) as [[part Hpart] [sub Hsub]].
  destruct (headerinfo_Time name sub Hsub) as [rest Hnames].
  unfold prop_body, dict_get. rewrite Hpart, Hsub. cbn [of_option].
  rewrite !result_Ok_bind.
  destruct (_readfile fs np_double (propschedule ++ part) sub) as [t|e1] eqn:Ht.
  2: { intros [= <-]. apply readfile_Raise in Ht.
       destruct Ht as [-> | [-> | ->]]; auto. }
  rewrite result_Ok_bind, W_lift_Ok_bind, Hnames. cbn [drop]. rewrite drop_0.
  pose proof (readfile_typed fs np_double _ sub rest t Hnames Ht) as Hty.
  intros [H|(? & _ & H)]%W_bind_outcome_Raise.
  - destruct (num =? 0)%nat; [|done].
    apply W_bind_outcome_Raise in H as [H|(? & _ & H)]; [|done].
    right; left. exact (time_at_Raise pct_s rest t _ e Hty H).
  - apply for_Raise in H as (before & loc & after & Hsplit & _ & H & _).
    destruct (bool_decide (loc ∈ propnames)); [|done].
    apply W_bind_outcome_Raise in H as [H|(? & _ & H)]; [|done].
    cbn [lift outcome] in H.
    destruct (Hty loc) as (col & Hcol & _).
    { right. rewrite Hsplit. apply elem_of_app. right. by left. }
    unfold dict_get in H. rewrite Hcol in H. cbn [of_option] in H.
    rewrite result_Ok_bind in H.
    apply bind_Raise in H as [H|(v & _ & H)].
    { right; left. by apply getitem_Raise in H. }
    apply bind_Raise in H as [H|(s & _ & H)]; [|done].
    destruct v; [|done]. injection H as <-. auto.
Qed.

(** X17: The exceptions of the ending configuration: a run of
    [writePropData] on a new object ends in [FileNotFoundError],
    [IndexError], [ValueError] or [TypeError]; never in [KeyError],
    and never without an exception. *)
Theorem ending_configuration_exceptions :
  ∃ e, (writePropData fs np_double pct_f pct_s propschedule initial_state).2 =
         Raise e ∧
    (e = FileNotFoundError ∨ e = IndexError ∨ e = ValueError ∨ e = TypeError).
Proof.
  unfold writePropData. change (self_headerinfo initial_state) with headerinfo.
  destruct (prop_loop_fails fs np_double pct_f pct_s propschedule) as [e He].
  rewrite He. exists e. split; [done|].
  apply for_Raise in He as (before & [num name] & after & Hsplit & _ & He & _).
  apply (prop_body_Raise num name e); [|done].
  apply (enumerate_elem plotorder num). rewrite Hsplit.
  apply elem_of_app. right. by left.
Qed.

End EndingExceptions.

(** ** The ending configuration of a complete schedule *)

Lemma Forall_exists_Forall2 {A B} (P : A → B → Prop) l :
  Forall (λ x, ∃ y, P x y) l → ∃ k, Forall2 P l k.
Proof.
  induction 1 as [|x l [y Hy] _ [k Hk]]; [by exists []|].
  exists (y :: k). by constructor.
Qed.

Lemma nonempty_snoc {A} (l : list A) :
  (0 < length l)%nat → ∃ l' x, l = (l' ++ [x])%list.
Proof.
  induction l as [|y l IH] using rev_ind; [simpl; lia|]. intros _. by exists l, y.
Qed.

Lemma for_prefix_Raise {A} (body : A → W unit) l1 x l2 e :
  Forall (λ y, outcome (body y) = Ok tt) l1 →
  outcome (body x) = Raise e →
  for_ (l1 ++ x :: l2) body =
  mkW (concat ((λ y, written (body y)) <$> l1) ++ written (body x)) (Raise e).
Proof.
  intros Hall Hx. induction Hall as [|y l1 Hy _ IH].
  - cbn [app]. by rewrite (for_cons_Raise _ _ _ _ Hx).
  - rewrite <- app_comm_cons, (for_cons_Ok _ _ _ Hy), IH.
    cbn [written outcome]. rewrite fmap_cons. cbn [concat]. by rewrite <- app_assoc.
Qed.

Section CompletePropagation.

Variable fs : string → option (list string).
Variable np_double : string → option double.
Variable pct_f : double → string.
Variable pct_s : value → string.
Variable propschedule : string.

Let group := prop_body fs np_double pct_f pct_s propschedule headerinfo.

Lemma reportable_last rest (t : table) name :
  reportable rest t → name = "Time" ∨ name ∈ rest →
  ∃ col l v, t !! name = Some col ∧ elements col = (l ++ [v])%list.
Proof.
  intros (rows & Hrows & Hcols) Hname.
  destruct (Hcols name Hname) as (col & Hcol & Hlen & _).
  destruct (nonempty_snoc (elements col)) as (l & v & Hl); [lia|].
  by exists col, l, v.
Qed.

Lemma reportable_ends_with rest (t : table) loc :
  reportable rest t → loc ∈ rest → is_opaque loc = false →
  ∃ x xs, t !! loc = Some (FloatArr (xs ++ [x])).
Proof.
  intros (rows & Hrows & Hcols) Hloc Hop.
  destruct (Hcols loc) as (col & Hcol & Hlen & Hfloat); [by right|].
  destruct (Hfloat Hop) as [a ->]. cbn [elements] in Hlen.
  rewrite length_fmap in Hlen.
  destruct (nonempty_snoc a) as (xs & x & ->); [lia|]. by exists x, xs.
Qed.

Lemma propagated_rest rest loc : loc ∈ propagated ("Time" :: rest) → loc ∈ rest.
Proof.
  unfold propagated. cbn [drop]. rewrite drop_0.
  by intros [_ H]%list_elem_of_filter.
Qed.

(** The turn of a model whose columns in [propnames] are all numeric. *)
Lemma group_complete num name part sub :
  fileparts !! name = Some part →
  headerinfo !! name = Some sub →
  plot_file_complete fs np_double (propschedule ++ part) (names sub) →
  forallb (λ loc, negb (is_opaque loc)) (propagated (names sub)) = true →
  outcome (group (num, name)) = Ok tt ∧
  length (written (group (num, name))) =
    ((if (num =? 0)%nat then 1 else 0) + length (propagated (names sub)))%nat.
Proof.
  intros Hpart Hsub Hfile Hnum.
  destruct (headerinfo_Time name sub Hsub) as [rest Hnames].
  destruct (readfile_reportable fs np_double _ sub rest Hnames Hfile)
    as (t & Ht & Hrep).
  destruct (reportable_last rest t "Time" Hrep) as (tcol & tl & tlast & Htcol & Htl);
    [by left|].
  destruct (Forall_exists_Forall2
              (λ loc x, ∃ xs, t !! loc = Some (FloatArr (xs ++ [x])))
              (propagated (names sub))) as [lasts Hlasts].
  { apply Forall_forall. intros loc Hloc.
    apply (reportable_ends_with rest); [done| |].
    - apply propagated_rest. by rewrite <- Hnames.
    - rewrite forallb_forall in Hnum. apply negb_true_iff, Hnum.
      by apply list_elem_of_In. }
  subst group. cbn beta.
  rewrite (group_lines fs np_double pct_f pct_s propschedule headerinfo num name
             part sub t tcol tl tlast lasts Hpart Hsub Ht (λ _, conj Htcol Htl)
             Hlasts).
  cbn [outcome written]. split; [done|].
  rewrite length_app, length_zip_with.
  apply Forall2_length in Hlasts. rewrite <- Hlasts, Nat.min_id.
  by destruct (num =? 0)%nat.
Qed.

(** The turn of [acisfp], whose column [SI] is opaque. *)
Lemma group_acisfp num part sub :
  fileparts !! "acisfp" = Some part →
  headerinfo !! "acisfp" = Some sub →
  plot_file_complete fs np_double (propschedule ++ part) (names sub) →
  outcome (group (S num, "acisfp")) = Raise TypeError ∧
  length (written (group (S num, "acisfp"))) = 16%nat.
Proof.
  intros Hpart Hsub Hfile.
  assert (Hsub' : headerinfo !! "acisfp" =
    Some {| columns := 23;
            names := ["Time"; "FPTEMP"; "FPTEMP_Rel"; "Solid_Angle"; "in_out";
                      "1CBAT"; "SIM_PX"; "Pitch"; "Roll"; "Sun_Body_Y";
                      "SimPos"; "FEP_Count"; "CCD_Count"; "Vid_Board";
                      "Clocking"; "CTI"; "Radmon_Enabled"; "DH_Heater";
                      "ACIS_NIL_Undercover"; "SI"; "Cold_FP"; "FPTEMP_Limit";
                      "Within_Limit"];
            title := "ISIM: ACIS FP" |}) by (vm_compute; reflexivity).
  rewrite Hsub' in Hsub. injection Hsub as <-.
  set (sub := {| columns := 23; names := _; title := _ |}) in *.
  set (before := ["FPTEMP"; "FPTEMP_Rel"; "Solid_Angle"; "in_out"; "1CBAT";
                  "Roll"; "Sun_Body_Y"; "SimPos"; "FEP_Count"; "CCD_Count";
                  "Vid_Board"; "Clocking"; "CTI"; "Radmon_Enabled";
                  "DH_Heater"; "ACIS_NIL_Undercover"]).
  assert (Hsplit : propagated (names sub) =
            (before ++ "SI" :: ["Cold_FP"; "FPTEMP_Limit"; "Within_Limit"])%list)
    by (vm_compute; reflexivity).
  destruct (readfile_reportable fs np_double _ sub (tail (names sub)) eq_refl Hfile)
    as (t & Ht & Hrep).
  destruct (Forall_exists_Forall2
              (λ loc x, ∃ xs, t !! loc = Some (FloatArr (xs ++ [x]))) before)
    as [lasts Hlasts].
  { apply Forall_forall. intros loc Hloc.
    apply (reportable_ends_with (tail (names sub))); [done| |].
    - revert Hloc. subst before. cbn [names sub tail].
      rewrite !elem_of_cons. rewrite !elem_of_nil. intuition auto.
    - revert Hloc. subst before.
      repeat (intros [->|Hloc]%elem_of_cons; [vm_compute; reflexivity|];
              revert Hloc).
      by intros ?%elem_of_nil. }
  destruct (reportable_last _ t "SI" Hrep) as (col & l & v & Hcol & Hl).
  { right. cbn [names sub tail]. rewrite !elem_of_cons. intuition auto. }
  assert (Hbytes : ∃ b, v = Bytes b).
  { destruct Hfile as (header & line & dl & Hfs & _).
    destruct (readfile_column fs np_double _ sub header (line :: dl) t 19%nat
                "SI" Hfs Ht) as (col' & Hcol' & Hall).
    { split; [done|]. intros num' Hlt.
      do 23 (destruct num' as [|num']; [first [lia|done]|]). done. }
    rewrite Hcol in Hcol'. injection Hcol' as <-.
    assert (Hv : v ∈ elements col)
      by (rewrite Hl; apply elem_of_app; right; left).
    apply list_elem_of_lookup in Hv as [i Hi].
    destruct (Forall2_lookup_r _ _ _ _ _ Hall Hi) as (ln & _ & tok & _ & Hcell).
    exists tok. unfold cell in Hcell.
    replace (is_opaque "SI") with true in Hcell by (vm_compute; reflexivity).
    congruence. }
  destruct Hbytes as [b ->].
  subst group. cbn beta.
  rewrite (group_stops_at_bytes fs np_double pct_f pct_s propschedule headerinfo
             (S num) "acisfp" part sub t (BytesArr []) [] (Bytes "")
             before lasts "SI" ["Cold_FP"; "FPTEMP_Limit"; "Within_Limit"]
             col l b Hpart Hsub' Ht ltac:(done) Hsplit Hlasts Hcol Hl).
  cbn [outcome written Nat.eqb app]. split; [done|].
  rewrite length_zip_with. apply Forall2_length in Hlasts.
  rewrite <- Hlasts. reflexivity.
Qed.

(** X18: On a propagation schedule whose plot files, for the models
    of the display order, have a header and at least one data line
    and are well formed, [writePropData] completes the nine models
    before [acisfp] and stops in [acisfp] at the column [SI] with
    [TypeError]: the ending configuration then holds 60 lines, the
    Time of Validity and a line for every column in [propnames] of
    the nine models and of [acisfp] before [SI]; nothing is printed. *)
Theorem complete_propagation_raises_TypeError :
  (∀ name part sub,
     name ∈ plotorder →
     fileparts !! name = Some part → headerinfo !! name = Some sub →
     plot_file_complete fs np_double (propschedule ++ part) (names sub)) →
  let run := writePropData fs np_double pct_f pct_s propschedule initial_state in
  run.2 = Raise TypeError ∧
  sys_stdout run.1 = [] ∧
  length (outfile run.1) = 60%nat.
Proof.
  intros Hfiles run.
  assert (Hgroup : ∀ num name, name ∈ plotorder → name ≠ "acisfp" →
            outcome (group (num, name)) = Ok tt ∧
            ∃ sub, headerinfo !! name = Some sub ∧
              length (written (group (num, name))) =
                ((if (num =? 0)%nat then 1 else 0) +
                 length (propagated (names sub)))%nat).
  { intros num name Hname Hne.
    destruct (plotorder_registered name Hname) as [[part Hpart] [sub Hsub]].
    destruct (group_complete num name part sub Hpart Hsub
                (Hfiles name part sub Hname Hpart Hsub)) as [Hok Hlen].
    - revert Hname Hne Hsub. unfold plotorder.
      repeat (intros [->|Hname]%elem_of_cons;
              [intros Hne [= <-]%(inj Some); first [done|vm_compute; reflexivity]|];
              revert Hname).
      by intros ?%elem_of_nil.
    - split; [done|]. by exists sub. }
  destruct (plotorder_registered "acisfp") as [[part Hpart] [sub Hsub]].
  { unfold plotorder. repeat constructor. }
  destruct (group_acisfp 8 part sub Hpart Hsub
              (Hfiles "acisfp" part sub ltac:(unfold plotorder; repeat constructor)
                 Hpart Hsub)) as [Hfail Hlen].
  assert (Hloop : for_ (enumerate plotorder) group =
            mkW (concat ((λ y, written (group y)) <$>
                   [(0%nat, "oba"); (1%nat, "tank"); (2%nat, "mups");
                    (3%nat, "psmc"); (4%nat, "dpa"); (5%nat, "dea");
                    (6%nat, "aca"); (7%nat, "pline03t"); (8%nat, "pline04t")]) ++
                 written (group (9%nat, "acisfp"))) (Raise TypeError)).
  { change (enumerate plotorder) with
      ([(0%nat, "oba"); (1%nat, "tank"); (2%nat, "mups"); (3%nat, "psmc");
        (4%nat, "dpa"); (5%nat, "dea"); (6%nat, "aca"); (7%nat, "pline03t");
        (8%nat, "pline04t")] ++ [(9%nat, "acisfp")])%list.
    apply (for_prefix_Raise group _ (9%nat, "acisfp") [] TypeError); [|done].
    repeat (apply Forall_cons; split;
            [apply Hgroup; [unfold plotorder; repeat constructor|done]|]).
    apply Forall_nil_2. }
  subst run. unfold writePropData.
  change (self_headerinfo initial_state) with headerinfo. fold group.
  rewrite Hloop. cbn [outcome written fst snd sys_stdout outfile initial_state app].
  split; [done|]. split; [done|].
  rewrite length_app, Hlen. cbn [fmap list_fmap concat].
  rewrite !length_app. cbn [length].
  repeat match goal with
  | |- context [length (written (group (?n, ?m)))] =>
      let H := fresh in
      destruct (Hgroup n m) as [_ (s & Hs & H)];
        [unfold plotorder; repeat constructor|done|];
      rewrite H; clear H;
      vm_compute in Hs; injection Hs as <-
  end.
  vm_compute. reflexivity.
Qed.

End CompletePropagation.

Lemma complete_propagation_schedule :
  let run := writePropData fs_complete Reference.np_double Reference.pct_f
               Reference.pct_s "MAY0712A" initial_state in
  run.2 = Raise TypeError ∧ sys_stdout run.1 = [] ∧
  length (outfile run.1) = 60%nat.
Proof.
  apply complete_propagation_raises_TypeError.
  intros name part sub Hname Hpart Hsub.
  assert (Hfs : fs_complete ("MAY0712A" ++ part) =
                Some (plot_file (length (names sub)))).
  { revert Hname Hpart Hsub. unfold plotorder. intros Hname.
    repeat (apply elem_of_cons in Hname as [->|Hname];
            [intros [= <-]%(inj Some) [= <-]%(inj Some);
             vm_compute; reflexivity|]).
    by apply elem_of_nil in Hname. }
  eexists _, _, _. split; [exact Hfs|].
  apply well_formedb_sound. clear Hfs. revert Hname Hpart Hsub.
  unfold plotorder. intros Hname.
  repeat (apply elem_of_cons in Hname as [->|Hname];
          [intros _ [= <-]%(inj Some); vm_compute; reflexivity|]).
  by apply elem_of_nil in Hname.
Defined.

(** ** The registry *)

(** X19: Every schema of the registry starts with Time, names no column
    twice and declares as many columns as it has names, so a table
    read under it has [columns] columns; and every model with a
    schema has a file part, except [cc]. *)
Theorem registry_well_formed name sub :
  headerinfo !! name = Some sub →
  (∃ rest, names sub = "Time" :: rest) ∧
  NoDup (names sub) ∧
  columns sub = length (names sub) ∧
  (∀ fs np_double filename t,
     _readfile fs np_double filename sub = Ok t → size t = columns sub) ∧
  (is_Some (fileparts !! name) ↔ name ≠ "cc").
Proof.
  intros H. split; [by apply (headerinfo_Time name)|].
  pose proof (headerinfo_names_NoDup name sub H) as Hnd. split; [done|].
  assert (Hcols : columns sub = length (names sub) ∧
                  (is_Some (fileparts !! name) ↔ name ≠ "cc")).
  { apply elem_of_list_to_map_2 in H. unfold headerinfo_list in H.
    repeat (apply elem_of_cons in H as [[= -> ->]|H];
            [split; [reflexivity|];
             first [ split; [done|]; intros _; by eexists
                   | split; [by intros [? [=]]|done] ]|]).
    by apply elem_of_nil in H. }
  destruct Hcols as [Hcols Hpart]. split; [done|]. split; [|done].
  intros fs np_double filename t Ht. rewrite Hcols.
  by apply (readfile_size fs np_double filename sub t Ht).
Qed.

(** ** The names of the files *)

Lemma list_ascii_of_string_app (a b : string) :
  list_ascii_of_string (a ++ b) =
  (list_ascii_of_string a ++ list_ascii_of_string b)%list.
Proof. induction a as [|c a IH]; [done|]. simpl. by rewrite IH. Qed.

(** The last six characters, last first, of a name that ends in [suffix]. *)
Lemma last_six (a suffix : string) :
  (6 ≤ String.length suffix)%nat →
  take 6 (reverse (list_ascii_of_string (a ++ suffix))) =
  take 6 (reverse (list_ascii_of_string suffix)).
Proof.
  intros Hlen. rewrite list_ascii_of_string_app, reverse_app.
  apply take_app_le. rewrite length_reverse.
  clear a. revert Hlen. generalize 6%nat.
  induction suffix as [|c s IH]; intros n; simpl; [lia|].
  destruct n as [|n]; [lia|]. intros H. specialize (IH n). lia.
Qed.

(** X20: The writers never open a plot file for writing: the name of a
    plot file, of whatever schedule and model, is neither the name of
    a thermal report nor that of an ending configuration.  So the
    files that a run reads are as they were when it started. *)
Theorem output_is_no_plot_file schedule schedule' name part :
  fileparts !! name = Some part →
  schedule ++ part ≠ schedule' ++ "_Thermal_Load_Review_Report.txt" ∧
  schedule ++ part ≠ schedule' ++ "_Ending_Configuration.txt".
Proof.
  intros Hpart.
  assert (Hsix : take 6 (reverse (list_ascii_of_string (schedule ++ part))) =
                 reverse (list_ascii_of_string "ot.txt")).
  { apply elem_of_list_to_map_2 in Hpart.
    repeat (apply elem_of_cons in Hpart as [[= -> ->]|Hpart];
            [rewrite last_six by (simpl; lia); reflexivity|]).
    by apply elem_of_nil in Hpart. }
  split; intros Heq; rewrite Heq, last_six in Hsix by (simpl; lia);
    vm_compute in Hsix; discriminate Hsix.
Qed.

Lemma oba_plot_file_is_no_output :
  "MAY0712A" ++ "_4rt700t_plot.txt" ≠
    "MAY0712A" ++ "_Thermal_Load_Review_Report.txt" ∧
  "MAY0712A" ++ "_4rt700t_plot.txt" ≠
    "MAY0712A" ++ "_Ending_Configuration.txt".
Proof.
  apply (output_is_no_plot_file "MAY0712A" "MAY0712A" "oba").
  vm_compute. reflexivity.
Defined.

(** ** The script *)

Section ScriptRuns.

Variable fs : string → option (list string).
Variable np_double : string → option double.
Variable pct_f : double → string.
Variable pct_s : value → string.
Variable publish : string → world → world * result unit.

Lemma ending_configuration_raises p :
  raises (__init__ fs np_double pct_f pct_s p None).2.
Proof.
  unfold __init__, writePropData.
  change (self_headerinfo initial_state) with headerinfo.
  destruct (prop_loop_fails fs np_double pct_f pct_s p) as [e He].
  rewrite He. by exists e.
Qed.

Lemma LoadReviewTools_ending_raises p w :
  raises (LoadReviewTools fs np_double pct_f pct_s p None w).2.
Proof.
  unfold LoadReviewTools. destruct p as [p|]; [|by exists TypeError].
  destruct (ending_configuration_raises p) as [e He].
  destruct (__init__ _ _ _ _ p None) as [st res]. simpl in *. by exists e.
Qed.

Lemma main_ending_flag_raises a w :
  OutputPropEndingConfiguration a = true →
  raises (main fs np_double pct_f pct_s publish a w).2.
Proof.
  intros Hflag. unfold main. rewrite Hflag.
  destruct (LoadReviewTools_ending_raises (Propschedule a) w) as [e He].
  destruct (LoadReviewTools _ _ _ _ (Propschedule a) None w) as [w1 r1].
  simpl in He. subst r1. by exists e.
Qed.

(** X21: With [--OutputPropEndingConfiguration] the script ends in the
    construction of the ending configuration, which raises: the
    thermal report is not written and nothing is copied to the parent
    directory, whatever the other options are. *)
Theorem ending_configuration_flag_stops_script a w :
  OutputPropEndingConfiguration a = true →
  main fs np_double pct_f pct_s publish a w =
    LoadReviewTools fs np_double pct_f pct_s (Propschedule a) None w ∧
  raises (main fs np_double pct_f pct_s publish a w).2.
Proof.
  intros Hflag. unfold main. rewrite Hflag.
  destruct (LoadReviewTools_ending_raises (Propschedule a) w) as [e He].
  destruct (LoadReviewTools _ _ _ _ (Propschedule a) None w) as [w1 r1].
  simpl in He. subst r1. split; [done|by exists e].
Qed.

(** X22: The script reaches its end only when the ending configuration is
    not asked for and a review schedule is given; if the thermal
    report is asked for, a propagation schedule is given too and the
    report was completed.  What remains is the copy to the parent
    directory. *)
Theorem script_completes_only_for_report a w :
  (main fs np_double pct_f pct_s publish a w).2 = Ok tt →
  OutputPropEndingConfiguration a = false ∧
  ∃ r, Reviewschedule a = Some r ∧
    (OutputThermalReport a = true →
     ∃ p, Propschedule a = Some p ∧
       (writeChecklistData fs np_double pct_f pct_s p r initial_state).2 =
         Ok tt).
Proof.
  intros Hmain.
  destruct (OutputPropEndingConfiguration a) eqn:Hflag.
  { destruct (main_ending_flag_raises a w Hflag) as [e He].
    rewrite He in Hmain. done. }
  split; [done|]. unfold main in Hmain. rewrite Hflag in Hmain.
  destruct (OutputThermalReport a) eqn:Hreport.
  - destruct (Reviewschedule a) as [r|] eqn:Hr.
    + exists r. split; [done|]. intros _.
      unfold LoadReviewTools in Hmain.
      destruct (Propschedule a) as [p|]; [|done].
      exists p. split; [done|]. unfold __init__ in Hmain.
      destruct (writeChecklistData _ _ _ _ p r initial_state) as [st [[]|e]];
        [done|done].
    + destruct (LoadReviewTools_ending_raises (Propschedule a) w) as [e He].
      destruct (LoadReviewTools _ _ _ _ (Propschedule a) None w) as [w2 r2].
      simpl in He. subst r2. done.
  - destruct (Reviewschedule a) as [r|]; [|done]. exists r. by split.
Qed.

End ScriptRuns.

(** ** Examples of the further properties *)

Lemma readfile_exceptions_short_line :
  _readfile fs_columns Reference.np_double "short_plot.txt" two_columns =
    Raise IndexError ∧
  (IndexError = FileNotFoundError ↔ fs_columns "short_plot.txt" = None) ∧
  (fs_columns "short_plot.txt" = Some [] → IndexError = IndexError) ∧
  (IndexError = FileNotFoundError ∨ IndexError = IndexError ∨
   IndexError = ValueError).
Proof.
  assert (H : _readfile fs_columns Reference.np_double "short_plot.txt"
                two_columns = Raise IndexError) by (vm_compute; reflexivity).
  split; [exact H|].
  exact (readfile_exceptions fs_columns Reference.np_double "short_plot.txt"
           two_columns IndexError H).
Defined.

Lemma spec_table_columns :
  (∀ name, is_Some (spec_table !! name) ↔ name ∈ names two_columns) ∧
  (NoDup (names two_columns) → size spec_table = length (names two_columns)).
Proof.
  apply (readfile_table_columns fs_columns Reference.np_double "spec_plot.txt"
           two_columns spec_table).
  vm_compute. reflexivity.
Defined.

Lemma later_rows_of_propagation_unused :
  _writeReportData Reference.pct_f Reference.pct_s spec_table spec_table
    ["X"] "Example" =
  _writeReportData Reference.pct_f Reference.pct_s
    (<["X" := FloatArr [Reference.binary64 1]]>
       (<["Time" := BytesArr ["t0"]]> ∅))
    spec_table ["X"] "Example".
Proof.
  apply (section_uses_first_propagation_row Reference.pct_f Reference.pct_s).
  intros name [->|Hin].
  - vm_compute. reflexivity.
  - apply elem_of_cons in Hin as [->|Hin]; [|by apply elem_of_nil in Hin].
    vm_compute. reflexivity.
Defined.

Lemma section_of_empty_table :
  _writeReportData Reference.pct_f Reference.pct_s ∅ spec_table ["X"] "Example" =
  mkW [dashes ++ nl; "Example" ++ " Report" ++ nl; dashes ++ nl ++ nl;
       "Propagation:" ++ nl; "------------" ++ nl] (Raise KeyError).
Proof.
  apply (proj1 (section_without_start_time Reference.pct_f Reference.pct_s ∅
                  spec_table ["X"] "Example")).
  apply lookup_empty.
Defined.

Lemma spec_section_line_count :
  length (written (_writeReportData Reference.pct_f Reference.pct_s spec_table
                     spec_table ["X"] "Example")) = 18%nat.
Proof.
  apply (section_line_count Reference.pct_f Reference.pct_s spec_table
           spec_table ["X"] "Example").
  vm_compute. reflexivity.
Defined.

Lemma complete_run_is_mirrored :
  let section := section_of fs_complete Reference.np_double Reference.pct_f
                   Reference.pct_s "MAY0712A" "MAY1412A" in
  let run := writeChecklistData fs_complete Reference.np_double
               Reference.pct_f Reference.pct_s "MAY0712A" "MAY1412A"
               initial_state in
  let partial := section_of fs_partial Reference.np_double Reference.pct_f
                   Reference.pct_s "MAY0712A" "MAY1412A" in
  let failed := writeChecklistData fs_partial Reference.np_double
                  Reference.pct_f Reference.pct_s "MAY0712A" "MAY1412A"
                  initial_state in
  run.2 = Ok tt ∧
  outfile run.1 = concat ((λ m, written (section m)) <$> plotorder) ∧
  sys_stdout run.1 =
    (outfile run.1 ++
     ["Wrote thermal report data to " ++
      ("MAY1412A" ++ "_Thermal_Load_Review_Report.txt") ++
      "_Thermal_Load_Review_Report.txt" ++ nl ++ nl]%string)%list ∧
  failed.2 = Raise FileNotFoundError ∧
  ∃ before failing after,
    plotorder = (before ++ failing :: after)%list ∧
    Forall (λ m, outcome (partial m) = Ok tt) before ∧
    outcome (partial failing) = Raise FileNotFoundError ∧
    sys_stdout failed.1 = concat ((λ m, written (partial m)) <$> before) ∧
    outfile failed.1 = (sys_stdout failed.1 ++ written (partial failing))%list.
Proof.
  intros section run partial failed.
  assert (Hok : run.2 = Ok tt) by (vm_compute; reflexivity).
  assert (Hfail : failed.2 = Raise FileNotFoundError)
    by (vm_compute; reflexivity).
  split; [exact Hok|].
  destruct (proj1 (report_is_mirrored_on_stdout fs_complete Reference.np_double
                     Reference.pct_f Reference.pct_s "MAY0712A" "MAY1412A") Hok)
    as [Hout Hstd].
  split; [exact Hout|]. split; [exact Hstd|]. split; [exact Hfail|].
  exact (proj2 (report_is_mirrored_on_stdout fs_partial Reference.np_double
                  Reference.pct_f Reference.pct_s "MAY0712A" "MAY1412A")
           FileNotFoundError Hfail).
Defined.

Lemma complete_run_cannot_be_repeated :
  let run := writeChecklistData fs_complete Reference.np_double
               Reference.pct_f Reference.pct_s "MAY0712A" "MAY1412A"
               initial_state in
  let again := writeChecklistData fs_complete Reference.np_double
                 Reference.pct_f Reference.pct_s "MAY0712A" "MAY1412A"
                 (mkState (self_headerinfo run.1) [] (sys_stdout run.1)) in
  run.2 = Ok tt ∧ raises again.2.
Proof.
  intros run again.
  assert (Hok : run.2 = Ok tt) by (vm_compute; reflexivity).
  split; [exact Hok|].
  exact (proj1 (second_report_run_raises fs_complete fs_complete
                  Reference.np_double Reference.pct_f Reference.pct_s
                  "MAY0712A" "MAY1412A" "MAY0712A" "MAY1412A" Hok)).
Defined.

Lemma ending_lines_of_oba :
  prop_body fs_complete Reference.np_double Reference.pct_f Reference.pct_s
    "MAY0712A" headerinfo (0%nat, "oba") =
  mkW ["Time of Validity:  b'2012:128:00:05:28.000'" ++ nl;
       " 4RT700T : 20.250000" ++ nl; " 4RT700T_0 : 20.250000" ++ nl;
       " Roll : 20.250000" ++ nl] (Ok tt).
Proof.
  apply (ending_group_lines fs_complete Reference.np_double Reference.pct_f
           Reference.pct_s "MAY0712A" headerinfo 0 "oba" "_4rt700t_plot.txt"
           {| columns := 5;
              names := ["Time"; "4RT700T"; "4RT700T_0"; "Pitch"; "Roll"];
              title := "OBA: Forward Bulkhead" |}
           (plot_table ["Time"; "4RT700T"; "4RT700T_0"; "Pitch"; "Roll"])
           (BytesArr ["2012:128:00:00:00.000"; "2012:128:00:05:28.000"])
           [Bytes "2012:128:00:00:00.000"] (Bytes "2012:128:00:05:28.000")
           [other_value; other_value; other_value]).
  - vm_compute. reflexivity.
  - vm_compute. reflexivity.
  - vm_compute. reflexivity.
  - intros _. split; vm_compute; reflexivity.
  - repeat constructor; exists [one_value]; vm_compute; reflexivity.
Defined.

Lemma ending_lines_of_acisfp :
  prop_body fs_complete Reference.np_double Reference.pct_f Reference.pct_s
    "MAY0712A" headerinfo (9%nat, "acisfp") =
  mkW ((λ loc, " " ++ loc ++ " : 20.250000" ++ nl) <$>
       ["FPTEMP"; "FPTEMP_Rel"; "Solid_Angle"; "in_out"; "1CBAT"; "Roll";
        "Sun_Body_Y"; "SimPos"; "FEP_Count"; "CCD_Count"; "Vid_Board";
        "Clocking"; "CTI"; "Radmon_Enabled"; "DH_Heater";
        "ACIS_NIL_Undercover"])
      (Raise TypeError).
Proof.
  apply (ending_group_stops_at_bytes fs_complete Reference.np_double
           Reference.pct_f Reference.pct_s "MAY0712A" headerinfo 9 "acisfp"
           "_acis_fp_plot.txt"
           {| columns := 23;
              names := ["Time"; "FPTEMP"; "FPTEMP_Rel"; "Solid_Angle"; "in_out";
                        "1CBAT"; "SIM_PX"; "Pitch"; "Roll"; "Sun_Body_Y";
                        "SimPos"; "FEP_Count"; "CCD_Count"; "Vid_Board";
                        "Clocking"; "CTI"; "Radmon_Enabled"; "DH_Heater";
                        "ACIS_NIL_Undercover"; "SI"; "Cold_FP"; "FPTEMP_Limit";
                        "Within_Limit"];
              title := "ISIM: ACIS FP" |}
           (plot_table
              ["Time"; "FPTEMP"; "FPTEMP_Rel"; "Solid_Angle"; "in_out";
               "1CBAT"; "SIM_PX"; "Pitch"; "Roll"; "Sun_Body_Y";
               "SimPos"; "FEP_Count"; "CCD_Count"; "Vid_Board";
               "Clocking"; "CTI"; "Radmon_Enabled"; "DH_Heater";
               "ACIS_NIL_Undercover"; "SI"; "Cold_FP"; "FPTEMP_Limit";
               "Within_Limit"])
           (BytesArr []) [] (Bytes "")
           ["FPTEMP"; "FPTEMP_Rel"; "Solid_Angle"; "in_out"; "1CBAT"; "Roll";
            "Sun_Body_Y"; "SimPos"; "FEP_Count"; "CCD_Count"; "Vid_Board";
            "Clocking"; "CTI"; "Radmon_Enabled"; "DH_Heater";
            "ACIS_NIL_Undercover"]
           (replicate 16 other_value)
           "SI" ["Cold_FP"; "FPTEMP_Limit"; "Within_Limit"]
           (BytesArr ["21.5"; "20.25"]) [Bytes "21.5"] "20.25").
  - vm_compute. reflexivity.
  - vm_compute. reflexivity.
  - vm_cast_no_check (eq_refl (A := result table) (x := Ok (plot_table
      ["Time"; "FPTEMP"; "FPTEMP_Rel"; "Solid_Angle"; "in_out";
       "1CBAT"; "SIM_PX"; "Pitch"; "Roll"; "Sun_Body_Y";
       "SimPos"; "FEP_Count"; "CCD_Count"; "Vid_Board";
       "Clocking"; "CTI"; "Radmon_Enabled"; "DH_Heater";
       "ACIS_NIL_Undercover"; "SI"; "Cold_FP"; "FPTEMP_Limit";
       "Within_Limit"]))).
  - intros [=].
  - vm_compute. reflexivity.
  - repeat constructor; exists [one_value]; vm_compute; reflexivity.
  - vm_compute. reflexivity.
  - vm_compute. reflexivity.
Defined.

Lemma acisfp_schema_well_formed :
  ∃ sub, headerinfo !! "acisfp" = Some sub ∧
    (∃ rest, names sub = "Time" :: rest) ∧
    NoDup (names sub) ∧
    columns sub = length (names sub) ∧
    (∀ fs np_double filename t,
       _readfile fs np_double filename sub = Ok t → size t = columns sub) ∧
    (is_Some (fileparts !! "acisfp") ↔ "acisfp" ≠ "cc").
Proof.
  eexists. split; [vm_compute; reflexivity|].
  apply (registry_well_formed "acisfp"). vm_compute. reflexivity.
Defined.

Lemma header_only_oba_file :
  ∃ t, _readfile (Reference.files [("MAY0712A_4rt700t_plot.txt", ["header"])])
         Reference.np_double "MAY0712A_4rt700t_plot.txt" two_columns = Ok t ∧
    ∀ name, name ∈ names two_columns → t !! name = Some (FloatArr []).
Proof.
  apply (proj1 (header_only_file
                  (Reference.files [("MAY0712A_4rt700t_plot.txt", ["header"])])
                  Reference.np_double Reference.pct_f Reference.pct_s
                  "MAY0712A_4rt700t_plot.txt" two_columns "header" eq_refl)).
Defined.

Lemma both_flags_stop_at_ending_configuration :
  let a := mkArgs (Some "MAY0712A") (Some "MAY1412A") true true in
  let w := mkWorld ∅ [] in
  main fs_complete Reference.np_double Reference.pct_f Reference.pct_s
    publish_nothing a w =
  LoadReviewTools fs_complete Reference.np_double Reference.pct_f
    Reference.pct_s (Some "MAY0712A") None w ∧
  raises (main fs_complete Reference.np_double Reference.pct_f Reference.pct_s
            publish_nothing a w).2.
Proof.
  intros a w.
  apply (ending_configuration_flag_stops_script fs_complete Reference.np_double
           Reference.pct_f Reference.pct_s publish_nothing a w).
  reflexivity.
Defined.

Lemma report_script_completes :
  let a := mkArgs (Some "MAY0712A") (Some "MAY1412A") false true in
  (main fs_complete Reference.np_double Reference.pct_f Reference.pct_s
     publish_nothing a (mkWorld ∅ [])).2 = Ok tt ∧
  OutputPropEndingConfiguration a = false ∧
  ∃ r, Reviewschedule a = Some r ∧
    (OutputThermalReport a = true →
     ∃ p, Propschedule a = Some p ∧
       (writeChecklistData fs_complete Reference.np_double Reference.pct_f
          Reference.pct_s p r initial_state).2 = Ok tt).
Proof.
  intros a.
  assert (H : (main fs_complete Reference.np_double Reference.pct_f
                 Reference.pct_s publish_nothing a (mkWorld ∅ [])).2 = Ok tt)
    by (vm_compute; reflexivity).
  split; [exact H|].
  exact (script_completes_only_for_report fs_complete Reference.np_double
           Reference.pct_f Reference.pct_s publish_nothing a (mkWorld ∅ []) H).
Defined.

Lemma spec_column_extremes_return :
  ∃ i j, nanargmax spec_column = Ok i ∧ nanargmin spec_column = Ok j ∧
    (i < length spec_column)%nat ∧ (j < length spec_column)%nat.
Proof.
  apply (proj1 (nan_extremes_return spec_column)).
  apply Exists_cons_hd. reflexivity.
Defined.

Lemma spec_section_completes :
  outcome (_writeReportData Reference.pct_f Reference.pct_s spec_table
             spec_table ["X"] "Example") = Ok tt.
Proof.
  assert (Hrep : reportable ["X"] spec_table).
  { exists 4%nat. split; [lia|]. intros name [->|Hin].
    - exists (BytesArr ["t0"; "t1"; "t2"; "t3"]).
      split; [vm_compute; reflexivity|]. split; [reflexivity|]. intros [=].
    - apply elem_of_cons in Hin as [->|Hin]; [|by apply elem_of_nil in Hin].
      exists (FloatArr spec_column).
      split; [vm_compute; reflexivity|]. split; [reflexivity|].
      intros _. by exists spec_column. }
  apply (section_completes Reference.pct_f Reference.pct_s spec_table
           spec_table ["X"] "Example" Hrep Hrep).
  intros name Hin _.
  apply elem_of_cons in Hin as [->|Hin]; [|by apply elem_of_nil in Hin].
  exists spec_column. split; [vm_compute; reflexivity|].
  apply Exists_cons_hd. reflexivity.
Defined.
